(** * Empathetic Code Reviewer: the classification engine, embedded in Rocq

    A shallow embedding of the three keyword-scoring analyzers
    ([LanguageDetector], [SentimentAnalyzer], [CategoryClassifier]), of the
    feedback generator with its fallback, and of the orchestrator with its
    input validation, followed by the properties the specification states
    about them.

    Conventions of the embedding.
    - Python [str] is [string]; the text is taken to be ASCII, so that
      [str.lower] only moves ['A'..'Z'] and [str.strip] only removes the
      ASCII white space characters.
    - Python [float] is [Q] in the modules of the analyzers: scores are
      the exact rationals the float expressions denote.  Which of two
      computed scores is the larger can depend on the rounding, so the
      selection of a label among tied scores is treated in [Binary64], the
      same score arithmetic on binary64 floats.
    - A Python [dict] is an association list in insertion order, without
      duplicate keys; iteration, [max(d, key=d.get)] and item assignment
      are written as Python defines them.
    - A raised exception is the [Raise] case of [result].
    - The prompt text, the completion service, the report template and the
      resource table are parameters of the orchestrator. *)

From Stdlib Require Import String Ascii List Bool Arith ZArith QArith Lia Lqa.
From Stdlib Require Import DecimalString.
From Stdlib Require Floats.
Import ListNotations.

Open Scope string_scope.

(** ** Python strings *)

Module PyStr.

Definition lower_ascii (c : ascii) : ascii :=
  let n := nat_of_ascii c in
  if (65 <=? n)%nat && (n <=? 90)%nat then ascii_of_nat (n + 32) else c.

(** [s.lower()] *)
Fixpoint lower (s : string) : string :=
  match s with
  | EmptyString => EmptyString
  | String c s' => String (lower_ascii c) (lower s')
  end.

(** The characters [str.strip()] removes (ASCII part of [str.isspace]). *)
Definition is_space (c : ascii) : bool :=
  let n := nat_of_ascii c in
  ((9 <=? n)%nat && (n <=? 13)%nat) || ((28 <=? n)%nat && (n <=? 32)%nat).

Fixpoint lstrip (s : string) : string :=
  match s with
  | EmptyString => EmptyString
  | String c s' => if is_space c then lstrip s' else s
  end.

Fixpoint rstrip (s : string) : string :=
  match s with
  | EmptyString => EmptyString
  | String c s' =>
      match rstrip s' with
      | EmptyString => if is_space c then EmptyString else String c EmptyString
      | r => String c r
      end
  end.

(** [s.strip()] *)
Definition strip (s : string) : string := rstrip (lstrip s).

(** Truth value of a string: [bool(s)]. *)
Definition truthy (s : string) : bool :=
  match s with EmptyString => false | _ => true end.

(** [s.startswith(p)] *)
Definition startswith (s p : string) : bool := prefix p s.

(** [p in s] *)
Fixpoint contains (p s : string) : bool :=
  prefix p s ||
  match s with
  | EmptyString => false
  | String _ s' => contains p s'
  end.

(** [s.count(p)]: non-overlapping occurrences, scanned from the left.
    [skip] is the number of characters still covered by the last match. *)
Fixpoint count_from (p : string) (skip : nat) (s : string) : nat :=
  match s with
  | EmptyString =>
      match skip with
      | O => if prefix p EmptyString then 1 else 0
      | S _ => 0
      end
  | String _ s' =>
      match skip with
      | O => if prefix p s
             then S (count_from p (Nat.pred (String.length p)) s')
             else count_from p 0 s'
      | S k => count_from p k s'
      end
  end.

Definition count (s p : string) : nat := count_from p 0 s.

(** [s.endswith(suf)] *)
Fixpoint endswith (s suf : string) : bool :=
  (s =? suf) ||
  match s with
  | EmptyString => false
  | String _ s' => endswith s' suf
  end.

(** [x in xs] for a list of strings *)
Definition in_list (x : string) (xs : list string) : bool :=
  existsb (String.eqb x) xs.

Fixpoint all_space (s : string) : bool :=
  match s with
  | EmptyString => true
  | String c s' => is_space c && all_space s'
  end.

Fixpoint has_non_space (s : string) : bool :=
  match s with
  | EmptyString => false
  | String c s' => negb (is_space c) || has_non_space s'
  end.

Definition backslash : ascii := "092"%char.
Definition single_quote : ascii := "039"%char.
Definition double_quote : ascii := "034"%char.

Fixpoint has_char (c : ascii) (s : string) : bool :=
  match s with
  | EmptyString => false
  | String c' s' => Ascii.eqb c c' || has_char c s'
  end.

Definition hex_digit (n : nat) : ascii :=
  if (n <? 10)%nat then ascii_of_nat (48 + n) else ascii_of_nat (87 + n).

(** One character of [repr(s)]: the enclosing quote and the backslash are
    escaped, tab, line feed and carriage return have their letters, every
    other control character is written [\xhh], and a printable ASCII
    character stands for itself. *)
Definition repr_char (quote c : ascii) : string :=
  let n := nat_of_ascii c in
  if Ascii.eqb c quote || Ascii.eqb c backslash
  then String backslash (String c EmptyString)
  else if (n =? 9)%nat then String backslash "t"
  else if (n =? 10)%nat then String backslash "n"
  else if (n =? 13)%nat then String backslash "r"
  else if (n <? 32)%nat || (n =? 127)%nat
  then String backslash
         (String "x"
            (String (hex_digit (n / 16))
               (String (hex_digit (n mod 16)) EmptyString)))
  else String c EmptyString.

Fixpoint repr_body (quote : ascii) (s : string) : string :=
  match s with
  | EmptyString => EmptyString
  | String c s' => repr_char quote c ++ repr_body quote s'
  end.

(** [repr(s)], what [%r] formats: single quotes, unless the text holds a
    single quote and no double quote. *)
Definition repr (s : string) : string :=
  let quote :=
    if has_char single_quote s && negb (has_char double_quote s)
    then double_quote else single_quote in
  String quote (repr_body quote s ++ String quote EmptyString).

End PyStr.

(** ** Python floats, as rationals *)

Module PyNum.
Open Scope Q_scope.

Definition Qltb (a b : Q) : bool := negb (Qle_bool b a).

(** [min(a, b)]: Python keeps the first argument unless the second is
    strictly smaller. *)
Definition pymin (a b : Q) : Q := if Qltb b a then b else a.

Definition of_nat (n : nat) : Q := inject_Z (Z.of_nat n).

End PyNum.

(** ** Python dictionaries with string keys, in insertion order *)

Module Dict.
Import PyNum.
Open Scope Q_scope.

Definition t (V : Type) := list (string * V).

Definition keys {V} (d : t V) : list string := map fst d.
Definition values {V} (d : t V) : list V := map snd d.

Fixpoint get {V} (d : t V) (k : string) : option V :=
  match d with
  | [] => None
  | (k', v) :: d' => if String.eqb k k' then Some v else get d' k
  end.

(** [k in d] *)
Definition mem {V} (d : t V) (k : string) : bool :=
  match get d k with Some _ => true | None => false end.

(** [d[k] = f(d[k])] for a key that is present; the key keeps its place. *)
Fixpoint update {V} (d : t V) (k : string) (f : V -> V) : t V :=
  match d with
  | [] => []
  | (k', v) :: d' =>
      if String.eqb k k' then (k', f v) :: d' else (k', v) :: update d' k f
  end.

(** [d[k] = v]: a present key keeps its place, a new key goes last. *)
Definition set {V} (d : t V) (k : string) (v : V) : t V :=
  if mem d k then update d k (fun _ => v) else (d ++ [(k, v)])%list.

(** [max(d, key=d.get)] keeps the first key whose value is maximal: the
    running best is replaced only by a strictly greater value. *)
Fixpoint max_key_from (best : string) (bv : Q) (d : t Q) : string :=
  match d with
  | [] => best
  | (k, v) :: d' =>
      if Qltb bv v then max_key_from k v d' else max_key_from best bv d'
  end.

Definition max_key (d : t Q) : option string :=
  match d with
  | [] => None
  | (k, v) :: d' => Some (max_key_from k v d')
  end.

Fixpoint max_from (bv : Q) (vs : list Q) : Q :=
  match vs with
  | [] => bv
  | v :: vs' => if Qltb bv v then max_from v vs' else max_from bv vs'
  end.

(** [max(d.values())]; [None] is the [ValueError] on an empty dict. *)
Definition max_value (d : t Q) : option Q :=
  match values d with
  | [] => None
  | v :: vs => Some (max_from v vs)
  end.

End Dict.

(** ** Exceptions *)

Inductive exn : Type :=
| ValueError (msg : string)
| KeyError (key : string)
| AttributeError (msg : string)
| ServiceError (msg : string).

Inductive result (A : Type) : Type :=
| Ok (a : A)
| Raise (e : exn).
Arguments Ok {A} a.
Arguments Raise {A} e.

Definition bind {A B} (r : result A) (k : A -> result B) : result B :=
  match r with
  | Ok a => k a
  | Raise e => Raise e
  end.

Notation "x <- r ;; k" := (bind r (fun x => k))
  (at level 61, r at next level, right associativity).
Notation "' p <- r ;; k" := (bind r (fun p => k))
  (at level 61, p pattern, r at next level, right associativity).

(** ** core/models.py *)

Module Models.

Inductive SeverityLevel := CRITICAL | HIGH | MEDIUM | LOW.

Inductive CategoryType :=
| PERFORMANCE | READABILITY | CONVENTION | LOGIC | SECURITY
| MAINTAINABILITY | GENERAL.

Inductive ImpactLevel := IMPACT_HIGH | IMPACT_MEDIUM | IMPACT_LOW.

Definition severity_value (s : SeverityLevel) : string :=
  match s with
  | CRITICAL => "critical" | HIGH => "high" | MEDIUM => "medium" | LOW => "low"
  end.

Definition category_value (c : CategoryType) : string :=
  match c with
  | PERFORMANCE => "performance" | READABILITY => "readability"
  | CONVENTION => "convention" | LOGIC => "logic" | SECURITY => "security"
  | MAINTAINABILITY => "maintainability" | GENERAL => "general"
  end.

Definition impact_value (i : ImpactLevel) : string :=
  match i with
  | IMPACT_HIGH => "high" | IMPACT_MEDIUM => "medium" | IMPACT_LOW => "low"
  end.

(** The message of the [ValueError] that [Enum(value)] raises:
    ["%r is not a valid %s" % (value, cls.__qualname__)]. *)
Definition not_a_valid (class_name s : string) : string :=
  PyStr.repr s ++ " is not a valid " ++ class_name.

(** [Enum(value)]: look the value up among the members, in declaration
    order, and raise [ValueError] when there is none. *)
Definition enum_of_value {E} (class_name : string) (members : list E)
    (value : E -> string) (s : string) : result E :=
  match find (fun m => String.eqb (value m) s) members with
  | Some m => Ok m
  | None => Raise (ValueError (not_a_valid class_name s))
  end.

Definition SeverityLevel_of (s : string) : result SeverityLevel :=
  enum_of_value "SeverityLevel" [CRITICAL; HIGH; MEDIUM; LOW] severity_value s.

Definition CategoryType_of (s : string) : result CategoryType :=
  enum_of_value "CategoryType"
    [PERFORMANCE; READABILITY; CONVENTION; LOGIC; SECURITY; MAINTAINABILITY;
     GENERAL] category_value s.

Definition ImpactLevel_of (s : string) : result ImpactLevel :=
  enum_of_value "ImpactLevel" [IMPACT_HIGH; IMPACT_MEDIUM; IMPACT_LOW]
    impact_value s.

Record ReviewComment := mkReviewComment {
  original : string;
  severity : SeverityLevel;
  category : CategoryType;
  impact_level : ImpactLevel;
  confidence : Q;
  positive_rephrase : string;
  explanation : string;
  code_suggestion : string;
  learning_objective : string;
  resources : list string
}.

Record ProcessingConfig := mkProcessingConfig {
  max_comments : Z;
  max_tokens : Z;
  temperature : Q;
  top_p : Q;
  frequency_penalty : Q;
  presence_penalty : Q;
  enable_logging : bool;
  log_level : string
}.

(** The dataclass defaults. *)
Definition default_ProcessingConfig : ProcessingConfig :=
  {| max_comments := 10; max_tokens := 1500; temperature := 0.8%Q;
     top_p := 0.95%Q; frequency_penalty := 0.1%Q; presence_penalty := 0.1%Q;
     enable_logging := true; log_level := "INFO" |}.

End Models.

(** ** analysis/sentiment_analyzer.py *)

Module SentimentAnalyzer.
Import PyStr PyNum Models.
Open Scope Q_scope.

Record severity_config := {
  patterns : list string;
  weight : Q
}.

Definition severity_patterns : Dict.t severity_config :=
  [ ("critical",
      {| patterns := ["terrible"; "awful"; "horrible"; "disaster"; "broken";
                      "completely wrong"; "garbage"; "trash"; "useless";
                      "stupid"];
         weight := 4.0 |});
    ("high",
      {| patterns := ["bad"; "wrong"; "inefficient"; "poor"; "don't"; "never";
                      "avoid"; "terrible"; "horrible"; "ugly"; "messy"];
         weight := 3.0 |});
    ("medium",
      {| patterns := ["should"; "better"; "improve"; "consider"; "prefer";
                      "recommend"; "change"; "fix"; "update"; "modify"];
         weight := 2.0 |});
    ("low",
      {| patterns := ["could"; "might"; "perhaps"; "suggestion"; "minor";
                      "optional"; "nice to have"; "consider"; "maybe"];
         weight := 1.0 |}) ].

Definition positive_indicators : list string :=
  ["good"; "nice"; "great"; "excellent"; "well done"; "solid";
   "clean"; "clear"; "readable"; "elegant"; "smart"].

Definition intensity_modifiers : Dict.t Q :=
  [ ("very", 1.5); ("extremely", 2.0); ("really", 1.3); ("quite", 1.2);
    ("somewhat", 0.8); ("slightly", 0.6); ("a bit", 0.7); ("kind of", 0.8) ].

Definition constructive_indicators : list string :=
  ["suggest"; "recommend"; "consider"; "perhaps"; "maybe";
   "what if"; "how about"; "you could"; "try"; "think about"].

(** The [analysis_details] dictionary: one object, created by
    [analyze_sentiment] and mutated by the helpers it is passed to. *)
Record details := mkDetails {
  d_severity_scores : Dict.t Q;
  d_positive_indicators : list string;
  d_constructive_indicators : list string;
  d_intensity_modifiers : list (string * Q);
  d_overall_tone : string
}.

Definition append_positive (ad : details) (x : string) : details :=
  {| d_severity_scores := d_severity_scores ad;
     d_positive_indicators := d_positive_indicators ad ++ [x];
     d_constructive_indicators := d_constructive_indicators ad;
     d_intensity_modifiers := d_intensity_modifiers ad;
     d_overall_tone := d_overall_tone ad |}.

Definition append_constructive (ad : details) (x : string) : details :=
  {| d_severity_scores := d_severity_scores ad;
     d_positive_indicators := d_positive_indicators ad;
     d_constructive_indicators := d_constructive_indicators ad ++ [x];
     d_intensity_modifiers := d_intensity_modifiers ad;
     d_overall_tone := d_overall_tone ad |}.

Definition append_intensity (ad : details) (x : string * Q) : details :=
  {| d_severity_scores := d_severity_scores ad;
     d_positive_indicators := d_positive_indicators ad;
     d_constructive_indicators := d_constructive_indicators ad;
     d_intensity_modifiers := d_intensity_modifiers ad ++ [x];
     d_overall_tone := d_overall_tone ad |}.

Definition set_overall_tone (ad : details) (tone : string) : details :=
  {| d_severity_scores := d_severity_scores ad;
     d_positive_indicators := d_positive_indicators ad;
     d_constructive_indicators := d_constructive_indicators ad;
     d_intensity_modifiers := d_intensity_modifiers ad;
     d_overall_tone := tone |}.

Definition set_severity_scores (ad : details) (scores : Dict.t Q) : details :=
  {| d_severity_scores := scores;
     d_positive_indicators := d_positive_indicators ad;
     d_constructive_indicators := d_constructive_indicators ad;
     d_intensity_modifiers := d_intensity_modifiers ad;
     d_overall_tone := d_overall_tone ad |}.

(** The inner loop of [_calculate_severity_scores]: the raw score of one
    severity. *)
Definition raw_score (comment_lower : string) (config : severity_config) : Q :=
  fold_left
    (fun score pattern =>
       if contains pattern comment_lower
       then let occurrences := Nat.min (count comment_lower pattern) 3 in
            score + weight config * of_nat occurrences
       else score)
    (patterns config) 0.0.

(** [_calculate_severity_scores]; [analysis_details] is received and left
    untouched. *)
Definition _calculate_severity_scores (comment_lower : string)
    (analysis_details : details) : Dict.t Q :=
  fold_left
    (fun severity_scores '(severity, config) =>
       let score := raw_score comment_lower config in
       if Qltb 0 score
       then let normalized_score :=
              score / (of_nat (length (patterns config)) * weight config) in
            Dict.set severity_scores severity normalized_score
       else severity_scores)
    severity_patterns [].

(** The three scans at the head of [_apply_modifiers]. *)
Definition scan_positive (comment_lower : string) (ad : details)
    : nat * details :=
  fold_left
    (fun '(positive_count, ad) indicator =>
       if contains indicator comment_lower
       then (S positive_count, append_positive ad indicator)
       else (positive_count, ad))
    positive_indicators (O, ad).

Definition scan_constructive (comment_lower : string) (ad : details)
    : nat * details :=
  fold_left
    (fun '(constructive_count, ad) indicator =>
       if contains indicator comment_lower
       then (S constructive_count, append_constructive ad indicator)
       else (constructive_count, ad))
    constructive_indicators (O, ad).

Definition scan_intensity (comment_lower : string) (ad : details)
    : Q * details :=
  fold_left
    (fun '(intensity_factor, ad) '(modifier, factor) =>
       if contains modifier comment_lower
       then (intensity_factor * factor, append_intensity ad (modifier, factor))
       else (intensity_factor, ad))
    intensity_modifiers (1.0, ad).

(** The body of the final loop of [_apply_modifiers], for one severity. *)
Definition modify_one (positive_count constructive_count : nat)
    (intensity_factor : Q) (modified_scores : Dict.t Q) (severity : string)
    : Dict.t Q :=
  let m1 :=
    if (0 <? positive_count)%nat
    then Dict.update modified_scores severity
           (fun v => v * (1.0 - 0.2 * of_nat positive_count))
    else modified_scores in
  let m2 :=
    if (0 <? constructive_count)%nat
    then Dict.update m1 severity
           (fun v => v * (1.0 - 0.15 * of_nat constructive_count))
    else m1 in
  Dict.update m2 severity (fun v => v * intensity_factor).

Definition _apply_modifiers (comment_lower : string)
    (severity_scores : Dict.t Q) (analysis_details : details)
    : Dict.t Q * details :=
  let modified_scores := severity_scores in
  let '(positive_count, ad1) := scan_positive comment_lower analysis_details in
  let '(constructive_count, ad2) := scan_constructive comment_lower ad1 in
  let '(intensity_factor, ad3) := scan_intensity comment_lower ad2 in
  (fold_left (modify_one positive_count constructive_count intensity_factor)
     (Dict.keys modified_scores) modified_scores,
   ad3).

Definition nonempty {A} (l : list A) : bool :=
  match l with [] => false | _ => true end.

Definition _calculate_confidence (severity_scores : Dict.t Q)
    (analysis_details : details) : Q :=
  (* [max_value] is [None] exactly on the empty dict: [if not severity_scores] *)
  match Dict.max_value severity_scores with
  | None => 0.3
  | Some max_score =>
      let confidence := pymin (max_score * 2) 1.0 in
      let confidence :=
        if (2 <? length severity_scores)%nat then confidence * 0.8
        else confidence in
      let confidence :=
        if nonempty (d_positive_indicators analysis_details)
           || nonempty (d_constructive_indicators analysis_details)
        then confidence * 1.1 else confidence in
      pymin confidence 1.0
  end.

Definition _determine_tone (analysis_details : details) : string :=
  let positive_count := length (d_positive_indicators analysis_details) in
  let constructive_count :=
    length (d_constructive_indicators analysis_details) in
  if (0 <? positive_count)%nat && (0 <? constructive_count)%nat
  then "constructive"
  else if (0 <? positive_count)%nat then "positive"
  else if (0 <? constructive_count)%nat then "neutral-constructive"
  else if existsb (fun score => Qltb 0.7 score)
            (Dict.values (d_severity_scores analysis_details))
  then "harsh"
  else "neutral".

Definition initial_details : details :=
  {| d_severity_scores := [];
     d_positive_indicators := [];
     d_constructive_indicators := [];
     d_intensity_modifiers := [];
     d_overall_tone := "neutral" |}.

Definition analyze_sentiment (comment : string)
    : result (SeverityLevel * Q * details) :=
  let comment_lower := lower comment in
  let analysis_details := initial_details in
  let severity_scores :=
    _calculate_severity_scores comment_lower analysis_details in
  let '(modified_scores, analysis_details) :=
    _apply_modifiers comment_lower severity_scores analysis_details in
  (* [max_key] is [None] exactly on the empty dict: [if not modified_scores] *)
  match Dict.max_key modified_scores with
  | None => Ok (LOW, 0.3, analysis_details)
  | Some primary_severity_str =>
      primary_severity <- SeverityLevel_of primary_severity_str ;;
      let confidence := _calculate_confidence modified_scores analysis_details in
      let analysis_details :=
        set_overall_tone analysis_details (_determine_tone analysis_details) in
      let analysis_details :=
        set_severity_scores analysis_details modified_scores in
      Ok (primary_severity, confidence, analysis_details)
  end.

End SentimentAnalyzer.


(** ** analysis/language_detector.py *)

Module LanguageDetector.
Import PyStr PyNum.
Open Scope Q_scope.

Record language_config := {
  patterns : list string;
  strong_indicators : list string;
  file_extensions : list string
}.

Definition language_patterns : Dict.t language_config :=
  [ ("python",
      {| patterns := ["def "; "import "; "from "; "class "; ":"; "__init__";
                      "self."; "elif"; "True"; "False"; "None"; "lambda";
                      "print("; "len("];
         strong_indicators := ["def "; "import "; "__init__"; "self."];
         file_extensions := [".py"; ".pyw"] |});
    ("javascript",
      {| patterns := ["function"; "const "; "let "; "var "; "=>";
                      "console.log"; "document."; "window."; "typeof";
                      "undefined"; "null"; "==="; "!=="];
         strong_indicators := ["function"; "const "; "let "; "=>"];
         file_extensions := [".js"; ".mjs"] |});
    ("typescript",
      {| patterns := ["interface"; "type "; ": string"; ": number";
                      ": boolean"; "implements"; "extends"; "generic";
                      "namespace"; "export "];
         strong_indicators := ["interface"; ": string"; ": number";
                               "implements"];
         file_extensions := [".ts"; ".tsx"] |});
    ("java",
      {| patterns := ["public class"; "private "; "protected ";
                      "public static void"; "import java."; "System.out.";
                      "@Override"; "throws"; "extends"];
         strong_indicators := ["public class"; "public static void";
                               "import java."];
         file_extensions := [".java"] |});
    ("cpp",
      {| patterns := ["#include"; "int main"; "std::"; "cout"; "cin";
                      "namespace"; "template"; "class"; "struct";
                      "using namespace"];
         strong_indicators := ["#include"; "int main"; "std::";
                               "using namespace"];
         file_extensions := [".cpp"; ".cc"; ".cxx"; ".h"; ".hpp"] |});
    ("csharp",
      {| patterns := ["using System"; "public class"; "private "; "public ";
                      "Console.WriteLine"; "string"; "int"; "bool";
                      "namespace"];
         strong_indicators := ["using System"; "Console.WriteLine";
                               "namespace"];
         file_extensions := [".cs"] |});
    ("go",
      {| patterns := ["package "; "import ("; "func "; "var "; "type ";
                      "struct"; "interface"; "go "; "defer"; "chan"];
         strong_indicators := ["package "; "func "; "go "; "defer"];
         file_extensions := [".go"] |});
    ("rust",
      {| patterns := ["fn "; "let "; "mut "; "struct"; "enum"; "impl";
                      "trait"; "use "; "mod "; "pub "; "match"];
         strong_indicators := ["fn "; "let mut"; "impl"; "trait"];
         file_extensions := [".rs"] |}) ].

(** [_detect_from_filename]: the first language, in table order, one of
    whose extensions ends the lower-cased file name. *)
Definition _detect_from_filename (filename : string) : option string :=
  let filename_lower := lower filename in
  match find (fun '(language, config) =>
                existsb (fun ext => endswith filename_lower ext)
                        (file_extensions config))
             language_patterns with
  | Some (language, _) => Some language
  | None => None
  end.

(** The inner loop of [_analyze_patterns]: the raw score of one language. *)
Definition raw_score (code_lower : string) (config : language_config) : Q :=
  fold_left
    (fun score pattern =>
       if contains (lower pattern) code_lower
       then let weight :=
              if in_list pattern (strong_indicators config) then 2.0 else 1.0 in
            let occurrences := count code_lower (lower pattern) in
            score + weight * of_nat (Nat.min occurrences 3)
       else score)
    (patterns config) 0.0.

Definition _analyze_patterns (code_snippet : string) : Dict.t Q :=
  let code_lower := lower code_snippet in
  fold_left
    (fun language_scores '(language, config) =>
       let score := raw_score code_lower config in
       match patterns config with
       | [] => language_scores
       | _ :: _ =>
           let normalized_score :=
             score / (of_nat (length (patterns config)) * 2) in
           Dict.set language_scores language normalized_score
       end)
    language_patterns [].

(** [filename] is [None] or a string; [lang_from_file] is bound only when
    the file name is truthy, and is read only under the same test. *)
Definition detect_language (code_snippet : string) (filename : option string)
    : string * Q :=
  if negb (truthy code_snippet) || negb (truthy (strip code_snippet))
  then ("unknown", 0.0)
  else
    let lang_from_file :=
      match filename with
      | Some f => if truthy f then _detect_from_filename f else None
      | None => None
      end in
    let language_scores := _analyze_patterns code_snippet in
    let language_scores :=
      match lang_from_file with
      | Some l =>
          if truthy l && Dict.mem language_scores l
          then Dict.update language_scores l (fun v => v * 1.5)
          else language_scores
      | None => language_scores
      end in
    match Dict.max_value language_scores, Dict.max_key language_scores with
    | Some m, Some best_language =>
        if Qeq_bool m 0 then ("unknown", 0.1)
        else
          match Dict.get language_scores best_language with
          | Some v => (best_language, pymin v 1.0)
          | None => ("unknown", 0.1) (* not reached: [best_language] is a key *)
          end
    | _, _ => ("unknown", 0.1) (* [not language_scores] *)
    end.

End LanguageDetector.

(** ** analysis/category_classifier.py *)

Module CategoryClassifier.
Import PyStr PyNum Models.
Open Scope Q_scope.

Record category_config := {
  patterns : list string;
  weight : Q;
  typical_impact : string
}.

Definition category_patterns : Dict.t category_config :=
  [ ("performance",
      {| patterns := ["slow"; "inefficient"; "performance"; "loop";
                      "complexity"; "optimization"; "memory"; "cpu";
                      "algorithm"; "big-o"; "scalability"; "bottleneck";
                      "time complexity"; "space complexity"; "optimization";
                      "caching"; "lazy loading"; "eager loading"; "n+1";
                      "query optimization"];
         weight := 3.0;
         typical_impact := "high" |});
    ("readability",
      {| patterns := ["name"; "variable"; "readable"; "clear"; "confusing";
                      "understand"; "descriptive"; "meaningful";
                      "self-documenting"; "clarity"; "comment";
                      "documentation"; "explain"; "verbose"; "concise";
                      "naming"; "identifier"; "abbreviation"];
         weight := 2.0;
         typical_impact := "medium" |});
    ("convention",
      {| patterns := ["convention"; "style"; "pep"; "format"; "standard";
                      "guideline"; "consistent"; "coding standard";
                      "best practice"; "linting"; "formatting"; "indentation";
                      "spacing"; "camelcase"; "snake_case"; "pascal case";
                      "kebab-case"];
         weight := 1.5;
         typical_impact := "low" |});
    ("logic",
      {| patterns := ["logic"; "bug"; "error"; "wrong"; "issue"; "condition";
                      "boolean"; "control flow"; "branch"; "edge case";
                      "null check"; "validation"; "exception"; "handling";
                      "try-catch"; "if-else"; "switch"];
         weight := 4.0;
         typical_impact := "high" |});
    ("security",
      {| patterns := ["security"; "vulnerability"; "injection"; "validation";
                      "sanitize"; "authentication"; "authorization"; "xss";
                      "csrf"; "sql injection"; "input validation";
                      "output encoding"; "privilege escalation";
                      "data exposure"; "encryption"; "hashing"];
         weight := 5.0;
         typical_impact := "high" |});
    ("maintainability",
      {| patterns := ["maintainable"; "refactor"; "duplicate"; "dry"; "solid";
                      "coupling"; "cohesion"; "separation"; "modular";
                      "reusable"; "extensible"; "flexible"; "testable";
                      "clean code"; "technical debt"; "code smell";
                      "single responsibility"];
         weight := 2.5;
         typical_impact := "medium" |}) ].

Definition context_patterns : Dict.t (list string) :=
  [ ("performance", ["faster"; "slower"; "optimize"; "benchmark"; "profiling"]);
    ("readability", ["understand"; "confusing"; "clear"; "obvious"; "readable"]);
    ("convention", ["style guide"; "linter"; "format"; "consistent"; "standard"]);
    ("logic", ["bug"; "incorrect"; "fails"; "broken"; "wrong result"]);
    ("security", ["attack"; "exploit"; "secure"; "safe"; "protect"]);
    ("maintainability", ["maintain"; "extend"; "modify"; "change"; "evolve"]) ].

Definition impact_indicators : Dict.t (list string) :=
  [ ("high", ["critical"; "important"; "major"; "significant"; "breaking";
              "production"; "user-facing"; "data loss"; "security";
              "performance"]);
    ("medium", ["moderate"; "noticeable"; "improvement"; "enhancement";
                "quality"; "maintainability"; "readability"; "team";
                "developer experience"]);
    ("low", ["minor"; "small"; "cosmetic"; "style"; "formatting";
             "convention"; "nice to have"; "optional"; "preference"]) ].

(** The first inner loop of [_calculate_category_scores]. *)
Definition pattern_score (comment_lower : string) (config : category_config)
    : Q :=
  fold_left
    (fun score pattern =>
       if contains pattern comment_lower
       then let occurrences := Nat.min (count comment_lower pattern) 2 in
            score + weight config * of_nat occurrences
       else score)
    (patterns config) 0.0.

(** The second inner loop: one factor 1.2 for each context pattern found. *)
Definition context_boost (comment_lower : string) (category : string)
    (score : Q) : Q :=
  match Dict.get context_patterns category with
  | Some ctx =>
      fold_left
        (fun score context_pattern =>
           if contains context_pattern comment_lower then score * 1.2
           else score)
        ctx score
  | None => score
  end.

Definition raw_score (comment_lower : string) (category : string)
    (config : category_config) : Q :=
  context_boost comment_lower category (pattern_score comment_lower config).

Definition _calculate_category_scores (comment_lower : string) : Dict.t Q :=
  fold_left
    (fun category_scores '(category, config) =>
       let score := raw_score comment_lower category config in
       if Qltb 0 score
       then let normalized_score :=
              score / (of_nat (length (patterns config)) * weight config) in
            Dict.set category_scores category normalized_score
       else category_scores)
    category_patterns [].

Definition code_hints : Dict.t (list string) :=
  [ ("performance", ["for "; "while "; "loop"; "iteration";
                     "list comprehension"]);
    ("readability", ["variable"; "function"; "method"; "class"]);
    ("convention", ["import"; "def "; "class "; "function"]);
    ("logic", ["if "; "else"; "elif"; "try:"; "except:"; "return"]);
    ("security", ["input"; "request"; "user"; "data"; "password"]);
    ("maintainability", ["class"; "function"; "method"; "module"]) ].

Definition hint_count (hints : list string) (code_snippet_lower : string)
    : nat :=
  length (filter (fun hint => contains hint code_snippet_lower) hints).

(** The body of the loop of [_apply_code_context], for one entry of
    [code_hints]. *)
Definition code_step (code_snippet_lower : string)
    (category_scores : Dict.t Q) (entry : string * list string) : Dict.t Q :=
  let '(category, hints) := entry in
  if Dict.mem category_scores category
  then let hint_matches := hint_count hints code_snippet_lower in
       if (0 <? hint_matches)%nat
       then let boost_factor := 1.0 + of_nat hint_matches * 0.1 in
            Dict.update category_scores category (fun v => v * boost_factor)
       else category_scores
  else category_scores.

Definition _apply_code_context (category_scores : Dict.t Q)
    (code_snippet_lower : string) : Dict.t Q :=
  fold_left (code_step code_snippet_lower) code_hints category_scores.

Definition clear_indicators (comment_lower : string) : nat :=
  fold_left
    (fun n '(category, pats) =>
       if existsb (fun pattern => contains pattern comment_lower) pats
       then S n else n)
    context_patterns O.

Definition _calculate_confidence (category_scores : Dict.t Q)
    (comment_lower : string) : Q :=
  (* [max_value] is [None] exactly on the empty dict: [if not category_scores] *)
  match Dict.max_value category_scores with
  | None => 0.3
  | Some max_score =>
      let confidence := pymin (max_score * 1.5) 1.0 in
      let confidence :=
        if (2 <? length category_scores)%nat then confidence * 0.9
        else confidence in
      let n := clear_indicators comment_lower in
      let confidence :=
        if (n =? 1)%nat then confidence * 1.1
        else if (1 <? n)%nat then confidence * 0.8
        else confidence in
      pymin confidence 1.0
  end.

Definition _assess_impact_level (category : CategoryType)
    (comment_lower : string) : result ImpactLevel :=
  let typical_impact :=
    match Dict.get category_patterns (category_value category) with
    | Some config => typical_impact config
    | None => "medium"
    end in
  match find (fun '(impact, indicators) =>
                existsb (fun indicator => contains indicator comment_lower)
                        indicators)
             impact_indicators with
  | Some (impact, _) => ImpactLevel_of impact
  | None =>
      match category with
      | SECURITY => Ok IMPACT_HIGH
      | LOGIC | PERFORMANCE =>
          if existsb (fun word => contains word comment_lower)
               ["critical"; "major"; "serious"]
          then Ok IMPACT_HIGH else Ok IMPACT_MEDIUM
      | CONVENTION => Ok IMPACT_LOW
      | _ => ImpactLevel_of typical_impact
      end
  end.

(** [code_snippet] is [None] or a string. *)
Definition classify_comment (comment : string) (code_snippet : option string)
    : result (CategoryType * Q * ImpactLevel) :=
  let comment_lower := lower comment in
  let category_scores := _calculate_category_scores comment_lower in
  let category_scores :=
    match code_snippet with
    | Some code =>
        if truthy code then _apply_code_context category_scores (lower code)
        else category_scores
    | None => category_scores
    end in
  (* [max_key] is [None] exactly on the empty dict: [if not category_scores] *)
  match Dict.max_key category_scores with
  | None => Ok (GENERAL, 0.3, IMPACT_LOW)
  | Some primary_category_str =>
      primary_category <- CategoryType_of primary_category_str ;;
      let confidence := _calculate_confidence category_scores comment_lower in
      impact_level <- _assess_impact_level primary_category comment_lower ;;
      Ok (primary_category, confidence, impact_level)
  end.

End CategoryClassifier.

(** ** ai/feedback_generator.py *)

Module FeedbackGenerator.
Import PyStr Models.

Definition dquote : string := String (ascii_of_nat 34) EmptyString.
Definition newline : ascii := ascii_of_nat 10.

(** [s.split(sep)] for a one-character separator. *)
Fixpoint split_on (sep : ascii) (s : string) : list string :=
  match s with
  | EmptyString => [EmptyString]
  | String c s' =>
      if Ascii.eqb c sep then EmptyString :: split_on sep s'
      else match split_on sep s' with
           | [] => [String c EmptyString]
           | h :: t => String c h :: t
           end
  end.

(** [sep.join(l)] *)
Fixpoint join (sep : string) (l : list string) : string :=
  match l with
  | [] => EmptyString
  | [x] => x
  | x :: l' => x ++ sep ++ join sep l'
  end.

(** [s.replace(old, '')] for a non-empty [old]: every occurrence, scanned
    from the left without overlap, is removed. *)
Fixpoint remove_from (old : string) (skip : nat) (s : string) : string :=
  match s with
  | EmptyString => EmptyString
  | String c s' =>
      match skip with
      | S k => remove_from old k s'
      | O => if prefix old s
             then remove_from old (Nat.pred (String.length old)) s'
             else String c (remove_from old 0 s')
      end
  end.

Definition remove_all (s old : string) : string :=
  match old with
  | EmptyString => s
  | _ => remove_from old 0 s
  end.

(** [s[a:-b]] for [b > 0] *)
Definition slice (a b : nat) (s : string) : string :=
  substring a (String.length s - b - a) s.

(** The request sent to the completion service, and what comes back:
    the text of the first choice, or an exception. *)
Record chat_request := {
  engine : string;
  system_message : string;
  user_message : string;
  req_max_tokens : Z;
  req_temperature : Q;
  req_top_p : Q;
  req_frequency_penalty : Q;
  req_presence_penalty : Q
}.

Definition markers : list (string * string) :=
  [ ("POSITIVE_REPHRASE:", "rephrase"); ("EXPLANATION:", "explanation");
    ("CODE_IMPROVEMENT:", "code"); ("LEARNING_OBJECTIVE:", "learning") ].

Record parse_state := {
  sections : Dict.t string;
  current_section : option string;
  current_content : list string
}.

(** [if current_section: sections[current_section] = ...] *)
Definition flush (st : parse_state) : Dict.t string :=
  match current_section st with
  | Some sec =>
      if truthy sec
      then Dict.set (sections st) sec
             (strip (join (String newline EmptyString) (current_content st)))
      else sections st
  | None => sections st
  end.

Definition parse_line (st : parse_state) (line : string) : parse_state :=
  let line := strip line in
  match find (fun '(marker, _) => startswith line marker) markers with
  | Some (marker, name) =>
      {| sections := flush st;
         current_section := Some name;
         current_content := [strip (remove_all line marker)] |}
  | None =>
      match current_section st with
      | Some sec =>
          if truthy sec && truthy line
          then {| sections := sections st;
                  current_section := current_section st;
                  current_content := current_content st ++ [line] |}
          else st
      | None => st
      end
  end.

Definition _parse_response (content : string) : Dict.t string :=
  flush (fold_left parse_line (split_on newline content)
           {| sections := []; current_section := None;
              current_content := [] |}).

Definition get_default (d : Dict.t string) (k default : string) : string :=
  match Dict.get d k with Some v => v | None => default end.

Definition unquote (s : string) : string :=
  if startswith s dquote && endswith s dquote then slice 1 1 s else s.

Definition clean_rephrase (s : string) : string :=
  if startswith s (dquote ++ dquote) && endswith s (dquote ++ dquote)
  then slice 2 2 s
  else unquote s.

Definition clean_code (code_suggestion : string) : string :=
  let code_suggestion :=
    if contains "```" code_suggestion
    then strip (join (String newline EmptyString)
                  (filter (fun line =>
                             negb (startswith (strip line) "```")
                             && truthy (strip line))
                          (split_on newline code_suggestion)))
    else code_suggestion in
  unquote code_suggestion.

Definition set_generated (comment : ReviewComment)
    (rephrase expl code learning : string) : ReviewComment :=
  {| original := original comment;
     severity := severity comment;
     category := category comment;
     impact_level := impact_level comment;
     confidence := confidence comment;
     positive_rephrase := rephrase;
     explanation := expl;
     code_suggestion := code;
     learning_objective := learning;
     resources := resources comment |}.

Definition set_confidence (comment : ReviewComment) (c : Q) : ReviewComment :=
  {| original := original comment;
     severity := severity comment;
     category := category comment;
     impact_level := impact_level comment;
     confidence := c;
     positive_rephrase := positive_rephrase comment;
     explanation := explanation comment;
     code_suggestion := code_suggestion comment;
     learning_objective := learning_objective comment;
     resources := resources comment |}.

Definition _fallback_response (comment : ReviewComment) : ReviewComment :=
  set_confidence
    (set_generated comment
       "Great work! Here's an opportunity to enhance this further."
       "This improvement will enhance code quality and maintainability."
       "// Enhanced code would go here"
       "Focus on continuous improvement and best practices.")
    0.3%Q.

(** The arguments of the call to [openai.ChatCompletion.create]. *)
Definition completion_request (deployment_name prompt : string)
    (processing_config : ProcessingConfig) : chat_request :=
  {| engine := deployment_name;
     system_message :=
       "You are an expert senior software engineer and mentor.";
     user_message := prompt;
     req_max_tokens := max_tokens processing_config;
     req_temperature := temperature processing_config;
     req_top_p := top_p processing_config;
     req_frequency_penalty := frequency_penalty processing_config;
     req_presence_penalty := presence_penalty processing_config |}.

Section Generator.

(** [PromptEngineer.create_empathy_prompt] (its text plays no part here),
    the deployment name fixed by [_setup_openai], and the completion
    service behind [openai.ChatCompletion.create]. *)
Variable create_empathy_prompt : string -> ReviewComment -> string -> string.
Variable deployment_name : string.
Variable ChatCompletion_create : chat_request -> result string.

Definition generate_empathetic_response (code_snippet : string)
    (comment : ReviewComment) (language : string)
    (processing_config : ProcessingConfig) : ReviewComment :=
  let prompt := create_empathy_prompt code_snippet comment language in
  match ChatCompletion_create
          (completion_request deployment_name prompt processing_config) with
  | Ok text =>
      let content := strip text in
      let sections := _parse_response content in
      set_generated comment
        (clean_rephrase
           (get_default sections "rephrase" "Great work! Here's a suggestion."))
        (unquote
           (get_default sections "explanation"
              "This will enhance code quality."))
        (clean_code (get_default sections "code" "// Improved code here"))
        (get_default sections "learning" "Focus on best practices.")
  | Raise e => _fallback_response comment
  end.

End Generator.

End FeedbackGenerator.

(** ** utils/resource_manager.py *)

Module ResourceManager.

Definition lookup2 (m : Dict.t (Dict.t (list string))) (a b : string)
    : option (list string) :=
  match Dict.get m a with
  | Some inner => Dict.get inner b
  | None => None
  end.

Definition get_resources (resource_mappings : Dict.t (Dict.t (list string)))
    (language category : string) : list string :=
  let resources :=
    match lookup2 resource_mappings language category with
    | Some l => firstn 3 l
    | None => []
    end in
  match resources with
  | [] =>
      match lookup2 resource_mappings "python" category with
      | Some l => firstn 2 l
      | None => []
      end
  | _ => resources
  end.

End ResourceManager.

(** ** core/reviewer.py *)

(** The values [json.loads] produces, as [process_review] receives them. *)
#[local] Set Warnings "-register-all".
Inductive pyval : Type :=
| PNone
| PBool (b : bool)
| PInt (z : Z)
| PFloat (q : Q)
| PStr (s : string)
| PList (l : list pyval)
| PDict (d : list (string * pyval)).

Module Reviewer.
Import PyStr Models.

Definition str_of_nat (n : nat) : string :=
  NilEmpty.string_of_uint (Nat.to_uint n).

Definition str_of_Z (z : Z) : string :=
  NilEmpty.string_of_int (Z.to_int z).

(** What the reviewer's own logger records, in order. *)
Inductive event : Type :=
| InfoProcessing (n_comments : nat)
| InfoDetected (language : string) (lang_confidence : Q)
| DebugComment (i n : nat)
| InfoCompleted
| ErrorProcessing (e : exn).

Definition isinstance_str (v : pyval) : bool :=
  match v with PStr _ => true | _ => false end.

(** [not v.strip()] for a value already known to be a string. *)
Definition blank (v : pyval) : bool :=
  match v with
  | PStr s => negb (truthy (strip s))
  | _ => false
  end.

(** The loop over [enumerate(review_comments)]; [i] counts from 0. *)
Fixpoint check_comments (i : nat) (review_comments : list pyval)
    : result unit :=
  match review_comments with
  | [] => Ok tt
  | comment :: rest =>
      if negb (isinstance_str comment) || blank comment
      then Raise (ValueError
                    ("Comment " ++ str_of_nat (i + 1)
                     ++ " must be a non-empty string"))
      else check_comments (S i) rest
  end.

Fixpoint check_keys (d : list (string * pyval)) (required_keys : list string)
    : result unit :=
  match required_keys with
  | [] => Ok tt
  | key :: rest =>
      if Dict.mem d key then check_keys d rest
      else Raise (ValueError ("Input must contain '" ++ key ++ "' key"))
  end.

Definition _validate_input (processing : ProcessingConfig)
    (input_data : pyval) : result unit :=
  match input_data with
  | PDict d =>
      _ <- check_keys d ["code_snippet"; "review_comments"] ;;
      match Dict.get d "code_snippet", Dict.get d "review_comments" with
      | Some code_snippet, Some review_comments =>
          if negb (isinstance_str code_snippet) || blank code_snippet
          then Raise (ValueError "'code_snippet' must be a non-empty string")
          else
            match review_comments with
            | PList (c :: cs) =>
                if (max_comments processing
                      <? Z.of_nat (length (c :: cs)))%Z
                then Raise (ValueError
                              ("Maximum "
                               ++ str_of_Z (max_comments processing)
                               ++ " comments allowed"))
                else check_comments 0 (c :: cs)
            | _ =>
                Raise (ValueError
                         "'review_comments' must be a non-empty list")
            end
      | None, _ => Raise (KeyError "code_snippet")
      | _, None => Raise (KeyError "review_comments")
      end
  | _ => Raise (ValueError "Input must be a valid JSON object")
  end.

Section Orchestrator.

Variable processing : ProcessingConfig.
Variable resource_mappings : Dict.t (Dict.t (list string)).
Variable create_empathy_prompt : string -> ReviewComment -> string -> string.
Variable deployment_name : string.
Variable ChatCompletion_create :
  FeedbackGenerator.chat_request -> result string.
(** [HackathonFormatter.generate_hackathon_report] *)
Variable generate_hackathon_report :
  string -> list ReviewComment -> string -> string.

Definition set_resources (comment : ReviewComment) (r : list string)
    : ReviewComment :=
  {| original := original comment;
     severity := severity comment;
     category := category comment;
     impact_level := impact_level comment;
     confidence := confidence comment;
     positive_rephrase := positive_rephrase comment;
     explanation := explanation comment;
     code_suggestion := code_suggestion comment;
     learning_objective := learning_objective comment;
     resources := r |}.

(** The comment object as [_analyze_comment] builds it, before the
    generator fills it in. *)
Definition classified (comment_text : string) (severity : SeverityLevel)
    (category : CategoryType) (impact_level : ImpactLevel) (confidence : Q)
    : ReviewComment :=
  {| original := comment_text;
     severity := severity;
     category := category;
     impact_level := impact_level;
     confidence := confidence;
     positive_rephrase := EmptyString;
     explanation := EmptyString;
     code_suggestion := EmptyString;
     learning_objective := EmptyString;
     resources := [] |}.

Definition _analyze_comment (comment_text code_snippet language : string)
    : result ReviewComment :=
  '(severity, sev_confidence, sentiment_details) <-
     SentimentAnalyzer.analyze_sentiment comment_text ;;
  '(category, cat_confidence, impact_level) <-
     CategoryClassifier.classify_comment comment_text (Some code_snippet) ;;
  let comment :=
    classified comment_text severity category impact_level
      (PyNum.pymin sev_confidence cat_confidence) in
  let comment :=
    FeedbackGenerator.generate_empathetic_response create_empathy_prompt
      deployment_name ChatCompletion_create code_snippet comment language
      processing in
  Ok (set_resources comment
        (ResourceManager.get_resources resource_mappings language
           (category_value category))).

(** The loop of [process_review] over [enumerate(review_comments, 1)]. *)
Fixpoint process_comments (i n : nat) (review_comments : list pyval)
    (code_snippet language : string) (log : list event)
    : result (list ReviewComment) * list event :=
  match review_comments with
  | [] => (Ok [], log)
  | v :: rest =>
      let log := (log ++ [DebugComment i n])%list in
      match v with
      | PStr comment_text =>
          match _analyze_comment comment_text code_snippet language with
          | Ok comment =>
              match process_comments (S i) n rest code_snippet language log
              with
              | (Ok comments, log) => (Ok (comment :: comments), log)
              | (Raise e, log) => (Raise e, log)
              end
          | Raise e => (Raise e, log)
          end
      | _ => (Raise (AttributeError "lower"), log)
      end
  end.

(** [process_review]: the result (the report, or the exception that
    leaves the function) and the records the reviewer logged on the way.
    The review summary, computed from the clock for the final log line
    only, is left out. *)
Definition process_review (input_data : pyval)
    : result string * list event :=
  let reraise (e : exn) (log : list event) :=
    (@Raise string e, (log ++ [ErrorProcessing e])%list) in
  match _validate_input processing input_data with
  | Raise e => reraise e []
  | Ok _ =>
      match input_data with
      | PDict d =>
          match Dict.get d "code_snippet", Dict.get d "review_comments" with
          | Some (PStr code_snippet), Some (PList review_comments) =>
              let log := [InfoProcessing (length review_comments)] in
              let '(language, lang_confidence) :=
                LanguageDetector.detect_language code_snippet None in
              let log :=
                (log ++ [InfoDetected language lang_confidence])%list in
              match process_comments 1 (length review_comments)
                      review_comments code_snippet language log with
              | (Ok processed_comments, log) =>
                  let report :=
                    generate_hackathon_report code_snippet processed_comments
                      language in
                  (Ok report, (log ++ [InfoCompleted])%list)
              | (Raise e, log) => reraise e log
              end
          | _, _ => reraise (AttributeError "input not validated") []
          end
      | _ => reraise (AttributeError "input not validated") []
      end
  end.

End Orchestrator.

End Reviewer.

(** ** Vocabulary of the properties *)

Module Spec.
Import PyStr PyNum.
Open Scope Q_scope.

(** Position of a label in a pattern table's key list. *)
Fixpoint index_of (k : string) (ks : list string) : nat :=
  match ks with
  | [] => O
  | k' :: ks' => if String.eqb k k' then O else S (index_of k ks')
  end.

(** The entries of a table that receive a score, in table order. *)
Definition select {C} (f : string -> C -> option Q) (tbl : Dict.t C)
    : Dict.t Q :=
  flat_map (fun '(k, c) => match f k c with
                           | Some v => [(k, v)]
                           | None => []
                           end) tbl.

(** The key list [ks] lists its labels in the order of [order]. *)
Definition ordered (order ks : list string) : Prop :=
  forall pre r post, ks = (pre ++ r :: post)%list ->
    forall k', In k' post -> (index_of r order < index_of k' order)%nat.

(** The normalized score of one severity, when it gets one. *)
Definition severity_entry (comment_lower : string) (_ : string)
    (config : SentimentAnalyzer.severity_config) : option Q :=
  let score := SentimentAnalyzer.raw_score comment_lower config in
  if Qltb 0 score
  then Some (score / (of_nat (length (SentimentAnalyzer.patterns config))
                      * SentimentAnalyzer.weight config))
  else None.

(** The helper left the ['severity_scores'] and ['overall_tone'] entries of
    the details dictionary as it found them. *)
Definition untouched (ad0 ad : SentimentAnalyzer.details) : Prop :=
  SentimentAnalyzer.d_severity_scores ad
  = SentimentAnalyzer.d_severity_scores ad0 /\
  SentimentAnalyzer.d_overall_tone ad = SentimentAnalyzer.d_overall_tone ad0.

(** The normalized score of one language. *)
Definition language_entry (code_lower : string) (_ : string)
    (config : LanguageDetector.language_config) : option Q :=
  match LanguageDetector.patterns config with
  | [] => None
  | _ :: _ =>
      Some (LanguageDetector.raw_score code_lower config
            / (of_nat (length (LanguageDetector.patterns config)) * 2))
  end.

(** The normalized score of one category, when it gets one. *)
Definition category_entry (comment_lower : string) (category : string)
    (config : CategoryClassifier.category_config) : option Q :=
  let score := CategoryClassifier.raw_score comment_lower category config in
  if Qltb 0 score
  then Some (score / (of_nat (length (CategoryClassifier.patterns config))
                      * CategoryClassifier.weight config))
  else None.

(** The inputs the specification says [process_review] refuses: a code
    snippet that is not a non-empty string; a comment list that is empty,
    holds an entry that is not a string or is only white space, or is
    longer than [max_comments]. *)
Definition nonempty_string (v : pyval) : bool :=
  match v with PStr s => truthy s | _ => false end.

Definition bad_entry (v : pyval) : bool :=
  match v with PStr s => all_space s | _ => true end.

Definition refused (processing : Models.ProcessingConfig)
    (code_snippet review_comments : pyval) : bool :=
  negb (nonempty_string code_snippet)
  || match review_comments with
     | PList l =>
         match l with [] => true | _ => false end
         || existsb bad_entry l
         || (Models.max_comments processing <? Z.of_nat (length l))%Z
     | _ => false
     end.

(** The final score map of each analyzer: what its [max] selects from. *)
Definition severity_final (comment : string) : Dict.t Q :=
  fst (SentimentAnalyzer._apply_modifiers (lower comment)
         (SentimentAnalyzer._calculate_severity_scores (lower comment)
            SentimentAnalyzer.initial_details)
         SentimentAnalyzer.initial_details).

Definition category_final (comment : string) (code_snippet : option string)
    : Dict.t Q :=
  let category_scores :=
    CategoryClassifier._calculate_category_scores (lower comment) in
  match code_snippet with
  | Some code =>
      if truthy code
      then CategoryClassifier._apply_code_context category_scores (lower code)
      else category_scores
  | None => category_scores
  end.

Definition language_final (code_snippet : string) (filename : option string)
    : Dict.t Q :=
  let lang_from_file :=
    match filename with
    | Some f =>
        if truthy f then LanguageDetector._detect_from_filename f else None
    | None => None
    end in
  let language_scores := LanguageDetector._analyze_patterns code_snippet in
  match lang_from_file with
  | Some l =>
      if truthy l && Dict.mem language_scores l
      then Dict.update language_scores l (fun v => v * 1.5)
      else language_scores
  | None => language_scores
  end.

(** No pattern of any table entry occurs in the text. *)
Definition no_match {C} (pats : C -> list string) (tbl : Dict.t C)
    (text : string) : bool :=
  forallb (fun '(_, c) => forallb (fun p => negb (contains p text)) (pats c))
          tbl.

End Spec.

(** ** More of analysis/sentiment_analyzer.py *)

Module SentimentAdvice.
Import PyStr Models.

Definition severity_eqb (a b : SeverityLevel) : bool :=
  match a, b with
  | CRITICAL, CRITICAL | HIGH, HIGH | MEDIUM, MEDIUM | LOW, LOW => true
  | _, _ => false
  end.

Definition get_empathy_level_needed (severity : SeverityLevel) (tone : string)
    : string :=
  if severity_eqb severity CRITICAL || (tone =? "harsh") then "maximum"
  else if severity_eqb severity HIGH then "high"
  else if severity_eqb severity MEDIUM
          && in_list tone ["neutral"; "neutral-constructive"]
  then "medium"
  else "low".

Record suggestions := {
  empathy_level : string;
  approach : string;
  key_phrases : list string;
  avoid_phrases : list string
}.

Definition suggest_response_tone (severity : SeverityLevel)
    (analysis_details : SentimentAnalyzer.details) : suggestions :=
  let tone := SentimentAnalyzer.d_overall_tone analysis_details in
  let empathy_level := get_empathy_level_needed severity tone in
  if empathy_level =? "maximum" then
    {| empathy_level := empathy_level;
       approach := "highly_supportive";
       key_phrases := ["Great effort on this!";
                       "I really appreciate your work here";
                       "This shows good thinking";
                       "Let me share a gentle suggestion"];
       avoid_phrases := ["This is wrong"; "You should know"; "Obviously";
                         "Simply"] |}
  else if empathy_level =? "high" then
    {| empathy_level := empathy_level;
       approach := "supportive";
       key_phrases := ["Nice work!"; "Good foundation here"; "Here's an idea";
                       "Consider this approach"];
       avoid_phrases := [] |}
  else if empathy_level =? "medium" then
    {| empathy_level := empathy_level;
       approach := "constructive";
       key_phrases := ["Good code!"; "Here's a suggestion";
                       "You might consider"; "This could be enhanced"];
       avoid_phrases := [] |}
  else
    {| empathy_level := empathy_level;
       approach := "collaborative";
       key_phrases := ["Nice approach"; "Small enhancement";
                       "Quick suggestion"; "Minor improvement"];
       avoid_phrases := [] |}.

End SentimentAdvice.

(** ** More of analysis/language_detector.py *)

Module LanguageInfo.

Definition get_supported_languages : list string :=
  Dict.keys LanguageDetector.language_patterns.

(** [get_language_info]: [None] stands for the empty dict of the default. *)
Definition get_language_info (language : string)
    : option LanguageDetector.language_config :=
  Dict.get LanguageDetector.language_patterns language.

Definition is_supported_language (language : string) : bool :=
  Dict.mem LanguageDetector.language_patterns language.

End LanguageInfo.

(** ** More of core/models.py and core/reviewer.py *)

Module ReviewData.
Import PyStr Models.
Open Scope Q_scope.

(** [ReviewComment(...)] followed by [__post_init__]: a field given as a
    string is converted to its enum, in the order severity, category,
    impact level. *)
Definition coerce {E} (of_value : string -> result E) (v : string + E)
    : result E :=
  match v with
  | inl s => of_value s
  | inr e => Ok e
  end.

Definition ReviewComment_init (original : string)
    (severity : string + SeverityLevel) (category : string + CategoryType)
    (impact_level : string + ImpactLevel) (confidence : Q)
    : result ReviewComment :=
  severity <- coerce SeverityLevel_of severity ;;
  category <- coerce CategoryType_of category ;;
  impact_level <- coerce ImpactLevel_of impact_level ;;
  Ok (Reviewer.classified original severity category impact_level confidence).

Record ReviewSummary := {
  total_comments : nat;
  language : string;
  categories : list CategoryType;
  severity_distribution : Dict.t nat;
  avg_confidence : Q;
  high_impact_count : nat;
  processing_time : Q;
  timestamp : string
}.

(** The [primary_focus_areas] property. *)
Definition primary_focus_areas (summary : ReviewSummary) : string :=
  FeedbackGenerator.join ", "
    (map category_value (firstn 3 (categories summary))).

(** The loop that fills [severity_distribution]. *)
Definition count_severity (severity_distribution : Dict.t nat)
    (comment : ReviewComment) : Dict.t nat :=
  let sev := severity_value (severity comment) in
  Dict.set severity_distribution sev
    (match Dict.get severity_distribution sev with
     | Some n => n
     | None => O
     end + 1)%nat.

Definition sum_confidence (comments : list ReviewComment) : Q :=
  fold_left (fun acc comment => acc + confidence comment) comments 0.

Section Summary.

(** The order in which Python iterates over the set of categories, and the
    clock reading: both come from the run, not from the code. *)
Variable list_of_set : list CategoryType -> list CategoryType.
Variable now : string.

Definition _create_review_summary (comments : list ReviewComment)
    (language : string) (processing_time : Q) : ReviewSummary :=
  {| total_comments := length comments;
     language := language;
     categories := list_of_set (map category comments);
     severity_distribution := fold_left count_severity comments [];
     avg_confidence :=
       match comments with
       | [] => 0
       | _ => sum_confidence comments / PyNum.of_nat (length comments)
       end;
     high_impact_count :=
       length (filter (fun comment =>
                         impact_value (impact_level comment) =? "high")
                      comments);
     processing_time := processing_time;
     timestamp := now |}.

End Summary.

End ReviewData.

(** ** More of core/config.py *)

Module Config.

Definition get_resource_mappings : Dict.t (Dict.t (list string)) :=
  [
    ("python",
      [
       ("performance",
         ["https://docs.python.org/3/tutorial/datastructures.html#list-comprehensions";
          "https://wiki.python.org/moin/PythonSpeed/PerformanceTips";
          "https://docs.python.org/3/library/profile.html"]);
       ("readability",
         ["https://pep8.org/";
          "https://google.github.io/styleguide/pyguide.html";
          "https://realpython.com/python-code-quality/"]);
       ("convention",
         ["https://peps.python.org/pep-0008/";
          "https://peps.python.org/pep-0257/";
          "https://docs.python-guide.org/writing/style/"]);
       ("logic",
         ["https://docs.python.org/3/tutorial/controlflow.html";
          "https://realpython.com/python-conditional-statements/"]);
       ("security",
         ["https://owasp.org/www-project-top-ten/";
          "https://bandit.readthedocs.io/en/latest/"]);
       ("maintainability",
         ["https://refactoring.guru/refactoring";
          "https://martinfowler.com/books/refactoring.html"]) ]);
    ("javascript",
      [
       ("performance",
         ["https://developer.mozilla.org/en-US/docs/Web/JavaScript/Guide/Loops_and_iteration";
          "https://web.dev/fast/";
          "https://developers.google.com/web/fundamentals/performance"]);
       ("readability",
         ["https://google.github.io/styleguide/jsguide.html";
          "https://github.com/airbnb/javascript";
          "https://standardjs.com/"]);
       ("convention",
         ["https://eslint.org/docs/rules/";
          "https://prettier.io/docs/en/rationale.html"]);
       ("logic",
         ["https://developer.mozilla.org/en-US/docs/Web/JavaScript/Guide/Control_flow_and_error_handling";
          "https://javascript.info/logical-operators"]);
       ("security",
         ["https://owasp.org/www-project-top-ten/";
          "https://snyk.io/learn/javascript-security/"]);
       ("maintainability",
         ["https://refactoring.guru/refactoring";
          "https://github.com/ryanmcdermott/clean-code-javascript"]) ]);
    ("java",
      [
       ("performance",
         ["https://docs.oracle.com/javase/tutorial/collections/algorithms/";
          "https://www.oracle.com/technical-resources/articles/java/performance-tuning.html"]);
       ("readability",
         ["https://google.github.io/styleguide/javaguide.html";
          "https://www.oracle.com/java/technologies/javase/codeconventions-contents.html"]);
       ("convention",
         ["https://checkstyle.sourceforge.io/";
          "https://pmd.github.io/"]);
       ("maintainability",
         ["https://refactoring.guru/refactoring";
          "https://martinfowler.com/books/refactoring.html"]) ]);
    ("typescript",
      [
       ("performance",
         ["https://www.typescriptlang.org/docs/handbook/performance.html";
          "https://github.com/Microsoft/TypeScript/wiki/Performance"]);
       ("readability",
         ["https://google.github.io/styleguide/tsguide.html";
          "https://typescript-eslint.io/rules/"]);
       ("convention",
         ["https://www.typescriptlang.org/docs/handbook/declaration-files/do-s-and-don-ts.html";
          "https://typescript-eslint.io/rules/"]) ]) ].

End Config.

(** ** output/hackathon_formatter.py *)

Module HackathonFormatter.
Import Models.
Import FeedbackGenerator Reviewer.

(** The lines appended for one comment. *)
Definition comment_lines (language : string) (comment : ReviewComment)
    : list string :=
  ["---";
    "### Analysis of Comment: " ++ dquote ++ original comment ++ dquote;
    EmptyString;
    "* **Positive Rephrasing:** " ++ dquote ++ positive_rephrase comment ++ dquote;
    EmptyString;
    "* **The 'Why':** " ++ explanation comment;
    EmptyString;
    "* **Suggested Improvement:**";
    "```" ++ language;
    code_suggestion comment;
    "```";
    EmptyString].

(** The lines appended after the loop. *)
Definition closing_lines (comments : list ReviewComment) : list string :=
  ["---";
    EmptyString;
    "## Overall Assessment";
    EmptyString;
    "Great work on this code! The " ++ str_of_nat (length comments) ++ " suggestions above represent valuable learning opportunities that will help you grow as a developer. Remember, every experienced developer has received similar feedback throughout their journey - it's all part of the collaborative process that makes our code stronger and our teams more effective.";
    EmptyString;
    "Each suggestion is designed to help you write more maintainable, efficient, and readable code. Take your time implementing these changes, and don't hesitate to ask questions if anything needs clarification. You're on a great path, and these improvements will make your code even better!";
    EmptyString;
    "Keep up the excellent work! 🚀"].

Definition generate_hackathon_report (code_snippet : string)
    (comments : list ReviewComment) (language : string) : string :=
  let report :=
    (flat_map (comment_lines language) comments ++ closing_lines comments)%list
  in
  join (String newline EmptyString) report.

End HackathonFormatter.

(** ** ai/prompt_engineer.py *)

Module PromptEngineer.
Import Models.
Import FeedbackGenerator.

Definition create_empathy_prompt (code_snippet : string)
    (comment : ReviewComment) (language : string) : string :=
  "You're a friendly senior developer giving code review feedback. Keep your responses concise and encouraging, similar to this example:

POSITIVE_REPHRASE: " ++ dquote ++ "Great start on the logic here! For better performance, especially with large user lists, we can make this more efficient by combining the checks." ++ dquote ++ "

EXPLANATION: " ++ dquote ++ "Iterating through a list and performing checks can become slow as the list grows. By using more direct methods like list comprehensions, we can often achieve the same result with cleaner and faster code." ++ dquote ++ "

CODE_IMPROVEMENT: " ++ dquote ++ "def get_active_users(users):
    return [user for user in users if user.is_active and user.profile_complete]" ++ dquote ++ "

Now transform this comment: " ++ dquote ++
  original comment ++
  dquote ++ "

For this " ++
  language ++
  " code:
```" ++
  language ++
  "
" ++
  code_snippet ++
  "
```

Keep your response concise, encouraging, and practical. Match the tone and length of the example above.".

End PromptEngineer.

(** ** More of utils/resource_manager.py *)

Module ResourceNames.
Import PyStr.

Definition upper_ascii (c : ascii) : ascii :=
  let n := nat_of_ascii c in
  if (97 <=? n)%nat && (n <=? 122)%nat then ascii_of_nat (n - 32) else c.

(** [s.capitalize()] *)
Definition capitalize (s : string) : string :=
  match s with
  | EmptyString => EmptyString
  | String c s' => String (upper_ascii c) (lower s')
  end.

(** [s.split()]: the maximal runs of characters that are not white
    space. *)
Fixpoint split_ws (s : string) : list string :=
  match s with
  | EmptyString => []
  | String c s' =>
      if is_space c then split_ws s'
      else match s' with
           | EmptyString => [String c EmptyString]
           | String d _ =>
               if is_space d then String c EmptyString :: split_ws s'
               else match split_ws s' with
                    | h :: t => String c h :: t
                    | [] => [String c EmptyString]
                    end
           end
  end.

(** [s.replace(old, new)] for a non-empty [old]. *)
Fixpoint replace_from (old new : string) (skip : nat) (s : string) : string :=
  match s with
  | EmptyString => EmptyString
  | String c s' =>
      match skip with
      | S k => replace_from old new k s'
      | O => if prefix old s
             then new ++ replace_from old new (Nat.pred (String.length old)) s'
             else String c (replace_from old new 0 s')
      end
  end.

Definition replace (s old new : string) : string :=
  replace_from old new 0 s.

(** [l[-i]] for [i >= 1]; [None] is the [IndexError]. *)
Definition from_end {A} (l : list A) (i : nat) : option A :=
  nth_error (rev l) (Nat.pred i).

(** The body of the [try] block; [None] is an exception. *)
Definition extract_resource_name_body (url : string) : option string :=
  let parts := FeedbackGenerator.split_on "/"%char url in
  match from_end parts 1 with
  | None => None
  | Some name =>
      match (if negb (truthy name) || in_list name [EmptyString; "index.html"]
             then from_end parts 2 else Some name) with
      | None => None
      | Some name =>
          let name := replace (replace (replace name "-" " ") "_" " ")
                        ".html" EmptyString in
          let name :=
            FeedbackGenerator.join " " (map capitalize (split_ws name)) in
          let name :=
            if contains "pep8.org" url then "PEP 8 Style Guide"
            else if contains "docs.python.org" url
            then "Python Documentation: " ++ name
            else if contains "developer.mozilla.org" url then "MDN: " ++ name
            else if contains "google.github.io" url
            then "Google Style Guide: " ++ name
            else if contains "eslint.org" url then "ESLint: " ++ name
            else name in
          Some (if truthy name then name else "Documentation")
      end
  end.

Definition extract_resource_name (url : string) : string :=
  match extract_resource_name_body url with
  | Some name => name
  | None => "Related Documentation"
  end.

End ResourceNames.

(** ** Vocabulary of the further properties *)

Module Spec2.
Import PyStr PyNum Models.

(** The weight of one language pattern: 2 for a strong indicator. *)
Definition language_weight (config : LanguageDetector.language_config)
    (p : string) : Q :=
  if in_list p (LanguageDetector.strong_indicators config)
  then 2.0%Q else 1.0%Q.

(** The section names [_parse_response] can store. *)
Definition section_names : list string :=
  map snd FeedbackGenerator.markers.

(** No line of the text, stripped, starts with a section marker. *)
Definition marker_free (content : string) : bool :=
  forallb
    (fun line =>
       negb (existsb (fun m => startswith (strip line) (fst m))
               FeedbackGenerator.markers))
    (FeedbackGenerator.split_on FeedbackGenerator.newline content).

(** What the parsing loop keeps true of its state. *)
Definition parse_inv (st : FeedbackGenerator.parse_state) : Prop :=
  incl (Dict.keys (FeedbackGenerator.sections st)) section_names
  /\ NoDup (Dict.keys (FeedbackGenerator.sections st))
  /\ forall sec, FeedbackGenerator.current_section st = Some sec ->
                 In sec section_names.

(** The count a distribution holds for a key, 0 when the key is absent
    ([d.get(k, 0)]). *)
Definition count_of (d : Dict.t nat) (k : string) : nat :=
  match Dict.get d k with Some n => n | None => O end.

(** A comment entry the validation lets through. *)
Definition good_entry (v : pyval) : bool :=
  match v with PStr s => negb (all_space s) | _ => false end.

(** The inputs [_validate_input] accepts. *)
Definition accepted (processing : ProcessingConfig) (input_data : pyval)
    : bool :=
  match input_data with
  | PDict d =>
      match Dict.get d "code_snippet", Dict.get d "review_comments" with
      | Some (PStr code), Some (PList l) =>
          negb (all_space code)
          && match l with [] => false | _ => true end
          && (Z.of_nat (length l) <=? max_comments processing)%Z
          && forallb good_entry l
      | _, _ => false
      end
  | _ => false
  end.

(** The strings of a list of comment entries. *)
Definition texts (l : list pyval) : list string :=
  flat_map (fun v => match v with PStr s => [s] | _ => [] end) l.

(** How many comments carry a severity. *)
Definition severity_count (s : SeverityLevel) (comments : list ReviewComment)
    : nat :=
  length (filter (fun c => SentimentAdvice.severity_eqb (severity c) s)
            comments).

End Spec2.

(** ** Python floats, as binary64

    The score arithmetic of the three analyzers once more, on Rocq's
    primitive binary64 floats: every operation rounds to nearest, ties to
    even, as a Python [float] operation does.  The pattern tables, the
    string tests and the dictionaries are those of the modules above; what
    changes is the number type, so that a comparison of two computed scores
    is decided as the program decides it. *)

Module Binary64.
Import PyStr Models PrimFloat.
#[local] Set Warnings "-inexact-float".
Open Scope float_scope.

(** [float(n)] for the integers the analyzers convert: capped counts,
    numbers of indicators found and table lengths, all far below 2^53. *)
Definition of_nat (n : nat) : float := of_uint63 (Uint63.of_Z (Z.of_nat n)).

Definition of_Z (z : Z) : float :=
  match z with
  | Z0 => 0
  | Zpos _ => of_uint63 (Uint63.of_Z z)
  | Zneg p => - of_uint63 (Uint63.of_Z (Zpos p))
  end.

(** The float a decimal literal of the tables denotes: the literal is
    stored as a fraction of two small integers, and the division rounds
    their quotient to the nearest float, as the Python parser rounds the
    literal. *)
Definition of_Q (q : Q) : float := of_Z (Qnum q) / of_Z (Zpos (Qden q)).

(** [min(a, b)] *)
Definition pymin (a b : float) : float := if b <? a then b else a.

(** [max(d, key=d.get)] *)
Fixpoint max_key_from (best : string) (bv : float) (d : Dict.t float)
    : string :=
  match d with
  | [] => best
  | (k, v) :: d' =>
      if bv <? v then max_key_from k v d' else max_key_from best bv d'
  end.

Definition max_key (d : Dict.t float) : option string :=
  match d with
  | [] => None
  | (k, v) :: d' => Some (max_key_from k v d')
  end.

Fixpoint max_from (bv : float) (vs : list float) : float :=
  match vs with
  | [] => bv
  | v :: vs' => if bv <? v then max_from v vs' else max_from bv vs'
  end.

(** [max(d.values())] *)
Definition max_value (d : Dict.t float) : option float :=
  match Dict.values d with
  | [] => None
  | v :: vs => Some (max_from v vs)
  end.

(** [m == 0] *)
Definition is_zero (m : float) : bool := m =? 0.

(** No score of the map is a NaN. *)
Definition nan_free (d : Dict.t float) : bool :=
  forallb (fun v => negb (is_nan v)) (Dict.values d).

(** The place of a float that is not a NaN in the order of the floats: the
    sign class first, then exponent and mantissa, mirrored for the negative
    numbers; both zeros have the same place. *)
Definition rank (f : SpecFloat.spec_float) : Z * Z * Z :=
  match f with
  | SpecFloat.S754_nan => (0, 0, 0)%Z
  | SpecFloat.S754_infinity true => (-2, 0, 0)%Z
  | SpecFloat.S754_infinity false => (2, 0, 0)%Z
  | SpecFloat.S754_zero _ => (0, 0, 0)%Z
  | SpecFloat.S754_finite true m e => (-1, - e, - Zpos m)%Z
  | SpecFloat.S754_finite false m e => (1, e, Zpos m)%Z
  end.

Definition lex_lt (a b : Z * Z * Z) : Prop :=
  let '(a1, a2, a3) := a in
  let '(b1, b2, b3) := b in
  (a1 < b1 \/ (a1 = b1 /\ (a2 < b2 \/ (a2 = b2 /\ a3 < b3))))%Z.

(** [r] carries the maximum of the score map [m], and every label whose
    score equals it is declared no earlier in [order]. *)
Definition first_max (order : list string) (m : Dict.t float) (r : string)
    : Prop :=
  exists v,
    In (r, v) m /\
    forall k' v', In (k', v') m ->
      (v' <=? v) = true /\
      ((v' =? v) = true ->
       (Spec.index_of r order <= Spec.index_of k' order)%nat).

(** *** analysis/sentiment_analyzer.py *)

Module Sentiment.

(** The [analysis_details] dictionary, with float scores and factors. *)
Record details := mkDetails {
  d_severity_scores : Dict.t float;
  d_positive_indicators : list string;
  d_constructive_indicators : list string;
  d_intensity_modifiers : list (string * float);
  d_overall_tone : string
}.

Definition append_positive (ad : details) (x : string) : details :=
  {| d_severity_scores := d_severity_scores ad;
     d_positive_indicators := d_positive_indicators ad ++ [x];
     d_constructive_indicators := d_constructive_indicators ad;
     d_intensity_modifiers := d_intensity_modifiers ad;
     d_overall_tone := d_overall_tone ad |}.

Definition append_constructive (ad : details) (x : string) : details :=
  {| d_severity_scores := d_severity_scores ad;
     d_positive_indicators := d_positive_indicators ad;
     d_constructive_indicators := d_constructive_indicators ad ++ [x];
     d_intensity_modifiers := d_intensity_modifiers ad;
     d_overall_tone := d_overall_tone ad |}.

Definition append_intensity (ad : details) (x : string * float) : details :=
  {| d_severity_scores := d_severity_scores ad;
     d_positive_indicators := d_positive_indicators ad;
     d_constructive_indicators := d_constructive_indicators ad;
     d_intensity_modifiers := d_intensity_modifiers ad ++ [x];
     d_overall_tone := d_overall_tone ad |}.

Definition set_overall_tone (ad : details) (tone : string) : details :=
  {| d_severity_scores := d_severity_scores ad;
     d_positive_indicators := d_positive_indicators ad;
     d_constructive_indicators := d_constructive_indicators ad;
     d_intensity_modifiers := d_intensity_modifiers ad;
     d_overall_tone := tone |}.

Definition set_severity_scores (ad : details) (scores : Dict.t float)
    : details :=
  {| d_severity_scores := scores;
     d_positive_indicators := d_positive_indicators ad;
     d_constructive_indicators := d_constructive_indicators ad;
     d_intensity_modifiers := d_intensity_modifiers ad;
     d_overall_tone := d_overall_tone ad |}.

(** The inner loop of [_calculate_severity_scores]: the raw score of one
    severity. *)
Definition raw_score (comment_lower : string)
    (config : SentimentAnalyzer.severity_config) : float :=
  let weight := of_Q (SentimentAnalyzer.weight config) in
  fold_left
    (fun score pattern =>
       if contains pattern comment_lower
       then let occurrences := Nat.min (count comment_lower pattern) 3 in
            score + weight * of_nat occurrences
       else score)
    (SentimentAnalyzer.patterns config) 0.0.

(** [_calculate_severity_scores]; [analysis_details] is received and left
    untouched. *)
Definition _calculate_severity_scores (comment_lower : string)
    (analysis_details : details) : Dict.t float :=
  fold_left
    (fun severity_scores '(severity, config) =>
       let score := raw_score comment_lower config in
       if 0 <? score
       then let normalized_score :=
              score / (of_nat (length (SentimentAnalyzer.patterns config))
                       * of_Q (SentimentAnalyzer.weight config)) in
            Dict.set severity_scores severity normalized_score
       else severity_scores)
    SentimentAnalyzer.severity_patterns [].

(** The three scans at the head of [_apply_modifiers]. *)
Definition scan_positive (comment_lower : string) (ad : details)
    : nat * details :=
  fold_left
    (fun '(positive_count, ad) indicator =>
       if contains indicator comment_lower
       then (S positive_count, append_positive ad indicator)
       else (positive_count, ad))
    SentimentAnalyzer.positive_indicators (O, ad).

Definition scan_constructive (comment_lower : string) (ad : details)
    : nat * details :=
  fold_left
    (fun '(constructive_count, ad) indicator =>
       if contains indicator comment_lower
       then (S constructive_count, append_constructive ad indicator)
       else (constructive_count, ad))
    SentimentAnalyzer.constructive_indicators (O, ad).

Definition scan_intensity (comment_lower : string) (ad : details)
    : float * details :=
  fold_left
    (fun '(intensity_factor, ad) '(modifier, factor) =>
       if contains modifier comment_lower
       then (intensity_factor * of_Q factor,
             append_intensity ad (modifier, of_Q factor))
       else (intensity_factor, ad))
    SentimentAnalyzer.intensity_modifiers (1.0, ad).

(** The body of the final loop of [_apply_modifiers], for one severity. *)
Definition modify_one (positive_count constructive_count : nat)
    (intensity_factor : float) (modified_scores : Dict.t float)
    (severity : string) : Dict.t float :=
  let m1 :=
    if (0 <? positive_count)%nat
    then Dict.update modified_scores severity
           (fun v => v * (1.0 - 0.2 * of_nat positive_count))
    else modified_scores in
  let m2 :=
    if (0 <? constructive_count)%nat
    then Dict.update m1 severity
           (fun v => v * (1.0 - 0.15 * of_nat constructive_count))
    else m1 in
  Dict.update m2 severity (fun v => v * intensity_factor).

(** What that body does to the score of the severity. *)
Definition modify (positive_count constructive_count : nat)
    (intensity_factor : float) (v : float) : float :=
  let v1 :=
    if (0 <? positive_count)%nat
    then v * (1.0 - 0.2 * of_nat positive_count) else v in
  let v2 :=
    if (0 <? constructive_count)%nat
    then v1 * (1.0 - 0.15 * of_nat constructive_count) else v1 in
  v2 * intensity_factor.

Definition _apply_modifiers (comment_lower : string)
    (severity_scores : Dict.t float) (analysis_details : details)
    : Dict.t float * details :=
  let modified_scores := severity_scores in
  let '(positive_count, ad1) := scan_positive comment_lower analysis_details in
  let '(constructive_count, ad2) := scan_constructive comment_lower ad1 in
  let '(intensity_factor, ad3) := scan_intensity comment_lower ad2 in
  (fold_left (modify_one positive_count constructive_count intensity_factor)
     (Dict.keys modified_scores) modified_scores,
   ad3).

Definition _calculate_confidence (severity_scores : Dict.t float)
    (analysis_details : details) : float :=
  (* [max_value] is [None] exactly on the empty dict: [if not severity_scores] *)
  match max_value severity_scores with
  | None => 0.3
  | Some max_score =>
      let confidence := pymin (max_score * 2) 1.0 in
      let confidence :=
        if (2 <? length severity_scores)%nat then confidence * 0.8
        else confidence in
      let confidence :=
        if SentimentAnalyzer.nonempty (d_positive_indicators analysis_details)
           || SentimentAnalyzer.nonempty
                (d_constructive_indicators analysis_details)
        then confidence * 1.1 else confidence in
      pymin confidence 1.0
  end.

Definition _determine_tone (analysis_details : details) : string :=
  let positive_count := length (d_positive_indicators analysis_details) in
  let constructive_count :=
    length (d_constructive_indicators analysis_details) in
  if (0 <? positive_count)%nat && (0 <? constructive_count)%nat
  then "constructive"
  else if (0 <? positive_count)%nat then "positive"
  else if (0 <? constructive_count)%nat then "neutral-constructive"
  else if existsb (fun score => 0.7 <? score)
            (Dict.values (d_severity_scores analysis_details))
  then "harsh"
  else "neutral".

Definition initial_details : details :=
  {| d_severity_scores := [];
     d_positive_indicators := [];
     d_constructive_indicators := [];
     d_intensity_modifiers := [];
     d_overall_tone := "neutral" |}.

(** The score map [analyze_sentiment] selects from. *)
Definition modified_scores (comment : string) : Dict.t float :=
  fst (_apply_modifiers (lower comment)
         (_calculate_severity_scores (lower comment) initial_details)
         initial_details).

Definition analyze_sentiment (comment : string)
    : result (SeverityLevel * float * details) :=
  let comment_lower := lower comment in
  let analysis_details := initial_details in
  let severity_scores :=
    _calculate_severity_scores comment_lower analysis_details in
  let '(modified_scores, analysis_details) :=
    _apply_modifiers comment_lower severity_scores analysis_details in
  (* [max_key] is [None] exactly on the empty dict: [if not modified_scores] *)
  match max_key modified_scores with
  | None => Ok (LOW, 0.3, analysis_details)
  | Some primary_severity_str =>
      primary_severity <- SeverityLevel_of primary_severity_str ;;
      let confidence := _calculate_confidence modified_scores analysis_details in
      let analysis_details :=
        set_overall_tone analysis_details (_determine_tone analysis_details) in
      let analysis_details :=
        set_severity_scores analysis_details modified_scores in
      Ok (primary_severity, confidence, analysis_details)
  end.

End Sentiment.

(** *** analysis/language_detector.py *)

Module Language.

Definition raw_score (code_lower : string)
    (config : LanguageDetector.language_config) : float :=
  fold_left
    (fun score pattern =>
       if contains (lower pattern) code_lower
       then let weight :=
              if in_list pattern (LanguageDetector.strong_indicators config)
              then 2.0 else 1.0 in
            let occurrences := count code_lower (lower pattern) in
            score + weight * of_nat (Nat.min occurrences 3)
       else score)
    (LanguageDetector.patterns config) 0.0.

Definition _analyze_patterns (code_snippet : string) : Dict.t float :=
  let code_lower := lower code_snippet in
  fold_left
    (fun language_scores '(language, config) =>
       let score := raw_score code_lower config in
       match LanguageDetector.patterns config with
       | [] => language_scores
       | _ :: _ =>
           let normalized_score :=
             score / of_nat (length (LanguageDetector.patterns config) * 2) in
           Dict.set language_scores language normalized_score
       end)
    LanguageDetector.language_patterns [].

(** The score map [detect_language] selects from, after the file-name
    boost. *)
Definition language_scores (code_snippet : string) (filename : option string)
    : Dict.t float :=
  let lang_from_file :=
    match filename with
    | Some f =>
        if truthy f then LanguageDetector._detect_from_filename f else None
    | None => None
    end in
  let language_scores := _analyze_patterns code_snippet in
  match lang_from_file with
  | Some l =>
      if truthy l && Dict.mem language_scores l
      then Dict.update language_scores l (fun v => v * 1.5)
      else language_scores
  | None => language_scores
  end.

(** [filename] is [None] or a string; [lang_from_file] is bound only when
    the file name is truthy, and is read only under the same test. *)
Definition detect_language (code_snippet : string) (filename : option string)
    : string * float :=
  if negb (truthy code_snippet) || negb (truthy (strip code_snippet))
  then ("unknown", 0.0)
  else
    let lang_from_file :=
      match filename with
      | Some f =>
          if truthy f then LanguageDetector._detect_from_filename f else None
      | None => None
      end in
    let language_scores := _analyze_patterns code_snippet in
    let language_scores :=
      match lang_from_file with
      | Some l =>
          if truthy l && Dict.mem language_scores l
          then Dict.update language_scores l (fun v => v * 1.5)
          else language_scores
      | None => language_scores
      end in
    match max_value language_scores, max_key language_scores with
    | Some m, Some best_language =>
        if is_zero m then ("unknown", 0.1)
        else
          match Dict.get language_scores best_language with
          | Some v => (best_language, pymin v 1.0)
          | None => ("unknown", 0.1) (* not reached: [best_language] is a key *)
          end
    | _, _ => ("unknown", 0.1) (* [not language_scores] *)
    end.

End Language.

(** *** analysis/category_classifier.py *)

Module Category.

Definition pattern_score (comment_lower : string)
    (config : CategoryClassifier.category_config) : float :=
  let weight := of_Q (CategoryClassifier.weight config) in
  fold_left
    (fun score pattern =>
       if contains pattern comment_lower
       then let occurrences := Nat.min (count comment_lower pattern) 2 in
            score + weight * of_nat occurrences
       else score)
    (CategoryClassifier.patterns config) 0.0.

Definition context_boost (comment_lower : string) (category : string)
    (score : float) : float :=
  match Dict.get CategoryClassifier.context_patterns category with
  | Some ctx =>
      fold_left
        (fun score context_pattern =>
           if contains context_pattern comment_lower then score * 1.2
           else score)
        ctx score
  | None => score
  end.

Definition raw_score (comment_lower : string) (category : string)
    (config : CategoryClassifier.category_config) : float :=
  context_boost comment_lower category (pattern_score comment_lower config).

Definition _calculate_category_scores (comment_lower : string)
    : Dict.t float :=
  fold_left
    (fun category_scores '(category, config) =>
       let score := raw_score comment_lower category config in
       if 0 <? score
       then let normalized_score :=
              score / (of_nat (length (CategoryClassifier.patterns config))
                       * of_Q (CategoryClassifier.weight config)) in
            Dict.set category_scores category normalized_score
       else category_scores)
    CategoryClassifier.category_patterns [].

(** The body of the loop of [_apply_code_context], for one entry of
    [code_hints]. *)
Definition code_step (code_snippet_lower : string)
    (category_scores : Dict.t float) (entry : string * list string)
    : Dict.t float :=
  let '(category, hints) := entry in
  if Dict.mem category_scores category
  then let hint_matches :=
         CategoryClassifier.hint_count hints code_snippet_lower in
       if (0 <? hint_matches)%nat
       then let boost_factor := 1.0 + of_nat hint_matches * 0.1 in
            Dict.update category_scores category (fun v => v * boost_factor)
       else category_scores
  else category_scores.

Definition _apply_code_context (category_scores : Dict.t float)
    (code_snippet_lower : string) : Dict.t float :=
  fold_left (code_step code_snippet_lower) CategoryClassifier.code_hints
    category_scores.

(** The score map [classify_comment] selects from. *)
Definition category_scores (comment : string) (code_snippet : option string)
    : Dict.t float :=
  let category_scores := _calculate_category_scores (lower comment) in
  match code_snippet with
  | Some code =>
      if truthy code then _apply_code_context category_scores (lower code)
      else category_scores
  | None => category_scores
  end.

Definition _calculate_confidence (category_scores : Dict.t float)
    (comment_lower : string) : float :=
  match max_value category_scores with
  | None => 0.3
  | Some max_score =>
      let confidence := pymin (max_score * 1.5) 1.0 in
      let confidence :=
        if (2 <? length category_scores)%nat then confidence * 0.9
        else confidence in
      let n := CategoryClassifier.clear_indicators comment_lower in
      let confidence :=
        if (n =? 1)%nat then confidence * 1.1
        else if (1 <? n)%nat then confidence * 0.8
        else confidence in
      pymin confidence 1.0
  end.

(** [code_snippet] is [None] or a string. *)
Definition classify_comment (comment : string) (code_snippet : option string)
    : result (CategoryType * float * ImpactLevel) :=
  let comment_lower := lower comment in
  let category_scores := _calculate_category_scores comment_lower in
  let category_scores :=
    match code_snippet with
    | Some code =>
        if truthy code then _apply_code_context category_scores (lower code)
        else category_scores
    | None => category_scores
    end in
  (* [max_key] is [None] exactly on the empty dict: [if not category_scores] *)
  match max_key category_scores with
  | None => Ok (GENERAL, 0.3, IMPACT_LOW)
  | Some primary_category_str =>
      primary_category <- CategoryType_of primary_category_str ;;
      let confidence := _calculate_confidence category_scores comment_lower in
      impact_level <-
        CategoryClassifier._assess_impact_level primary_category
          comment_lower ;;
      Ok (primary_category, confidence, impact_level)
  end.

End Category.

(** The entries of a table that receive a score, in table order. *)
Definition select {C} (f : string -> C -> option float) (tbl : Dict.t C)
    : Dict.t float :=
  flat_map (fun '(k, c) => match f k c with
                           | Some v => [(k, v)]
                           | None => []
                           end) tbl.

(** The normalized score of one severity, when it gets one. *)
Definition severity_entry (comment_lower : string) (_ : string)
    (config : SentimentAnalyzer.severity_config) : option float :=
  let score := Sentiment.raw_score comment_lower config in
  if 0 <? score
  then Some (score / (of_nat (length (SentimentAnalyzer.patterns config))
                      * of_Q (SentimentAnalyzer.weight config)))
  else None.

(** The normalized score of one language. *)
Definition language_entry (code_lower : string) (_ : string)
    (config : LanguageDetector.language_config) : option float :=
  match LanguageDetector.patterns config with
  | [] => None
  | _ :: _ =>
      Some (Language.raw_score code_lower config
            / of_nat (length (LanguageDetector.patterns config) * 2))
  end.

(** The normalized score of one category, when it gets one. *)
Definition category_entry (comment_lower : string) (category : string)
    (config : CategoryClassifier.category_config) : option float :=
  let score := Category.raw_score comment_lower category config in
  if 0 <? score
  then Some (score / (of_nat (length (CategoryClassifier.patterns config))
                      * of_Q (CategoryClassifier.weight config)))
  else None.

(** *** The scores the analyzers can compute

    The counts are capped and the tables are fixed, so each analyzer can
    only compute finitely many scores; the checks below run through all of
    them. *)

Fixpoint sublists {A} (l : list A) : list (list A) :=
  match l with
  | [] => [[]]
  | x :: l' => map (cons x) (sublists l') ++ sublists l'
  end.

Definition upto (n : nat) : list nat := seq 0 (S n).

(** Adding [w * o], for a capped count [o], to [w * j] gives [w * (j + o)]
    without rounding, and the sum starts at [w * 0]. *)
Definition exact_sums (w : float) (bound cap : nat) : bool :=
  Leibniz.eqb 0.0 (w * of_nat 0)
  && forallb
       (fun j =>
          forallb
            (fun o =>
               Leibniz.eqb (w * of_nat j + w * of_nat o) (w * of_nat (j + o)))
            (upto cap))
       (upto bound).

(** The product of the factors of the intensity modifiers found. *)
Definition intensity_product (found : list (string * Q)) : float :=
  fold_left (fun intensity_factor '(_, factor) => intensity_factor * of_Q factor)
    found 1.0.

Definition intensity_values : list float :=
  map intensity_product (sublists SentimentAnalyzer.intensity_modifiers).

(** No score of a severity is a NaN, before or after the modifiers. *)
Definition severity_config_checked
    (config : SentimentAnalyzer.severity_config) : bool :=
  let w := of_Q (SentimentAnalyzer.weight config) in
  let n := length (SentimentAnalyzer.patterns config) in
  exact_sums w (3 * n) 3
  && forallb
       (fun j =>
          let b := w * of_nat j / (of_nat n * w) in
          negb (is_nan b)
          && forallb
               (fun pc =>
                  forallb
                    (fun cc =>
                       forallb
                         (fun f => negb (is_nan (Sentiment.modify pc cc f b)))
                         intensity_values)
                    (upto (length SentimentAnalyzer.constructive_indicators)))
               (upto (length SentimentAnalyzer.positive_indicators)))
       (upto (3 * n)).

(** Adding [weight * o] to the integer [a] gives an integer, for both
    weights of the language detector. *)
Definition exact_counts (bound : nat) : bool :=
  Leibniz.eqb 0.0 (of_nat 0)
  && forallb
       (fun a =>
          forallb
            (fun o =>
               Leibniz.eqb (of_nat a + 2.0 * of_nat o) (of_nat (a + 2 * o))
               && Leibniz.eqb (of_nat a + 1.0 * of_nat o) (of_nat (a + o)))
            (upto 3))
       (upto bound).

(** No score of a language is a NaN, before or after the file-name
    boost. *)
Definition language_config_checked
    (config : LanguageDetector.language_config) : bool :=
  let n := length (LanguageDetector.patterns config) in
  exact_counts (6 * n)
  && forallb
       (fun a =>
          let b := of_nat a / of_nat (n * 2) in
          negb (is_nan b) && negb (is_nan (b * 1.5)))
       (upto (6 * n)).

(** [i] context patterns found: [i] factors 1.2. *)
Definition boosted (i : nat) (score : float) : float :=
  Nat.iter i (fun score => score * 1.2) score.

(** No score of a category is a NaN, before or after the code context. *)
Definition category_config_checked (category : string)
    (config : CategoryClassifier.category_config) : bool :=
  let w := of_Q (CategoryClassifier.weight config) in
  let n := length (CategoryClassifier.patterns config) in
  let contexts :=
    match Dict.get CategoryClassifier.context_patterns category with
    | Some ctx => length ctx
    | None => O
    end in
  exact_sums w (2 * n) 2
  && forallb
       (fun j =>
          forallb
            (fun i =>
               let b := boosted i (w * of_nat j) / (of_nat n * w) in
               negb (is_nan b)
               && forallb
                    (fun '(_, hints) =>
                       forallb
                         (fun h => negb (is_nan (b * (1.0 + of_nat h * 0.1))))
                         (upto (length hints)))
                    CategoryClassifier.code_hints)
            (upto contexts))
       (upto (2 * n)).

End Binary64.

(** * Properties *)

(** ** Strings *)

Module PyStrFacts.
Import PyStr.

Lemma is_space_lower (c : ascii) : is_space c = true -> lower_ascii c = c.
Proof.
  destruct c as [[] [] [] [] [] [] [] []]; vm_compute; congruence.
Qed.

Lemma is_space_lower_ascii (c : ascii) :
  is_space (lower_ascii c) = is_space c.
Proof.
  destruct c as [[] [] [] [] [] [] [] []]; reflexivity.
Qed.

Lemma all_space_lower (s : string) : all_space (lower s) = all_space s.
Proof.
  induction s as [|c s IH]; simpl; [reflexivity|].
  now rewrite is_space_lower_ascii, IH.
Qed.

Lemma lstrip_all_space (s : string) :
  all_space s = true -> lstrip s = EmptyString.
Proof.
  induction s as [|c s IH]; simpl; [reflexivity|].
  intros H. apply andb_true_iff in H as [Hc Hs]. now rewrite Hc, IH.
Qed.

Lemma strip_all_space (s : string) :
  all_space s = true -> strip s = EmptyString.
Proof.
  intros H. unfold strip. now rewrite lstrip_all_space.
Qed.

Lemma rstrip_empty (s : string) :
  rstrip s = EmptyString -> all_space s = true.
Proof.
  induction s as [|c s IH]; simpl; [reflexivity|].
  destruct (rstrip s) eqn:E; [|discriminate].
  destruct (is_space c); [|discriminate]. intros _. now rewrite IH.
Qed.

Lemma lstrip_space_iff (s : string) :
  all_space (lstrip s) = all_space s.
Proof.
  induction s as [|c s IH]; simpl; [reflexivity|].
  destruct (is_space c) eqn:E; simpl; [exact IH|]. now rewrite E.
Qed.

(** [not s.strip()] holds exactly for the strings made of white space. *)
Lemma strip_truthy (s : string) :
  truthy (strip s) = negb (all_space s).
Proof.
  destruct (all_space s) eqn:E.
  - now rewrite strip_all_space.
  - unfold strip. destruct (rstrip (lstrip s)) eqn:R; [|reflexivity].
    apply rstrip_empty in R. rewrite lstrip_space_iff in R. congruence.
Qed.

Lemma has_non_space_not_all (s : string) :
  has_non_space s = negb (all_space s).
Proof.
  induction s as [|c s IH]; simpl; [reflexivity|].
  rewrite IH. now destruct (is_space c), (all_space s).
Qed.

Lemma prefix_all_space (p s : string) :
  prefix p s = true -> all_space s = true -> all_space p = true.
Proof.
  revert s. induction p as [|c p IH]; intros [|d s]; simpl; try easy.
  destruct (Ascii.ascii_dec c d) as [->|]; [|discriminate].
  intros Hp H. apply andb_true_iff in H as [Hd Hs].
  rewrite Hd. simpl. eauto.
Qed.

(** A pattern with a visible character does not occur in white space. *)
Lemma contains_all_space (p s : string) :
  has_non_space p = true -> all_space s = true -> contains p s = false.
Proof.
  intros Hp. rewrite has_non_space_not_all in Hp.
  apply negb_true_iff in Hp.
  induction s as [|c s IH]; cbn [contains]; intros Hs.
  - destruct (prefix p EmptyString) eqn:E; [|reflexivity].
    apply prefix_all_space in E; [congruence|reflexivity].
  - destruct (prefix p (String c s)) eqn:E.
    + apply prefix_all_space in E; [congruence|exact Hs].
    + cbn [orb]. apply IH. cbn [all_space] in Hs.
      now apply andb_true_iff in Hs as [_ ?].
Qed.

(** A pattern that occurs is counted at least once. *)
Lemma contains_count (p s : string) :
  contains p s = true -> (1 <= count s p)%nat.
Proof.
  unfold count. induction s as [|c s IH]; cbn [contains count_from].
  - rewrite orb_false_r. intros ->. apply Nat.le_refl.
  - destruct (prefix p (String c s)); [intros _; apply Nat.lt_0_succ|].
    exact IH.
Qed.

End PyStrFacts.

(** ** Rationals *)

Module PyNumFacts.
Import PyNum.
Open Scope Q_scope.

Lemma Qltb_lt (a b : Q) : Qltb a b = true <-> a < b.
Proof.
  unfold Qltb. rewrite negb_true_iff. split; intros H.
  - apply Qnot_le_lt. intros L. apply Qle_bool_iff in L. congruence.
  - destruct (Qle_bool b a) eqn:E; [|reflexivity].
    apply Qle_bool_iff in E. exfalso. revert H. now apply Qle_not_lt.
Qed.

Lemma Qltb_ge (a b : Q) : Qltb a b = false <-> b <= a.
Proof.
  unfold Qltb. rewrite negb_false_iff. apply Qle_bool_iff.
Qed.

Lemma pymin_le_r (a b : Q) : pymin a b <= b.
Proof.
  unfold pymin. destruct (Qltb b a) eqn:E.
  - apply Qle_refl.
  - now apply Qltb_ge in E.
Qed.

Lemma pymin_le_l (a b : Q) : pymin a b <= a.
Proof.
  unfold pymin. destruct (Qltb b a) eqn:E.
  - apply Qltb_lt in E. now apply Qlt_le_weak.
  - apply Qle_refl.
Qed.

Lemma pymin_glb (a b c : Q) : c <= a -> c <= b -> c <= pymin a b.
Proof.
  intros. unfold pymin. now destruct (Qltb b a).
Qed.

Lemma of_nat_nonneg (n : nat) : 0 <= of_nat n.
Proof.
  unfold of_nat, Qle. simpl. lia.
Qed.

Lemma of_nat_pos (n : nat) : (0 < n)%nat -> 0 < of_nat n.
Proof.
  unfold of_nat, Qlt. simpl. lia.
Qed.

End PyNumFacts.

(** ** Dictionaries *)

Module DictFacts.
Import PyNum PyNumFacts Spec.
Open Scope Q_scope.
Open Scope list_scope.

Section Generic.
Context {V : Type}.

Lemma keys_app (d1 d2 : Dict.t V) :
  Dict.keys (d1 ++ d2) = (Dict.keys d1 ++ Dict.keys d2)%list.
Proof. apply map_app. Qed.

Lemma get_None (d : Dict.t V) (k : string) :
  ~ In k (Dict.keys d) -> Dict.get d k = None.
Proof.
  induction d as [|[k' v] d IH]; simpl; [reflexivity|].
  intros H. destruct (String.eqb_spec k k') as [->|]; [tauto|].
  apply IH. tauto.
Qed.

Lemma get_In (d : Dict.t V) (k : string) (v : V) :
  Dict.get d k = Some v -> In (k, v) d.
Proof.
  induction d as [|[k' v'] d IH]; simpl; [discriminate|].
  destruct (String.eqb_spec k k') as [->|].
  - intros [= ->]. now left.
  - intros H. right. auto.
Qed.

Lemma mem_keys (d : Dict.t V) (k : string) :
  Dict.mem d k = true <-> In k (Dict.keys d).
Proof.
  unfold Dict.mem. induction d as [|[k' v] d IH]; simpl.
  - split; [discriminate|tauto].
  - destruct (String.eqb_spec k k') as [->|].
    + split; auto.
    + rewrite IH. split; [tauto|]. intros [E|]; [congruence|assumption].
Qed.

Lemma set_fresh (d : Dict.t V) (k : string) (v : V) :
  ~ In k (Dict.keys d) -> Dict.set d k v = (d ++ [(k, v)])%list.
Proof.
  intros H. unfold Dict.set, Dict.mem. now rewrite get_None.
Qed.

Lemma keys_update (d : Dict.t V) (k : string) (f : V -> V) :
  Dict.keys (Dict.update d k f) = Dict.keys d.
Proof.
  induction d as [|[k' v] d IH]; simpl; [reflexivity|].
  destruct (String.eqb k k'); simpl; [reflexivity|]. now rewrite IH.
Qed.

Lemma length_update (d : Dict.t V) (k : string) (f : V -> V) :
  length (Dict.update d k f) = length d.
Proof.
  rewrite <- (length_map fst (Dict.update d k f)), <- (length_map fst d).
  apply (f_equal (@length string)), keys_update.
Qed.

(** A property of the values that the update function keeps is kept by
    the update. *)
Lemma update_preserves (P : V -> Prop) (d : Dict.t V) (k : string)
    (f : V -> V) :
  (forall v, P v -> P (f v)) ->
  (forall k' v', In (k', v') d -> P v') ->
  forall k' v', In (k', v') (Dict.update d k f) -> P v'.
Proof.
  intros Hf. induction d as [|[k0 v0] d IH]; simpl; [tauto|].
  intros Hd k' v'. destruct (String.eqb k k0); simpl.
  - intros [[= <- <-]|H]; eauto.
  - intros [[= <- <-]|H]; eauto.
Qed.

End Generic.

(** The scoring loops visit a table whose keys are pairwise distinct, so
    every assignment appends: the score map is the table, filtered. *)
Lemma fold_set_select {C} (f : string -> C -> option Q) (tbl : Dict.t C)
    (acc : Dict.t Q) :
  NoDup (Dict.keys tbl) ->
  (forall k, In k (Dict.keys acc) -> ~ In k (Dict.keys tbl)) ->
  fold_left (fun acc '(k, c) => match f k c with
                                | Some v => Dict.set acc k v
                                | None => acc
                                end) tbl acc
  = (acc ++ select f tbl)%list.
Proof.
  revert acc. induction tbl as [|[k c] tbl IH]; simpl; intros acc ND Hd.
  - now rewrite app_nil_r.
  - inversion ND as [|? ? Hk ND']; subst.
    destruct (f k c) as [v|].
    + rewrite set_fresh by (intros H; apply (Hd k H); now left).
      rewrite IH; [now rewrite <- app_assoc|assumption|].
      intros k'. rewrite keys_app. simpl. intros H.
      apply in_app_or in H as [H|[<-|[]]]; [|assumption].
      intros H'. apply (Hd k' H). now right.
    + apply IH; [assumption|]. intros k' H H'. apply (Hd k' H). now right.
Qed.

Lemma In_select {C} (f : string -> C -> option Q) (tbl : Dict.t C)
    (k : string) (v : Q) :
  In (k, v) (select f tbl) <-> exists c, In (k, c) tbl /\ f k c = Some v.
Proof.
  unfold select. rewrite in_flat_map. split.
  - intros [[k' c] [Hin H]]. destruct (f k' c) as [v'|] eqn:E; [|destruct H].
    destruct H as [[= -> ->]|[]]. eauto.
  - intros [c [Hin E]]. exists (k, c). split; [assumption|].
    rewrite E. now left.
Qed.

Lemma select_keys {C} (f : string -> C -> option Q) (tbl : Dict.t C)
    (k : string) (v : Q) :
  In (k, v) (select f tbl) -> In k (Dict.keys tbl).
Proof.
  intros H. apply In_select in H as [c [H _]].
  apply (in_map fst) in H. exact H.
Qed.

Lemma index_of_cons_neq (k k' : string) (ks : list string) :
  k <> k' -> index_of k (k' :: ks) = S (index_of k ks).
Proof.
  intros H. simpl. now destruct (String.eqb_spec k k').
Qed.

(** In the filtered table, what comes later was declared later. *)
Lemma select_order {C} (f : string -> C -> option Q) (tbl : Dict.t C) :
  NoDup (Dict.keys tbl) ->
  forall pre r v post,
    select f tbl = pre ++ (r, v) :: post ->
    forall k' v', In (k', v') post ->
      (index_of r (Dict.keys tbl) < index_of k' (Dict.keys tbl))%nat.
Proof.
  induction tbl as [|[k c] tbl IH]; intros ND pre r v post E k' v' Hin.
  - destruct pre; discriminate.
  - inversion ND as [|? ? Hk ND']; subst.
    assert (Later : forall pre',
      select f tbl = pre' ++ (r, v) :: post ->
      (index_of r (Dict.keys (V:=C) ((k, c) :: tbl))
       < index_of k' (Dict.keys (V:=C) ((k, c) :: tbl)))%nat).
    { intros pre' E'. specialize (IH ND' pre' r v post E' k' v' Hin).
      assert (Hr : In r (Dict.keys tbl)).
      { apply (select_keys f tbl r v). rewrite E'.
        apply in_or_app. right. now left. }
      assert (Hk' : In k' (Dict.keys tbl)).
      { apply (select_keys f tbl k' v'). rewrite E'.
        apply in_or_app. right. now right. }
      cbn [Dict.keys map fst].
      rewrite !index_of_cons_neq by (intros ->; contradiction).
      unfold Dict.keys in IH. lia. }
    unfold select in E. cbn [flat_map] in E. fold (select f tbl) in E.
    destruct (f k c) as [v0|]; [|exact (Later pre E)].
    destruct pre as [|p pre]; cbn [app] in E.
    + injection E as E1 E2 E3. subst r v post.
      assert (Hk' : In k' (Dict.keys tbl)) by (eapply select_keys; eauto).
      cbn [Dict.keys map fst].
      rewrite (index_of_cons_neq k' k) by (intros ->; contradiction).
      simpl. rewrite String.eqb_refl. lia.
    + injection E as _ E. exact (Later pre E).
Qed.

Lemma NoDup_select {C} (f : string -> C -> option Q) (tbl : Dict.t C) :
  NoDup (Dict.keys tbl) -> NoDup (Dict.keys (select f tbl)).
Proof.
  induction tbl as [|[k c] tbl IH]; intros ND; [constructor|].
  inversion ND as [|? ? Hk ND']; subst.
  unfold select. cbn [flat_map]. fold (select f tbl).
  destruct (f k c) as [v|]; cbn [app]; [|auto].
  cbn [Dict.keys map fst]. constructor; [|apply IH; assumption].
  intros H. apply in_map_iff in H as [[k' v'] [E H]]. simpl in E. subst.
  apply select_keys in H. contradiction.
Qed.

Lemma select_ordered {C} (f : string -> C -> option Q) (tbl : Dict.t C) :
  NoDup (Dict.keys tbl) ->
  ordered (Dict.keys tbl) (Dict.keys (select f tbl)).
Proof.
  intros ND pre r post E k' Hk'.
  unfold Dict.keys in E. apply map_eq_app in E as (l1 & l2 & E & E1 & E2).
  apply map_eq_cons in E2 as ([r' v] & l3 & -> & Er & E3). simpl in Er.
  subst. apply in_map_iff in Hk' as [[k0 v'] [Ek Hin]]. simpl in Ek. subst.
  eapply select_order; eauto.
Qed.

(** What [max(d, key=d.get)] returns: strictly above all that precedes
    it, at least all that follows. *)
Lemma max_key_from_split (d : Dict.t Q) :
  forall best bv r,
    Dict.max_key_from best bv d = r ->
    (r = best /\ forall k' v', In (k', v') d -> v' <= bv)
    \/ exists pre v post,
         d = pre ++ (r, v) :: post /\ bv < v /\
         (forall k' v', In (k', v') pre -> v' < v) /\
         (forall k' v', In (k', v') post -> v' <= v).
Proof.
  induction d as [|[k v] d IH]; intros best bv r H; cbn [Dict.max_key_from] in H.
  - left. split; [congruence|]. intros ? ? [].
  - destruct (Qltb bv v) eqn:E.
    + apply Qltb_lt in E. right.
      destruct (IH k v r H)
        as [[Er Hall]|(pre & v1 & post & Ed & Hv & Hpre & Hpost)].
      * exists [], v, d. repeat split; auto.
        -- now rewrite Er.
        -- intros ? ? [].
      * exists ((k, v) :: pre), v1, post. repeat split; auto.
        -- now rewrite Ed.
        -- now apply Qlt_trans with v.
        -- intros k' v' [[= <- <-]|Hin]; eauto.
    + apply Qltb_ge in E.
      destruct (IH best bv r H)
        as [[Er Hall]|(pre & v1 & post & Ed & Hv & Hpre & Hpost)].
      * left. split; [assumption|].
        intros k' v' [[= <- <-]|Hin]; eauto.
      * right. exists ((k, v) :: pre), v1, post. repeat split; auto.
        -- now rewrite Ed.
        -- intros k' v' [[= <- <-]|Hin]; eauto.
           now apply Qle_lt_trans with bv.
Qed.

Lemma max_key_split (d : Dict.t Q) (r : string) :
  Dict.max_key d = Some r ->
  exists pre v post,
    d = pre ++ (r, v) :: post /\
    (forall k' v', In (k', v') pre -> v' < v) /\
    (forall k' v', In (k', v') post -> v' <= v).
Proof.
  destruct d as [|[k v] d]; [discriminate|]. cbn [Dict.max_key].
  intros [= H].
  destruct (max_key_from_split d k v r H)
    as [[Er Hall]|(pre & v1 & post & Ed & Hv & Hpre & Hpost)].
  - exists [], v, d. repeat split; auto.
    + now rewrite Er.
    + intros ? ? [].
  - exists ((k, v) :: pre), v1, post. repeat split; auto.
    + now rewrite Ed.
    + intros k' v' [[= <- <-]|Hin]; eauto.
Qed.

Lemma max_key_Some (d : Dict.t Q) :
  d <> [] -> exists r, Dict.max_key d = Some r.
Proof.
  destruct d as [|[k v] d]; [congruence|]. intros _. simpl. eauto.
Qed.

Lemma max_key_None (d : Dict.t Q) : Dict.max_key d = None <-> d = [].
Proof.
  destruct d as [|[k v] d]; simpl; split; congruence.
Qed.

Lemma max_from_In (vs : list Q) :
  forall bv, Dict.max_from bv vs = bv \/ In (Dict.max_from bv vs) vs.
Proof.
  induction vs as [|v vs IH]; intros bv; simpl; [now left|].
  destruct (Qltb bv v).
  - destruct (IH v) as [->|]; auto.
  - destruct (IH bv) as [->|]; auto.
Qed.

Lemma max_from_ge (vs : list Q) :
  forall bv, bv <= Dict.max_from bv vs /\
             forall v, In v vs -> v <= Dict.max_from bv vs.
Proof.
  induction vs as [|v vs IH]; intros bv; simpl.
  - split; [apply Qle_refl|tauto].
  - destruct (Qltb bv v) eqn:E.
    + apply Qltb_lt in E. destruct (IH v) as [H1 H2]. split.
      * apply Qle_trans with v; [now apply Qlt_le_weak|assumption].
      * intros x [<-|Hx]; auto.
    + apply Qltb_ge in E. destruct (IH bv) as [H1 H2]. split; [assumption|].
      intros x [<-|Hx]; auto. now apply Qle_trans with bv.
Qed.

(** [max(d.values())] is one of the values, and bounds them all. *)
Lemma max_value_In (d : Dict.t Q) (m : Q) :
  Dict.max_value d = Some m -> exists k, In (k, m) d.
Proof.
  destruct d as [|[k v] d]; [discriminate|]. unfold Dict.max_value.
  cbn [Dict.values map snd]. intros [= <-].
  destruct (max_from_In (map snd d) v) as [->|H].
  - exists k. now left.
  - apply in_map_iff in H as [[k' v'] [E H]]. simpl in E. subst v'.
    exists k'. now right.
Qed.

Lemma max_value_ge (d : Dict.t Q) (m : Q) :
  Dict.max_value d = Some m -> forall k v, In (k, v) d -> v <= m.
Proof.
  destruct d as [|[k0 v0] d]; [discriminate|]. unfold Dict.max_value.
  cbn [Dict.values map snd]. intros [= <-] k v [[= <- <-]|H].
  - exact (proj1 (max_from_ge (map snd d) v0)).
  - apply (proj2 (max_from_ge (map snd d) v0)).
    apply (in_map snd) in H. exact H.
Qed.

Lemma max_value_None (d : Dict.t Q) : Dict.max_value d = None <-> d = [].
Proof.
  destruct d as [|[k v] d]; unfold Dict.max_value; simpl; split; congruence.
Qed.

Lemma fold_left_inv {A B} (P : A -> Prop) (f : A -> B -> A) (l : list B) :
  (forall a b, P a -> P (f a b)) -> forall a, P a -> P (fold_left f l a).
Proof.
  intros H. induction l as [|b l IH]; intros a Ha; simpl; auto.
Qed.

Lemma In_unique {C} (tbl : Dict.t C) (k : string) (c1 c2 : C) :
  NoDup (Dict.keys tbl) -> In (k, c1) tbl -> In (k, c2) tbl -> c1 = c2.
Proof.
  induction tbl as [|[k0 c0] tbl IH]; intros ND H1 H2; [destruct H1|].
  inversion ND as [|? ? Hk ND']; subst.
  destruct H1 as [H1|H1], H2 as [H2|H2]; auto.
  - congruence.
  - injection H1 as -> ->. exfalso. apply Hk.
    apply (in_map fst) in H2. exact H2.
  - injection H2 as -> ->. exfalso. apply Hk.
    apply (in_map fst) in H1. exact H1.
Qed.

(** Which labels of the table are keys of the filtered score map. *)
Lemma mem_select {C} (f : string -> C -> option Q) (tbl : Dict.t C)
    (k : string) (c : C) :
  NoDup (Dict.keys tbl) -> In (k, c) tbl ->
  Dict.mem (select f tbl) k = true <-> exists v, f k c = Some v.
Proof.
  intros ND Hin. rewrite mem_keys. split.
  - intros H. apply in_map_iff in H as [[k' v] [E H]]. simpl in E. subst k'.
    apply In_select in H as [c' [Hin' E]].
    rewrite (In_unique tbl k c c' ND Hin Hin'). eauto.
  - intros [v E]. apply (in_map fst (select f tbl) (k, v)).
    apply In_select. eauto.
Qed.

Lemma select_nil {C} (f : string -> C -> option Q) (tbl : Dict.t C) :
  (forall k c, In (k, c) tbl -> f k c = None) -> select f tbl = [].
Proof.
  induction tbl as [|[k c] tbl IH]; intros H; [reflexivity|].
  unfold select. cbn [flat_map]. fold (select f tbl).
  rewrite (H k c) by now left. simpl. apply IH.
  intros k' c' Hin. apply H. now right.
Qed.

Lemma get_keys {V} (d : Dict.t V) (k : string) :
  In k (Dict.keys d) -> exists v, Dict.get d k = Some v.
Proof.
  intros H. apply mem_keys in H. unfold Dict.mem in H.
  destruct (Dict.get d k); [eauto|discriminate].
Qed.

Lemma fold_left_ext {A B} (f g : A -> B -> A) (l : list B) :
  (forall a b, f a b = g a b) ->
  forall a, fold_left f l a = fold_left g l a.
Proof.
  intros H. induction l as [|b l IH]; intros a; simpl; [reflexivity|].
  now rewrite H, IH.
Qed.

Lemma max_key_In (d : Dict.t Q) (r : string) :
  Dict.max_key d = Some r -> In r (Dict.keys d).
Proof.
  intros H. apply max_key_split in H as (pre & v & post & -> & _).
  rewrite keys_app. apply in_or_app. right. now left.
Qed.

End DictFacts.

(** ** The sentiment analyzer *)

Module SentimentFacts.
Import PyStr PyNum Models PyStrFacts PyNumFacts DictFacts Spec.
Import SentimentAnalyzer.
Open Scope Q_scope.
Open Scope list_scope.

Lemma severity_keys_NoDup : NoDup (Dict.keys severity_patterns).
Proof.
  repeat constructor; simpl; intuition discriminate.
Qed.

Lemma calculate_severity_scores_select (comment_lower : string)
    (ad : details) :
  _calculate_severity_scores comment_lower ad
  = select (severity_entry comment_lower) severity_patterns.
Proof.
  unfold _calculate_severity_scores.
  rewrite <- (app_nil_l (select _ _)).
  rewrite <- (fold_set_select (severity_entry comment_lower)
                severity_patterns [] severity_keys_NoDup)
    by (intros ? []).
  apply fold_left_ext. intros acc [k c]. unfold severity_entry.
  now destruct (Qltb 0 (raw_score comment_lower c)).
Qed.

Lemma keys_modify_one pc cc f (ms : Dict.t Q) (sev : string) :
  Dict.keys (modify_one pc cc f ms sev) = Dict.keys ms.
Proof.
  unfold modify_one.
  destruct (0 <? pc)%nat, (0 <? cc)%nat; now rewrite ?keys_update.
Qed.

Lemma keys_fold_modify pc cc f (ks : list string) :
  forall ms, Dict.keys (fold_left (modify_one pc cc f) ks ms) = Dict.keys ms.
Proof.
  induction ks as [|k ks IH]; intros ms; simpl; [reflexivity|].
  now rewrite IH, keys_modify_one.
Qed.

Lemma keys_apply_modifiers (c : string) (scores : Dict.t Q) (ad : details) :
  Dict.keys (fst (_apply_modifiers c scores ad)) = Dict.keys scores.
Proof.
  unfold _apply_modifiers.
  destruct (scan_positive c ad) as [pc ad1].
  destruct (scan_constructive c ad1) as [cc ad2].
  destruct (scan_intensity c ad2) as [f ad3]. simpl.
  apply keys_fold_modify.
Qed.

Lemma keys_severity_final (comment : string) :
  Dict.keys (severity_final comment)
  = Dict.keys (select (severity_entry (lower comment)) severity_patterns).
Proof.
  unfold severity_final.
  now rewrite keys_apply_modifiers, calculate_severity_scores_select.
Qed.

(** [analyze_sentiment], read through the final score map. *)
Lemma analyze_sentiment_unfold (comment : string) :
  analyze_sentiment comment =
  let ad := snd (_apply_modifiers (lower comment)
                   (_calculate_severity_scores (lower comment) initial_details)
                   initial_details) in
  match Dict.max_key (severity_final comment) with
  | None => Ok (LOW, 0.3, ad)
  | Some s =>
      primary_severity <- SeverityLevel_of s ;;
      Ok (primary_severity,
          _calculate_confidence (severity_final comment) ad,
          set_severity_scores (set_overall_tone ad (_determine_tone ad))
            (severity_final comment))
  end.
Proof.
  unfold analyze_sentiment, severity_final.
  destruct (_apply_modifiers _ _ _) as [ms ad]. reflexivity.
Qed.

Lemma severity_of_key (s : string) :
  In s (Dict.keys severity_patterns) ->
  exists sev, SeverityLevel_of s = Ok sev /\ severity_value sev = s.
Proof.
  simpl. intros [<-|[<-|[<-|[<-|[]]]]]; eexists; split; reflexivity.
Qed.

Lemma severity_final_key (comment : string) (s : string) :
  In s (Dict.keys (severity_final comment)) ->
  In s (Dict.keys severity_patterns).
Proof.
  rewrite keys_severity_final. intros H.
  apply in_map_iff in H as [[k v] [E H]]. simpl in E. subst.
  eapply select_keys; eauto.
Qed.

(** [analyze_sentiment] returns: the enum conversion never raises. *)
Lemma analyze_sentiment_total (comment : string) :
  exists sev conf ad, analyze_sentiment comment = Ok (sev, conf, ad).
Proof.
  rewrite analyze_sentiment_unfold. cbv zeta.
  destruct (Dict.max_key (severity_final comment)) as [s|] eqn:E; [|eauto].
  apply max_key_In, severity_final_key, severity_of_key in E
    as [sev [-> _]].
  simpl. eauto.
Qed.

(** *** Scores *)

Lemma raw_score_no_match (c : string) (config : severity_config) :
  forallb (fun p => negb (contains p c)) (patterns config) = true ->
  raw_score c config = 0.0.
Proof.
  unfold raw_score. generalize 0.0.
  induction (patterns config) as [|p ps IH]; intros q H; simpl in *.
  - reflexivity.
  - apply andb_true_iff in H as [Hp Hps]. apply negb_true_iff in Hp.
    rewrite Hp. auto.
Qed.

Lemma severity_raw_score_nonneg (c : string) (config : severity_config) :
  0 <= weight config -> 0 <= raw_score c config.
Proof.
  intros Hw. unfold raw_score.
  apply fold_left_inv; [|discriminate].
  intros a p Ha. destruct (contains p c); [|assumption].
  pose proof (of_nat_nonneg (Nat.min (count c p) 3)). nra.
Qed.

Lemma severity_scores_no_match (c : string) (ad : details) :
  no_match patterns severity_patterns c = true ->
  _calculate_severity_scores c ad = [].
Proof.
  intros H. rewrite calculate_severity_scores_select.
  unfold no_match in H. rewrite forallb_forall in H.
  apply select_nil. intros k cfg Hin. unfold severity_entry.
  now rewrite (raw_score_no_match c cfg (H (k, cfg) Hin)).
Qed.

(** A severity is a key of the base score map exactly when its raw score
    is strictly positive. *)
Lemma severity_scored (c : string) (ad : details) (label : string)
    (config : severity_config) :
  In (label, config) severity_patterns ->
  Dict.mem (_calculate_severity_scores c ad) label = true
  <-> 0 < raw_score c config.
Proof.
  intros Hin. rewrite calculate_severity_scores_select.
  rewrite (mem_select _ _ label config severity_keys_NoDup Hin).
  unfold severity_entry. destruct (Qltb 0 (raw_score c config)) eqn:E.
  - apply Qltb_lt in E. split; eauto.
  - apply Qltb_ge in E. split; [intros [v [=]]|].
    intros L. exfalso. revert L. now apply Qle_not_lt.
Qed.

(** *** The details dictionary *)

Lemma scan_positive_untouched (c : string) (ad : details) :
  untouched ad (snd (scan_positive c ad)).
Proof.
  unfold scan_positive.
  apply (fold_left_inv (fun st => untouched ad (snd st))); [|split; reflexivity].
  intros [n a] x H. destruct (contains x c); exact H.
Qed.

Lemma scan_constructive_untouched (c : string) (ad : details) :
  untouched ad (snd (scan_constructive c ad)).
Proof.
  unfold scan_constructive.
  apply (fold_left_inv (fun st => untouched ad (snd st))); [|split; reflexivity].
  intros [n a] x H. destruct (contains x c); exact H.
Qed.

Lemma scan_intensity_untouched (c : string) (ad : details) :
  untouched ad (snd (scan_intensity c ad)).
Proof.
  unfold scan_intensity.
  apply (fold_left_inv (fun st => untouched ad (snd st))); [|split; reflexivity].
  intros [n a] [m f] H. destruct (contains m c); exact H.
Qed.

(** [_apply_modifiers] leaves the ['severity_scores'] and ['overall_tone']
    entries of the details as it found them. *)
Lemma apply_modifiers_untouched (c : string) (scores : Dict.t Q)
    (ad : details) :
  untouched ad (snd (_apply_modifiers c scores ad)).
Proof.
  unfold _apply_modifiers.
  pose proof (scan_positive_untouched c ad) as H1.
  destruct (scan_positive c ad) as [pc ad1].
  pose proof (scan_constructive_untouched c ad1) as H2.
  destruct (scan_constructive c ad1) as [cc ad2].
  pose proof (scan_intensity_untouched c ad2) as H3.
  destruct (scan_intensity c ad2) as [f ad3]. simpl in *.
  unfold untouched in *. intuition congruence.
Qed.

Lemma determine_tone_no_scores (ad : details) :
  d_severity_scores ad = [] -> _determine_tone ad <> "harsh".
Proof.
  intros H. unfold _determine_tone. rewrite H. simpl.
  destruct (0 <? length (d_positive_indicators ad))%nat,
           (0 <? length (d_constructive_indicators ad))%nat; discriminate.
Qed.

(** The tone is computed while the details still hold the empty score
    dictionary they were created with: no comment is ever ['harsh']. *)
Lemma tone_never_harsh (comment : string) sev conf ad :
  analyze_sentiment comment = Ok (sev, conf, ad) ->
  d_overall_tone ad <> "harsh".
Proof.
  rewrite analyze_sentiment_unfold. cbv zeta.
  destruct (apply_modifiers_untouched (lower comment)
              (_calculate_severity_scores (lower comment) initial_details)
              initial_details) as [Hs Ht].
  destruct (Dict.max_key (severity_final comment)) as [s|].
  - destruct (SeverityLevel_of s) as [sv|e]; simpl; [|discriminate].
    intros [= _ _ <-]. simpl. now apply determine_tone_no_scores.
  - intros [= _ _ <-]. rewrite Ht. discriminate.
Qed.

(** *** Confidence and fallback *)

Lemma calculate_confidence_le_1 (scores : Dict.t Q) (ad : details) :
  _calculate_confidence scores ad <= 1.
Proof.
  unfold _calculate_confidence.
  destruct (Dict.max_value scores); [|discriminate].
  apply Qle_trans with 1.0; [apply pymin_le_r|discriminate].
Qed.

Lemma sentiment_confidence_le_1 (comment : string) sev conf ad :
  analyze_sentiment comment = Ok (sev, conf, ad) -> conf <= 1.
Proof.
  rewrite analyze_sentiment_unfold. cbv zeta.
  destruct (Dict.max_key (severity_final comment)) as [s|].
  - destruct (SeverityLevel_of s) as [sv|e]; simpl; [|discriminate].
    intros [= _ <- _]. apply calculate_confidence_le_1.
  - intros [= _ <- _]. discriminate.
Qed.

Lemma severity_final_no_match (comment : string) :
  no_match patterns severity_patterns (lower comment) = true ->
  severity_final comment = [].
Proof.
  intros H. apply (map_eq_nil fst).
  change (map fst (severity_final comment))
    with (Dict.keys (severity_final comment)).
  unfold severity_final.
  now rewrite keys_apply_modifiers, severity_scores_no_match.
Qed.

(** The raw score grows with every pattern that occurs. *)
Lemma raw_score_fold (c : string) (w : Q) (ps : list string) :
  0 < w ->
  forall a,
    let r := fold_left
               (fun score pattern =>
                  if contains pattern c
                  then score + w * of_nat (Nat.min (count c pattern) 3)
                  else score) ps a in
    a <= r /\ (existsb (fun p => contains p c) ps = true -> a < r).
Proof.
  intros Hw. induction ps as [|p ps IH]; intros a; cbn [fold_left existsb].
  - split; [apply Qle_refl|discriminate].
  - destruct (contains p c) eqn:E.
    + assert (Hn : 0 < of_nat (Nat.min (count c p) 3)).
      { apply of_nat_pos. apply contains_count in E. lia. }
      destruct (IH (a + w * of_nat (Nat.min (count c p) 3))) as [H1 _].
      cbv zeta in *. split; [nra|intros _; nra].
    + destruct (IH a) as [H1 H2]. cbv zeta in *. split; auto.
Qed.

Lemma severity_weight_pos (label : string) (config : severity_config) :
  In (label, config) severity_patterns -> 0 < weight config.
Proof.
  simpl. intros H.
  repeat (destruct H as [[= <- <-]|H]; [reflexivity|]).
  destruct H.
Qed.

Lemma severity_raw_score_pos (c : string) (label : string)
    (config : severity_config) :
  In (label, config) severity_patterns ->
  existsb (fun p => contains p c) (patterns config) = true ->
  0 < raw_score c config.
Proof.
  intros Hin Hex. unfold raw_score.
  destruct (raw_score_fold c (weight config) (patterns config)
              (severity_weight_pos _ _ Hin) 0.0) as [_ H].
  cbv zeta in H. apply Qle_lt_trans with 0.0; [discriminate|]. auto.
Qed.

Lemma forallb_negb_existsb {A} (f : A -> bool) (l : list A) :
  forallb (fun x => negb (f x)) l = negb (existsb f l).
Proof.
  induction l as [|x l IH]; simpl; [reflexivity|].
  rewrite IH. now destruct (f x).
Qed.

(** The final score map is empty exactly when no severity pattern occurs
    in the comment. *)
Lemma severity_final_empty_iff (comment : string) :
  severity_final comment = []
  <-> no_match patterns severity_patterns (lower comment) = true.
Proof.
  split; [|apply severity_final_no_match].
  intros E. unfold no_match. apply forallb_forall. intros [k config] Hin.
  rewrite forallb_negb_existsb. apply negb_true_iff.
  destruct (existsb _ _) eqn:Ex; [exfalso|reflexivity].
  assert (Hm : Dict.mem (_calculate_severity_scores (lower comment)
                           initial_details) k = true).
  { apply (severity_scored _ _ k config Hin).
    now apply severity_raw_score_pos with k. }
  apply mem_keys in Hm.
  unfold severity_final in E. apply (f_equal Dict.keys) in E.
  rewrite keys_apply_modifiers in E. rewrite E in Hm. destruct Hm.
Qed.

(** *** Order of the labels *)

Lemma severity_final_ordered (comment : string) :
  ordered (Dict.keys severity_patterns) (Dict.keys (severity_final comment)).
Proof.
  rewrite keys_severity_final.
  apply select_ordered, severity_keys_NoDup.
Qed.

End SentimentFacts.

(** ** The language detector *)

Module LanguageFacts.
Import PyStr PyNum PyStrFacts PyNumFacts DictFacts Spec LanguageDetector.
Open Scope Q_scope.
Open Scope list_scope.

Lemma language_keys_NoDup : NoDup (Dict.keys language_patterns).
Proof.
  repeat constructor; simpl; intuition discriminate.
Qed.

Lemma analyze_patterns_select (code_snippet : string) :
  _analyze_patterns code_snippet
  = select (language_entry (lower code_snippet)) language_patterns.
Proof.
  unfold _analyze_patterns. cbv zeta.
  rewrite <- (app_nil_l (select _ _)).
  rewrite <- (fold_set_select (language_entry (lower code_snippet))
                language_patterns [] language_keys_NoDup)
    by (intros ? []).
  apply fold_left_ext. intros acc [k c]. unfold language_entry.
  now destruct (patterns c).
Qed.

Lemma language_entry_Some (c : string) (l : string) (config : language_config) :
  In (l, config) language_patterns ->
  exists v, language_entry c l config = Some v.
Proof.
  simpl. intros H.
  repeat (destruct H as [[= <- <-]|H]; [unfold language_entry; simpl; eauto|]).
  destruct H.
Qed.

(** Every language of the table is a key of the score map, whatever its
    score. *)
Lemma language_always_scored (code_snippet : string) (l : string) :
  In l (Dict.keys language_patterns) ->
  Dict.mem (_analyze_patterns code_snippet) l = true.
Proof.
  intros H. apply in_map_iff in H as [[k config] [E H]]. simpl in E. subst k.
  rewrite analyze_patterns_select.
  apply (mem_select _ _ l config language_keys_NoDup H).
  now apply language_entry_Some.
Qed.

Lemma language_raw_score_nonneg (c : string) (config : language_config) :
  0 <= raw_score c config.
Proof.
  unfold raw_score. apply fold_left_inv; [|discriminate].
  intros a p Ha. destruct (contains (lower p) c); [|assumption].
  pose proof (of_nat_nonneg (Nat.min (count c (lower p)) 3)).
  destruct (in_list p (strong_indicators config)); nra.
Qed.

Lemma analyze_patterns_nonneg (code_snippet : string) (k : string) (v : Q) :
  In (k, v) (_analyze_patterns code_snippet) -> 0 <= v.
Proof.
  rewrite analyze_patterns_select. intros H.
  apply In_select in H as [config [_ E]]. unfold language_entry in E.
  destruct (patterns config) as [|p ps] eqn:Ep; [discriminate|].
  injection E as <-.
  apply Qle_shift_div_l.
  - pose proof (of_nat_pos (length (p :: ps))) as Hp. simpl length in *.
    specialize (Hp ltac:(lia)). nra.
  - rewrite Qmult_0_l. apply language_raw_score_nonneg.
Qed.

Lemma keys_language_final (code_snippet : string) (filename : option string) :
  Dict.keys (language_final code_snippet filename)
  = Dict.keys (_analyze_patterns code_snippet).
Proof.
  unfold language_final. cbv zeta.
  destruct (match filename with
            | Some f => if truthy f then _detect_from_filename f else None
            | None => None
            end) as [l|]; [|reflexivity].
  destruct (truthy l && Dict.mem (_analyze_patterns code_snippet) l);
    [apply keys_update|reflexivity].
Qed.

(** A property of scores that multiplication by 1.5 keeps is kept by the
    file name boost. *)
Lemma language_final_preserves (P : Q -> Prop) (code_snippet : string)
    (filename : option string) :
  (forall v, P v -> P (v * 1.5)) ->
  (forall k v, In (k, v) (_analyze_patterns code_snippet) -> P v) ->
  forall k v, In (k, v) (language_final code_snippet filename) -> P v.
Proof.
  intros HP H. unfold language_final. cbv zeta.
  destruct (match filename with
            | Some f => if truthy f then _detect_from_filename f else None
            | None => None
            end) as [l|]; [|exact H].
  destruct (truthy l && Dict.mem (_analyze_patterns code_snippet) l);
    [|exact H].
  now apply update_preserves.
Qed.

Lemma language_final_nonneg code_snippet filename (k : string) (v : Q) :
  In (k, v) (language_final code_snippet filename) -> 0 <= v.
Proof.
  apply (language_final_preserves (fun v => 0 <= v)).
  - intros x Hx. nra.
  - apply analyze_patterns_nonneg.
Qed.

(** [detect_language], read through the final score map. *)
Lemma detect_language_unfold (code_snippet : string)
    (filename : option string) :
  detect_language code_snippet filename =
  if all_space code_snippet then ("unknown", 0.0)
  else
    let language_scores := language_final code_snippet filename in
    match Dict.max_value language_scores, Dict.max_key language_scores with
    | Some m, Some best_language =>
        if Qeq_bool m 0 then ("unknown", 0.1)
        else match Dict.get language_scores best_language with
             | Some v => (best_language, pymin v 1.0)
             | None => ("unknown", 0.1)
             end
    | _, _ => ("unknown", 0.1)
    end.
Proof.
  unfold detect_language. rewrite strip_truthy, negb_involutive.
  destruct (all_space code_snippet) eqn:E.
  - now rewrite orb_true_r.
  - rewrite orb_false_r.
    destruct code_snippet; [discriminate|reflexivity].
Qed.

(** The confidence of [detect_language] lies in [0, 1]. *)
Lemma language_confidence_bounds code_snippet filename :
  0 <= snd (detect_language code_snippet filename) <= 1.
Proof.
  rewrite detect_language_unfold.
  destruct (all_space code_snippet); [split; discriminate|]. cbv zeta.
  destruct (Dict.max_value _) as [m|]; [|split; discriminate].
  destruct (Dict.max_key _) as [r|]; [|split; discriminate].
  destruct (Qeq_bool m 0); [split; discriminate|].
  destruct (Dict.get _ r) as [v|] eqn:G; [|split; discriminate].
  simpl. apply get_In, language_final_nonneg in G. split.
  - apply pymin_glb; [assumption|discriminate].
  - apply Qle_trans with 1.0; [apply pymin_le_r|discriminate].
Qed.

(** When every pattern score is zero the answer is ['unknown'], with or
    without a file name: the boost multiplies, it never adds. *)
Lemma language_unknown_without_score code_snippet filename :
  forallb (fun kv => Qeq_bool (snd kv) 0) (_analyze_patterns code_snippet)
  = true ->
  detect_language code_snippet filename
  = ("unknown", if all_space code_snippet then 0.0 else 0.1).
Proof.
  intros H. rewrite detect_language_unfold.
  destruct (all_space code_snippet); [reflexivity|]. cbv zeta.
  destruct (Dict.max_value _) as [m|] eqn:Em; [|reflexivity].
  destruct (Dict.max_key _) as [r|]; [|reflexivity].
  apply max_value_In in Em as [k Hk].
  assert (Hm : m == 0).
  { revert k m Hk. apply (language_final_preserves (fun v => v == 0)).
    - intros v Hv. rewrite Hv. reflexivity.
    - intros k v Hin. rewrite forallb_forall in H.
      apply Qeq_bool_iff. exact (H (k, v) Hin). }
  apply Qeq_bool_iff in Hm. now rewrite Hm.
Qed.

Lemma language_final_ordered code_snippet filename :
  ordered (Dict.keys language_patterns)
    (Dict.keys (language_final code_snippet filename)).
Proof.
  rewrite keys_language_final, analyze_patterns_select.
  apply select_ordered, language_keys_NoDup.
Qed.

(** An empty or blank fragment is answered before any scoring. *)
Lemma language_blank code_snippet filename :
  all_space code_snippet = true ->
  detect_language code_snippet filename = ("unknown", 0.0).
Proof.
  intros H. now rewrite detect_language_unfold, H.
Qed.

End LanguageFacts.

(** ** The category classifier *)

Module CategoryFacts.
Import PyStr PyNum Models PyStrFacts PyNumFacts DictFacts Spec.
Import CategoryClassifier.
Open Scope Q_scope.
Open Scope list_scope.

Lemma category_keys_NoDup : NoDup (Dict.keys category_patterns).
Proof.
  repeat constructor; simpl; intuition discriminate.
Qed.

Lemma calculate_category_scores_select (comment_lower : string) :
  _calculate_category_scores comment_lower
  = select (category_entry comment_lower) category_patterns.
Proof.
  unfold _calculate_category_scores.
  rewrite <- (app_nil_l (select _ _)).
  rewrite <- (fold_set_select (category_entry comment_lower)
                category_patterns [] category_keys_NoDup)
    by (intros ? []).
  apply fold_left_ext. intros acc [k c]. unfold category_entry.
  now destruct (Qltb 0 (raw_score comment_lower k c)).
Qed.

(** *** Scores *)

Lemma pattern_score_no_match (c : string) (config : category_config) :
  forallb (fun p => negb (contains p c)) (patterns config) = true ->
  pattern_score c config = 0.0.
Proof.
  unfold pattern_score. generalize 0.0.
  induction (patterns config) as [|p ps IH]; intros q H; simpl in *.
  - reflexivity.
  - apply andb_true_iff in H as [Hp Hps]. apply negb_true_iff in Hp.
    rewrite Hp. auto.
Qed.

Lemma context_boost_zero (c category : string) (score : Q) :
  score == 0 -> context_boost c category score == 0.
Proof.
  intros H. unfold context_boost.
  destruct (Dict.get context_patterns category); [|exact H].
  apply (fold_left_inv (fun v => v == 0)); [|exact H]. intros a p Ha.
  destruct (contains p c); [|assumption]. rewrite Ha. reflexivity.
Qed.

Lemma category_scores_no_match (c : string) :
  no_match patterns category_patterns c = true ->
  _calculate_category_scores c = [].
Proof.
  intros H. rewrite calculate_category_scores_select.
  unfold no_match in H. rewrite forallb_forall in H.
  apply select_nil. intros k cfg Hin. unfold category_entry, raw_score.
  assert (E : context_boost c k (pattern_score c cfg) == 0).
  { apply context_boost_zero.
    now rewrite (pattern_score_no_match c cfg (H (k, cfg) Hin)). }
  destruct (Qltb 0 _) eqn:L; [|reflexivity].
  apply Qltb_lt in L. rewrite E in L. now apply Qlt_irrefl in L.
Qed.

(** A category is a key of the base score map exactly when its raw score
    is strictly positive. *)
Lemma category_scored (c : string) (label : string)
    (config : category_config) :
  In (label, config) category_patterns ->
  Dict.mem (_calculate_category_scores c) label = true
  <-> 0 < raw_score c label config.
Proof.
  intros Hin. rewrite calculate_category_scores_select.
  rewrite (mem_select _ _ label config category_keys_NoDup Hin).
  unfold category_entry. destruct (Qltb 0 (raw_score c label config)) eqn:E.
  - apply Qltb_lt in E. split; eauto.
  - apply Qltb_ge in E. split; [intros [v [=]]|].
    intros L. exfalso. revert L. now apply Qle_not_lt.
Qed.

Lemma category_weight_pos (label : string) (config : category_config) :
  In (label, config) category_patterns ->
  0 < of_nat (length (patterns config)) * weight config.
Proof.
  simpl. intros H.
  repeat (destruct H as [[= <- <-]|H]; [reflexivity|]).
  destruct H.
Qed.

Lemma category_scores_pos (c : string) (k : string) (v : Q) :
  In (k, v) (_calculate_category_scores c) -> 0 < v.
Proof.
  rewrite calculate_category_scores_select. intros H.
  apply In_select in H as [config [Hin E]]. unfold category_entry in E.
  destruct (Qltb 0 (raw_score c k config)) eqn:L; [|discriminate].
  injection E as <-. apply Qltb_lt in L.
  apply Qlt_shift_div_l; [now apply category_weight_pos with k|].
  now rewrite Qmult_0_l.
Qed.

(** *** Code context *)

Lemma apply_code_context_fold (scores : Dict.t Q) (code : string) :
  _apply_code_context scores code
  = fold_left (code_step code) code_hints scores.
Proof. reflexivity. Qed.

Lemma keys_apply_code_context (scores : Dict.t Q) (code : string) :
  Dict.keys (_apply_code_context scores code) = Dict.keys scores.
Proof.
  rewrite apply_code_context_fold.
  apply (fold_left_inv (fun d => Dict.keys d = Dict.keys scores));
    [|reflexivity].
  intros a [k h] Ha. unfold code_step.
  destruct (Dict.mem a k); [|assumption].
  destruct (0 <? hint_count h code)%nat; [|assumption].
  now rewrite keys_update.
Qed.

Lemma apply_code_context_pos (scores : Dict.t Q) (code : string) :
  (forall k v, In (k, v) scores -> 0 < v) ->
  forall k v, In (k, v) (_apply_code_context scores code) -> 0 < v.
Proof.
  rewrite apply_code_context_fold.
  intros H.
  apply (fold_left_inv (fun d => forall k v, In (k, v) d -> 0 < v));
    [|exact H].
  intros a [k h] Ha. unfold code_step.
  destruct (Dict.mem a k); [|assumption].
  destruct (0 <? hint_count h code)%nat; [|assumption].
  apply update_preserves; [|assumption].
  intros v Hv. pose proof (of_nat_nonneg (hint_count h code)). nra.
Qed.

Lemma keys_category_final (comment : string) (code_snippet : option string) :
  Dict.keys (category_final comment code_snippet)
  = Dict.keys (_calculate_category_scores (lower comment)).
Proof.
  unfold category_final. cbv zeta.
  destruct code_snippet as [code|]; [|reflexivity].
  destruct (truthy code); [apply keys_apply_code_context|reflexivity].
Qed.

Lemma category_final_pos comment code_snippet (k : string) (v : Q) :
  In (k, v) (category_final comment code_snippet) -> 0 < v.
Proof.
  unfold category_final. cbv zeta.
  destruct code_snippet as [code|]; [|apply category_scores_pos].
  destruct (truthy code); [|apply category_scores_pos].
  apply apply_code_context_pos. apply category_scores_pos.
Qed.

Lemma category_final_ordered comment code_snippet :
  ordered (Dict.keys category_patterns)
    (Dict.keys (category_final comment code_snippet)).
Proof.
  rewrite keys_category_final, calculate_category_scores_select.
  apply select_ordered, category_keys_NoDup.
Qed.

Lemma category_final_key comment code_snippet (s : string) :
  In s (Dict.keys (category_final comment code_snippet)) ->
  In s (Dict.keys category_patterns).
Proof.
  rewrite keys_category_final, calculate_category_scores_select. intros H.
  apply in_map_iff in H as [[k v] [E H]]. simpl in E. subst.
  eapply select_keys; eauto.
Qed.

(** *** The classifier as a whole *)

(** [classify_comment], read through the final score map. *)
Lemma classify_comment_unfold (comment : string)
    (code_snippet : option string) :
  classify_comment comment code_snippet =
  match Dict.max_key (category_final comment code_snippet) with
  | None => Ok (GENERAL, 0.3, IMPACT_LOW)
  | Some s =>
      primary_category <- CategoryType_of s ;;
      impact_level <- _assess_impact_level primary_category (lower comment) ;;
      Ok (primary_category,
          _calculate_confidence (category_final comment code_snippet)
            (lower comment),
          impact_level)
  end.
Proof. reflexivity. Qed.

Lemma category_of_key (s : string) :
  In s (Dict.keys category_patterns) ->
  exists cat, CategoryType_of s = Ok cat /\ category_value cat = s.
Proof.
  simpl. intros H.
  repeat (destruct H as [<-|H]; [eexists; split; reflexivity|]).
  destruct H.
Qed.

Lemma assess_impact_level_total (category : CategoryType) (c : string) :
  exists impact, _assess_impact_level category c = Ok impact.
Proof.
  unfold _assess_impact_level. cbv zeta.
  destruct (find _ impact_indicators) as [[impact inds]|] eqn:F.
  - apply find_some in F as [Hin _]. simpl in Hin.
    repeat (destruct Hin as [[= <- <-]|Hin]; [eexists; reflexivity|]).
    destruct Hin.
  - destruct category; try (eexists; reflexivity).
    + destruct (existsb _ _); eexists; reflexivity.
    + destruct (existsb _ _); eexists; reflexivity.
Qed.

(** [classify_comment] returns: neither enum conversion raises. *)
Lemma classify_comment_total comment code_snippet :
  exists cat conf impact,
    classify_comment comment code_snippet = Ok (cat, conf, impact).
Proof.
  rewrite classify_comment_unfold.
  destruct (Dict.max_key _) as [s|] eqn:E; [|eauto].
  apply max_key_In, category_final_key, category_of_key in E
    as [cat [-> _]].
  cbn [bind]. destruct (assess_impact_level_total cat (lower comment))
    as [impact ->].
  cbn [bind]. eauto.
Qed.

Lemma calculate_confidence_bounds (scores : Dict.t Q) (c : string) :
  (forall k v, In (k, v) scores -> 0 < v) ->
  0 <= _calculate_confidence scores c <= 1.
Proof.
  intros Hpos. unfold _calculate_confidence.
  destruct (Dict.max_value scores) as [m|] eqn:Em; [|split; discriminate].
  cbv zeta. split.
  - apply pymin_glb; [|discriminate].
    apply max_value_In in Em as [k Hk]. apply Hpos in Hk.
    assert (H0 : 0 <= pymin (m * 1.5) 1.0).
    { apply pymin_glb; [nra|discriminate]. }
    set (c0 := pymin (m * 1.5) 1.0) in *.
    assert (H1 : 0 <= (if (2 <? length scores)%nat then c0 * 0.9 else c0)).
    { destruct (2 <? length scores)%nat; nra. }
    set (c1 := if (2 <? length scores)%nat then c0 * 0.9 else c0) in *.
    destruct (clear_indicators c =? 1)%nat; [nra|].
    destruct (1 <? clear_indicators c)%nat; nra.
  - apply Qle_trans with 1.0; [apply pymin_le_r|discriminate].
Qed.

(** The confidence of [classify_comment] lies in [0, 1]. *)
Lemma category_confidence_bounds comment code_snippet cat conf impact :
  classify_comment comment code_snippet = Ok (cat, conf, impact) ->
  0 <= conf <= 1.
Proof.
  rewrite classify_comment_unfold.
  destruct (Dict.max_key _) as [s|].
  - destruct (CategoryType_of s) as [c|]; cbn [bind]; [|discriminate].
    destruct (_assess_impact_level c (lower comment)); cbn [bind];
      [|discriminate].
    intros [= _ <- _]. apply calculate_confidence_bounds.
    apply category_final_pos.
  - intros [= _ <- _]. split; discriminate.
Qed.

(** *** White space *)

Lemma category_patterns_visible :
  forallb (fun '(_, c) => forallb has_non_space (patterns c))
    category_patterns = true.
Proof. reflexivity. Qed.

Lemma no_match_all_space (text : string) :
  all_space text = true -> no_match patterns category_patterns text = true.
Proof.
  intros Hs. pose proof category_patterns_visible as V.
  unfold no_match. rewrite forallb_forall in *.
  intros [k c] Hin. specialize (V (k, c) Hin). simpl in V.
  rewrite forallb_forall in *. intros p Hp.
  apply negb_true_iff, contains_all_space; auto.
Qed.

Lemma category_blank comment code_snippet :
  all_space comment = true ->
  classify_comment comment code_snippet = Ok (GENERAL, 0.3, IMPACT_LOW).
Proof.
  intros H. rewrite classify_comment_unfold.
  assert (E : category_final comment code_snippet = []).
  { apply (map_eq_nil fst).
    change (map fst (category_final comment code_snippet))
      with (Dict.keys (category_final comment code_snippet)).
    rewrite keys_category_final, category_scores_no_match; [reflexivity|].
    apply no_match_all_space. now rewrite all_space_lower. }
  now rewrite E.
Qed.

End CategoryFacts.

(** ** The orchestrator *)

Module ReviewerFacts.
Import PyStr Models PyStrFacts DictFacts Spec Reviewer.
Open Scope list_scope.

Lemma blank_all_space (s : string) : blank (PStr s) = all_space s.
Proof.
  unfold blank. now rewrite strip_truthy, negb_involutive.
Qed.

Lemma check_comments_ValueError (l : list pyval) :
  forall i e, check_comments i l = Raise e -> exists msg, e = ValueError msg.
Proof.
  induction l as [|x l IH]; intros i e; simpl; [discriminate|].
  destruct (negb (isinstance_str x) || blank x).
  - intros [= <-]. eauto.
  - apply IH.
Qed.

Lemma check_comments_Ok (l : list pyval) :
  forall i, check_comments i l = Ok tt -> existsb bad_entry l = false.
Proof.
  induction l as [|x l IH]; intros i; [reflexivity|].
  cbn [check_comments existsb].
  destruct x as [| | | |s| |]; try discriminate.
  cbn [isinstance_str negb orb bad_entry].
  rewrite blank_all_space. destruct (all_space s); [discriminate|].
  apply IH.
Qed.

(** Whatever [_validate_input] raises is a [ValueError]. *)
Lemma validate_input_ValueError processing (input_data : pyval) (e : exn) :
  _validate_input processing input_data = Raise e ->
  exists msg, e = ValueError msg.
Proof.
  destruct input_data as [| | | | | |d]; simpl;
    try (intros [= <-]; eauto; fail).
  unfold Dict.mem.
  destruct (Dict.get d "code_snippet") as [cs|];
    [|simpl; intros [= <-]; eauto].
  destruct (Dict.get d "review_comments") as [rc|];
    [|simpl; intros [= <-]; eauto].
  simpl.
  destruct (negb (isinstance_str cs) || blank cs); [intros [= <-]; eauto|].
  destruct rc as [| | | | |l|]; try (intros [= <-]; eauto; fail).
  destruct l as [|c l]; [intros [= <-]; eauto|].
  destruct (_ <? _)%Z; [intros [= <-]; eauto|].
  intros H. exact (check_comments_ValueError (c :: l) 0%nat e H).
Qed.

(** What an accepted input looks like. *)
Lemma validate_input_Ok processing (d : list (string * pyval)) cs rc :
  Dict.get d "code_snippet" = Some cs ->
  Dict.get d "review_comments" = Some rc ->
  _validate_input processing (PDict d) = Ok tt ->
  refused processing cs rc = false.
Proof.
  intros Hcs Hrc. cbn [_validate_input check_keys]. unfold Dict.mem.
  rewrite Hcs, Hrc. cbn [bind]. unfold refused.
  destruct cs as [| | | |s| |]; try discriminate.
  cbn [isinstance_str negb orb nonempty_string].
  rewrite blank_all_space.
  destruct (all_space s) eqn:Es; [discriminate|].
  assert (Ht : truthy s = true) by (destruct s; [discriminate|reflexivity]).
  rewrite Ht. simpl.
  destruct rc as [| | | | |l|]; try discriminate.
  destruct l as [|c l]; [discriminate|].
  destruct (_ <? _)%Z; [discriminate|].
  intros H. now rewrite (check_comments_Ok (c :: l) 0%nat H).
Qed.

Lemma validate_input_refused processing (d : list (string * pyval)) cs rc :
  Dict.get d "code_snippet" = Some cs ->
  Dict.get d "review_comments" = Some rc ->
  refused processing cs rc = true ->
  exists msg, _validate_input processing (PDict d) = Raise (ValueError msg).
Proof.
  intros Hcs Hrc Hr.
  destruct (_validate_input processing (PDict d)) as [[]|e] eqn:E.
  - apply (validate_input_Ok processing d cs rc Hcs Hrc) in E. congruence.
  - apply validate_input_ValueError in E as [msg ->]. eauto.
Qed.

End ReviewerFacts.

(** ** The embedding on concrete inputs *)

Module Examples.
Import PyStr PyNum Models Spec.
Open Scope Q_scope.
Open Scope list_scope.

Example lower_mixed : lower "Def F(X): RETURN x" = "def f(x): return x".
Proof. reflexivity. Qed.

Example strip_both : strip "  a b  " = "a b".
Proof. reflexivity. Qed.

Example contains_inner : contains "wrong" "completely wrong logic" = true.
Proof. reflexivity. Qed.

Example count_no_overlap : count "aaaa" "aa" = 2%nat /\ count "aaa" "aa" = 1%nat.
Proof. split; reflexivity. Qed.

Example endswith_extension :
  endswith "app.py" ".py" = true /\ endswith "app.pyc" ".py" = false.
Proof. split; reflexivity. Qed.

Example filename_header :
  LanguageDetector._detect_from_filename "Main.HPP" = Some "cpp".
Proof. reflexivity. Qed.

Example python_with_filename :
  LanguageDetector.detect_language "def f(x): return x" None
  = ("python", 3000 # 28000)
  /\ fst (LanguageDetector.detect_language "def f(x): return x"
            (Some "app.py")) = "python"
  /\ snd (LanguageDetector.detect_language "def f(x): return x"
            (Some "app.py")) == 3 / 28 * 1.5.
Proof. repeat split. Qed.

(** The list-comprehension example of the specification. *)
Example list_comprehension_comment :
  (exists conf,
     CategoryClassifier.classify_comment
       "Consider using a list comprehension here for better performance"
       (Some "for x in xs: ys.append(x)")
     = Ok (PERFORMANCE, conf, IMPACT_HIGH))
  /\ (exists conf ad,
        SentimentAnalyzer.analyze_sentiment
          "Consider using a list comprehension here for better performance"
        = Ok (MEDIUM, conf, ad)
        /\ SentimentAnalyzer.d_overall_tone ad = "neutral-constructive").
Proof.
  split.
  - eexists. vm_compute. reflexivity.
  - do 2 eexists. split; [vm_compute; reflexivity|reflexivity].
Qed.

Example parse_two_sections :
  FeedbackGenerator._parse_response
    "POSITIVE_REPHRASE: Nice start!
and more
EXPLANATION: Loops get slow."
  = [("rephrase", "Nice start!
and more"); ("explanation", "Loops get slow.")].
Proof. reflexivity. Qed.

Example resources_fall_back_to_python :
  ResourceManager.get_resources
    [("python", [("logic", ["a"; "b"; "c"])]); ("go", [])] "go" "logic"
  = ["a"; "b"].
Proof. reflexivity. Qed.

Example accepted_input :
  Reviewer._validate_input default_ProcessingConfig
    (PDict [("code_snippet", PStr "x = 1");
            ("review_comments", PList [PStr "Fix this"])]) = Ok tt.
Proof. reflexivity. Qed.

End Examples.

(** ** Binary64 scores *)

Module Binary64Facts.
Import PyStr Models PyStrFacts DictFacts Spec.
Import PrimFloat SpecFloat FloatOps FloatAxioms.
Import Binary64.
#[local] Set Warnings "-inexact-float".
Open Scope list_scope.

(** *** The order of the floats that are not NaN *)

Lemma lex_lt_irrefl (a : Z * Z * Z) : ~ lex_lt a a.
Proof.
  destruct a as [[a1 a2] a3]. unfold lex_lt. lia.
Qed.

Lemma lex_lt_trans (a b c : Z * Z * Z) :
  lex_lt a b -> lex_lt b c -> lex_lt a c.
Proof.
  destruct a as [[a1 a2] a3], b as [[b1 b2] b3], c as [[c1 c2] c3].
  unfold lex_lt. lia.
Qed.

Lemma lex_le_lt_trans (a b c : Z * Z * Z) :
  ~ lex_lt b a -> lex_lt b c -> lex_lt a c.
Proof.
  destruct a as [[a1 a2] a3], b as [[b1 b2] b3], c as [[c1 c2] c3].
  unfold lex_lt. lia.
Qed.

Ltac rank_cases :=
  unfold lex_lt; repeat split; intros;
  repeat match goal with
         | H : (_, _) = (_, _) |- _ => injection H as ? ?
         end;
  subst; try discriminate; try reflexivity; try lia.

(** On floats that are not NaN, [SFcompare] is the comparison of ranks. *)
Lemma SFcompare_rank (f g : spec_float) :
  f <> S754_nan -> g <> S754_nan ->
  exists c,
    SFcompare f g = Some c
    /\ (c = Lt <-> lex_lt (rank f) (rank g))
    /\ (c = Eq <-> rank f = rank g)
    /\ (c = Gt <-> lex_lt (rank g) (rank f)).
Proof.
  intros Hf Hg.
  destruct f as [[|]|[|]| |[|] m1 e1], g as [[|]|[|]| |[|] m2 e2];
    try congruence; cbn [SFcompare rank];
    try (eexists; split; [reflexivity|]; rank_cases; fail).
  - eexists. split; [reflexivity|].
    change (Pos.compare_cont Eq m1 m2) with (Pos.compare m1 m2).
    destruct (Z.compare_spec e1 e2), (Pos.compare_spec m1 m2);
      cbn [CompOpp]; rank_cases.
  - eexists. split; [reflexivity|].
    change (Pos.compare_cont Eq m1 m2) with (Pos.compare m1 m2).
    destruct (Z.compare_spec e1 e2), (Pos.compare_spec m1 m2);
      rank_cases.
Qed.

Lemma is_nan_false (x : PrimFloat.float) :
  PrimFloat.is_nan x = false <-> Prim2SF x <> S754_nan.
Proof.
  unfold PrimFloat.is_nan. rewrite eqb_spec, negb_false_iff. unfold SFeqb.
  split.
  - intros H E. rewrite E in H. discriminate.
  - intros H. destruct (SFcompare_rank _ _ H H) as (c & -> & _ & [_ E] & _).
    now rewrite E.
Qed.

Section Order.

Variables x y : PrimFloat.float.
Hypothesis Hx : PrimFloat.is_nan x = false.
Hypothesis Hy : PrimFloat.is_nan y = false.

Lemma ltb_rank :
  PrimFloat.ltb x y = true
  <-> lex_lt (rank (Prim2SF x)) (rank (Prim2SF y)).
Proof.
  rewrite ltb_spec. unfold SFltb.
  destruct (SFcompare_rank _ _ (proj1 (is_nan_false x) Hx)
              (proj1 (is_nan_false y) Hy)) as (c & -> & [L1 L2] & _ & _).
  split; [|now intros ->%L2]. destruct c; auto; discriminate.
Qed.

Lemma leb_rank :
  PrimFloat.leb x y = true
  <-> ~ lex_lt (rank (Prim2SF y)) (rank (Prim2SF x)).
Proof.
  rewrite leb_spec. unfold SFleb.
  destruct (SFcompare_rank _ _ (proj1 (is_nan_false x) Hx)
              (proj1 (is_nan_false y) Hy))
    as (c & -> & [L1 L2] & [E1 E2] & [G1 G2]).
  split.
  - intros H G. apply G2 in G. subst c. discriminate.
  - intros H. destruct c; try reflexivity. exfalso. now apply H, G1.
Qed.

Lemma eqb_rank :
  PrimFloat.eqb x y = true <-> rank (Prim2SF x) = rank (Prim2SF y).
Proof.
  rewrite eqb_spec. unfold SFeqb.
  destruct (SFcompare_rank _ _ (proj1 (is_nan_false x) Hx)
              (proj1 (is_nan_false y) Hy)) as (c & -> & _ & [E1 E2] & _).
  split; [|now intros ->%E2]. destruct c; auto; discriminate.
Qed.

End Order.

Lemma nan_free_In (d : Dict.t PrimFloat.float) :
  nan_free d = true <-> forall k v, In (k, v) d -> PrimFloat.is_nan v = false.
Proof.
  unfold nan_free. rewrite forallb_forall. split.
  - intros H k v Hin. apply negb_true_iff, H.
    apply (in_map snd) in Hin. exact Hin.
  - intros H v Hin. apply in_map_iff in Hin as [[k v'] [E Hin]].
    simpl in E. subst. apply negb_true_iff. eauto.
Qed.

(** *** [max] on a dictionary of floats *)

(** What [max(d, key=d.get)] returns: strictly above all that precedes
    it, at least all that follows. *)
Lemma b64_max_key_from_split (d : Dict.t PrimFloat.float) :
  forall best bv r,
    PrimFloat.is_nan bv = false ->
    nan_free d = true ->
    max_key_from best bv d = r ->
    (r = best /\
     forall k' v', In (k', v') d -> PrimFloat.leb v' bv = true)
    \/ exists pre v post,
         d = pre ++ (r, v) :: post /\ PrimFloat.ltb bv v = true /\
         (forall k' v', In (k', v') pre -> PrimFloat.ltb v' v = true) /\
         (forall k' v', In (k', v') post -> PrimFloat.leb v' v = true).
Proof.
  induction d as [|[k v] d IH]; intros best bv r Hbv Hd H;
    cbn [max_key_from] in H.
  - left. split; [congruence|]. intros ? ? [].
  - assert (Hv : PrimFloat.is_nan v = false).
    { apply (proj1 (nan_free_In _) Hd k v). now left. }
    assert (Hd' : nan_free d = true).
    { apply nan_free_In. intros k' v' Hin.
      apply (proj1 (nan_free_In _) Hd k' v'). now right. }
    destruct (PrimFloat.ltb bv v) eqn:E.
    + right.
      destruct (IH k v r Hv Hd' H)
        as [[Er Hall]|(pre & v1 & post & Ed & Hlt & Hpre & Hpost)].
      * exists [], v, d. split; [now rewrite Er|].
        split; [assumption|]. split; [intros ? ? []|assumption].
      * assert (Hv1 : PrimFloat.is_nan v1 = false).
        { apply (proj1 (nan_free_In _) Hd' r v1). rewrite Ed.
          apply in_or_app. right. now left. }
        exists ((k, v) :: pre), v1, post. split; [now rewrite Ed|].
        split; [|split; [|assumption]].
        -- apply (ltb_rank _ _ Hbv Hv1).
           apply lex_lt_trans with (rank (Prim2SF v));
             [now apply (ltb_rank _ _ Hbv Hv)|now apply (ltb_rank _ _ Hv Hv1)].
        -- intros k' v' [[= <- <-]|Hin]; eauto.
    + assert (Ele : ~ lex_lt (rank (Prim2SF bv)) (rank (Prim2SF v))).
      { intros L. apply (ltb_rank _ _ Hbv Hv) in L. congruence. }
      destruct (IH best bv r Hbv Hd' H)
        as [[Er Hall]|(pre & v1 & post & Ed & Hlt & Hpre & Hpost)].
      * left. split; [assumption|].
        intros k' v' [[= <- <-]|Hin]; eauto.
        now apply (leb_rank _ _ Hv Hbv).
      * assert (Hv1 : PrimFloat.is_nan v1 = false).
        { apply (proj1 (nan_free_In _) Hd' r v1). rewrite Ed.
          apply in_or_app. right. now left. }
        right. exists ((k, v) :: pre), v1, post. split; [now rewrite Ed|].
        split; [assumption|]. split; [|assumption].
        intros k' v' [[= <- <-]|Hin]; eauto.
        apply (ltb_rank _ _ Hv Hv1).
        apply lex_le_lt_trans with (rank (Prim2SF bv));
          [assumption|now apply (ltb_rank _ _ Hbv Hv1)].
Qed.

Lemma b64_max_key_split (d : Dict.t PrimFloat.float) (r : string) :
  nan_free d = true ->
  max_key d = Some r ->
  exists pre v post,
    d = pre ++ (r, v) :: post /\
    (forall k' v', In (k', v') pre -> PrimFloat.ltb v' v = true) /\
    (forall k' v', In (k', v') post -> PrimFloat.leb v' v = true).
Proof.
  destruct d as [|[k v] d]; [discriminate|]. cbn [max_key].
  intros Hd [= H].
  assert (Hv : PrimFloat.is_nan v = false).
  { apply (proj1 (nan_free_In _) Hd k v). now left. }
  assert (Hd' : nan_free d = true).
  { apply nan_free_In. intros k' v' Hin.
    apply (proj1 (nan_free_In _) Hd k' v'). now right. }
  destruct (b64_max_key_from_split d k v r Hv Hd' H)
    as [[Er Hall]|(pre & v1 & post & Ed & Hlt & Hpre & Hpost)].
  - exists [], v, d. split; [now rewrite Er|].
    split; [intros ? ? []|assumption].
  - exists ((k, v) :: pre), v1, post. split; [now rewrite Ed|].
    split; [|assumption]. intros k' v' [[= <- <-]|Hin]; eauto.
Qed.

Lemma b64_max_key_Some (d : Dict.t PrimFloat.float) :
  d <> [] -> exists r, max_key d = Some r.
Proof.
  destruct d as [|[k v] d]; [congruence|]. intros _. simpl. eauto.
Qed.

Lemma b64_max_key_None (d : Dict.t PrimFloat.float) :
  max_key d = None <-> d = [].
Proof.
  destruct d as [|[k v] d]; simpl; split; congruence.
Qed.

Lemma b64_max_key_from_In (d : Dict.t PrimFloat.float) :
  forall k v, max_key_from k v d = k \/ In (max_key_from k v d) (Dict.keys d).
Proof.
  induction d as [|[k' v'] d IH]; intros k v; cbn [max_key_from];
    [now left|].
  cbn [Dict.keys map fst]. destruct (PrimFloat.ltb v v').
  - destruct (IH k' v') as [->|H]; right; [now left|now right].
  - destruct (IH k v) as [->|H]; [now left|right; now right].
Qed.

Lemma b64_max_key_In (d : Dict.t PrimFloat.float) (r : string) :
  max_key d = Some r -> In r (Dict.keys d).
Proof.
  destruct d as [|[k v] d]; [discriminate|]. cbn [max_key]. intros [= <-].
  cbn [Dict.keys map fst].
  destruct (b64_max_key_from_In d k v) as [->|H]; [now left|now right].
Qed.

(** The tie-break: on a score map without NaN, listed in table order, the
    selected key is the first one carrying the maximum. *)
Lemma b64_max_key_first_max (order : list string)
    (d : Dict.t PrimFloat.float) (r : string) :
  nan_free d = true ->
  ordered order (Dict.keys d) ->
  max_key d = Some r ->
  first_max order d r.
Proof.
  intros Hd Hord H.
  pose proof (proj1 (nan_free_In d) Hd) as Hnan.
  apply b64_max_key_split in H as (pre & v & post & E & Hpre & Hpost);
    [|assumption].
  subst d.
  assert (Hv : PrimFloat.is_nan v = false).
  { apply (Hnan r v). apply in_or_app. right. now left. }
  exists v. split; [apply in_or_app; right; now left|].
  intros k' v' Hin.
  assert (Hv' : PrimFloat.is_nan v' = false) by (apply (Hnan k' v' Hin)).
  apply in_app_or in Hin as [Hin|[[= <- <-]|Hin]].
  - specialize (Hpre _ _ Hin). apply (ltb_rank _ _ Hv' Hv) in Hpre. split.
    + apply (leb_rank _ _ Hv' Hv). intros L.
      apply (lex_lt_irrefl (rank (Prim2SF v))).
      now apply lex_lt_trans with (rank (Prim2SF v')).
    + intros E. apply (eqb_rank _ _ Hv' Hv) in E. rewrite E in Hpre.
      now apply lex_lt_irrefl in Hpre.
  - split; [|intros _; apply Nat.le_refl].
    apply (leb_rank _ _ Hv Hv). apply lex_lt_irrefl.
  - split; [eauto|]. intros _. apply Nat.lt_le_incl.
    apply (Hord (Dict.keys pre) r (Dict.keys post)).
    + rewrite keys_app. reflexivity.
    + apply (in_map fst) in Hin. exact Hin.
Qed.

Lemma b64_max_from_In (vs : list PrimFloat.float) :
  forall bv, max_from bv vs = bv \/ In (max_from bv vs) vs.
Proof.
  induction vs as [|v vs IH]; intros bv; simpl; [now left|].
  destruct (PrimFloat.ltb bv v).
  - destruct (IH v) as [->|]; auto.
  - destruct (IH bv) as [->|]; auto.
Qed.

Lemma b64_max_value_None (d : Dict.t PrimFloat.float) :
  max_value d = None <-> d = [].
Proof.
  unfold max_value. destruct d as [|[k v] d]; simpl; split; congruence.
Qed.

(** *** Tables, filtered *)

Lemma b64_fold_set_select {C} (f : string -> C -> option PrimFloat.float)
    (tbl : Dict.t C) (acc : Dict.t PrimFloat.float) :
  NoDup (Dict.keys tbl) ->
  (forall k, In k (Dict.keys acc) -> ~ In k (Dict.keys tbl)) ->
  fold_left (fun acc '(k, c) => match f k c with
                                | Some v => Dict.set acc k v
                                | None => acc
                                end) tbl acc
  = (acc ++ Binary64.select f tbl)%list.
Proof.
  revert acc. induction tbl as [|[k c] tbl IH]; simpl; intros acc ND Hd.
  - now rewrite app_nil_r.
  - inversion ND as [|? ? Hk ND']; subst.
    destruct (f k c) as [v|].
    + rewrite set_fresh by (intros H; apply (Hd k H); now left).
      rewrite IH; [now rewrite <- app_assoc|assumption|].
      intros k'. rewrite keys_app. simpl. intros H.
      apply in_app_or in H as [H|[<-|[]]]; [|assumption].
      intros H'. apply (Hd k' H). now right.
    + apply IH; [assumption|]. intros k' H H'. apply (Hd k' H). now right.
Qed.

Lemma b64_In_select {C} (f : string -> C -> option PrimFloat.float)
    (tbl : Dict.t C) (k : string) (v : PrimFloat.float) :
  In (k, v) (Binary64.select f tbl)
  <-> exists c, In (k, c) tbl /\ f k c = Some v.
Proof.
  unfold Binary64.select. rewrite in_flat_map. split.
  - intros [[k' c] [Hin H]]. destruct (f k' c) as [v'|] eqn:E; [|destruct H].
    destruct H as [[= -> ->]|[]]. eauto.
  - intros [c [Hin E]]. exists (k, c). split; [assumption|].
    rewrite E. now left.
Qed.

(** A filtered table lists its labels in the order of the table: its key
    list is that of a rational score map filtered the same way. *)
Lemma b64_select_keys_Q {C} (f : string -> C -> option PrimFloat.float)
    (tbl : Dict.t C) :
  Dict.keys (Binary64.select f tbl)
  = Dict.keys (Spec.select (fun k c => match f k c with
                                       | Some _ => Some 0%Q
                                       | None => None
                                       end) tbl).
Proof.
  induction tbl as [|[k c] tbl IH]; [reflexivity|].
  unfold Binary64.select, Spec.select. cbn [flat_map].
  rewrite !keys_app. f_equal; [|exact IH]. now destruct (f k c).
Qed.

Lemma b64_select_ordered {C} (f : string -> C -> option PrimFloat.float)
    (tbl : Dict.t C) :
  NoDup (Dict.keys tbl) ->
  ordered (Dict.keys tbl) (Dict.keys (Binary64.select f tbl)).
Proof.
  intros ND. rewrite b64_select_keys_Q. now apply select_ordered.
Qed.

Lemma b64_select_keys {C} (f : string -> C -> option PrimFloat.float)
    (tbl : Dict.t C) (k : string) :
  In k (Dict.keys (Binary64.select f tbl)) -> In k (Dict.keys tbl).
Proof.
  intros H. apply in_map_iff in H as [[k' v] [E H]]. simpl in E. subst.
  apply b64_In_select in H as [c [H _]].
  apply (in_map fst) in H. exact H.
Qed.

(** *** The score maps list their labels in table order *)

Lemma b64_severity_scores_select (comment_lower : string)
    (ad : Sentiment.details) :
  Sentiment._calculate_severity_scores comment_lower ad
  = Binary64.select (Binary64.severity_entry comment_lower)
      SentimentAnalyzer.severity_patterns.
Proof.
  unfold Sentiment._calculate_severity_scores.
  rewrite <- (app_nil_l (Binary64.select _ _)).
  rewrite <- (b64_fold_set_select (Binary64.severity_entry comment_lower)
                SentimentAnalyzer.severity_patterns []
                SentimentFacts.severity_keys_NoDup)
    by (intros ? []).
  apply fold_left_ext. intros acc [k c]. unfold Binary64.severity_entry.
  now destruct (PrimFloat.ltb _ (Sentiment.raw_score comment_lower c)).
Qed.

Lemma b64_keys_modify_one pc cc f (ms : Dict.t PrimFloat.float)
    (sev : string) :
  Dict.keys (Sentiment.modify_one pc cc f ms sev) = Dict.keys ms.
Proof.
  unfold Sentiment.modify_one.
  destruct (0 <? pc)%nat, (0 <? cc)%nat; now rewrite ?keys_update.
Qed.

Lemma b64_keys_fold_modify pc cc f (ks : list string) :
  forall ms,
    Dict.keys (fold_left (Sentiment.modify_one pc cc f) ks ms) = Dict.keys ms.
Proof.
  induction ks as [|k ks IH]; intros ms; simpl; [reflexivity|].
  now rewrite IH, b64_keys_modify_one.
Qed.

Lemma b64_keys_apply_modifiers (c : string) (scores : Dict.t PrimFloat.float)
    (ad : Sentiment.details) :
  Dict.keys (fst (Sentiment._apply_modifiers c scores ad)) = Dict.keys scores.
Proof.
  unfold Sentiment._apply_modifiers.
  destruct (Sentiment.scan_positive c ad) as [pc ad1].
  destruct (Sentiment.scan_constructive c ad1) as [cc ad2].
  destruct (Sentiment.scan_intensity c ad2) as [f ad3]. simpl.
  apply b64_keys_fold_modify.
Qed.

Lemma b64_keys_modified_scores (comment : string) :
  Dict.keys (Sentiment.modified_scores comment)
  = Dict.keys (Binary64.select (Binary64.severity_entry (lower comment))
                 SentimentAnalyzer.severity_patterns).
Proof.
  unfold Sentiment.modified_scores.
  now rewrite b64_keys_apply_modifiers, b64_severity_scores_select.
Qed.

Lemma b64_modified_scores_ordered (comment : string) :
  ordered (Dict.keys SentimentAnalyzer.severity_patterns)
    (Dict.keys (Sentiment.modified_scores comment)).
Proof.
  rewrite b64_keys_modified_scores.
  apply b64_select_ordered, SentimentFacts.severity_keys_NoDup.
Qed.

Lemma b64_language_scores_select (code_snippet : string) :
  Language._analyze_patterns code_snippet
  = Binary64.select (Binary64.language_entry (lower code_snippet))
      LanguageDetector.language_patterns.
Proof.
  unfold Language._analyze_patterns. cbv zeta.
  rewrite <- (app_nil_l (Binary64.select _ _)).
  rewrite <- (b64_fold_set_select
                (Binary64.language_entry (lower code_snippet))
                LanguageDetector.language_patterns []
                LanguageFacts.language_keys_NoDup)
    by (intros ? []).
  apply fold_left_ext. intros acc [k c]. unfold Binary64.language_entry.
  now destruct (LanguageDetector.patterns c).
Qed.

Lemma b64_keys_language_scores (code_snippet : string)
    (filename : option string) :
  Dict.keys (Language.language_scores code_snippet filename)
  = Dict.keys (Language._analyze_patterns code_snippet).
Proof.
  unfold Language.language_scores. cbv zeta.
  destruct (match filename with
            | Some f =>
                if truthy f then LanguageDetector._detect_from_filename f
                else None
            | None => None
            end) as [l|]; [|reflexivity].
  destruct (truthy l && Dict.mem (Language._analyze_patterns code_snippet) l);
    [apply keys_update|reflexivity].
Qed.

Lemma b64_language_scores_ordered code_snippet filename :
  ordered (Dict.keys LanguageDetector.language_patterns)
    (Dict.keys (Language.language_scores code_snippet filename)).
Proof.
  rewrite b64_keys_language_scores, b64_language_scores_select.
  apply b64_select_ordered, LanguageFacts.language_keys_NoDup.
Qed.

Lemma b64_category_scores_select (comment_lower : string) :
  Category._calculate_category_scores comment_lower
  = Binary64.select (Binary64.category_entry comment_lower)
      CategoryClassifier.category_patterns.
Proof.
  unfold Category._calculate_category_scores.
  rewrite <- (app_nil_l (Binary64.select _ _)).
  rewrite <- (b64_fold_set_select (Binary64.category_entry comment_lower)
                CategoryClassifier.category_patterns []
                CategoryFacts.category_keys_NoDup)
    by (intros ? []).
  apply fold_left_ext. intros acc [k c]. unfold Binary64.category_entry.
  now destruct (PrimFloat.ltb _ (Category.raw_score comment_lower k c)).
Qed.

Lemma b64_keys_apply_code_context (scores : Dict.t PrimFloat.float)
    (code : string) :
  Dict.keys (Category._apply_code_context scores code) = Dict.keys scores.
Proof.
  unfold Category._apply_code_context.
  apply (fold_left_inv (fun d => Dict.keys d = Dict.keys scores));
    [|reflexivity].
  intros a [k h] Ha. unfold Category.code_step.
  destruct (Dict.mem a k); [|assumption].
  destruct (0 <? CategoryClassifier.hint_count h code)%nat; [|assumption].
  now rewrite keys_update.
Qed.

Lemma b64_keys_category_scores (comment : string)
    (code_snippet : option string) :
  Dict.keys (Category.category_scores comment code_snippet)
  = Dict.keys (Category._calculate_category_scores (lower comment)).
Proof.
  unfold Category.category_scores. cbv zeta.
  destruct code_snippet as [code|]; [|reflexivity].
  destruct (truthy code); [apply b64_keys_apply_code_context|reflexivity].
Qed.

Lemma b64_category_scores_ordered comment code_snippet :
  ordered (Dict.keys CategoryClassifier.category_patterns)
    (Dict.keys (Category.category_scores comment code_snippet)).
Proof.
  rewrite b64_keys_category_scores, b64_category_scores_select.
  apply b64_select_ordered, CategoryFacts.category_keys_NoDup.
Qed.

(** *** The label selected, on a score map without NaN *)

(** [analyze_sentiment], read through the final score map. *)
Lemma b64_analyze_sentiment_unfold (comment : string) :
  Sentiment.analyze_sentiment comment =
  let ad :=
    snd (Sentiment._apply_modifiers (lower comment)
           (Sentiment._calculate_severity_scores (lower comment)
              Sentiment.initial_details)
           Sentiment.initial_details) in
  match max_key (Sentiment.modified_scores comment) with
  | None => Ok (LOW, 0.3%float, ad)
  | Some s =>
      primary_severity <- SeverityLevel_of s ;;
      Ok (primary_severity,
          Sentiment._calculate_confidence (Sentiment.modified_scores comment)
            ad,
          Sentiment.set_severity_scores
            (Sentiment.set_overall_tone ad (Sentiment._determine_tone ad))
            (Sentiment.modified_scores comment))
  end.
Proof.
  unfold Sentiment.analyze_sentiment, Sentiment.modified_scores.
  destruct (Sentiment._apply_modifiers _ _ _) as [ms ad]. reflexivity.
Qed.

Lemma b64_severity_tie_break (comment : string) :
  nan_free (Sentiment.modified_scores comment) = true ->
  Sentiment.modified_scores comment = []
  \/ exists sev conf ad,
       Sentiment.analyze_sentiment comment = Ok (sev, conf, ad) /\
       first_max (Dict.keys SentimentAnalyzer.severity_patterns)
         (Sentiment.modified_scores comment) (severity_value sev).
Proof.
  intros Hnan.
  destruct (Sentiment.modified_scores comment) as [|kv m] eqn:Em;
    [now left|right].
  rewrite b64_analyze_sentiment_unfold. cbv zeta. rewrite Em.
  destruct (b64_max_key_Some (kv :: m)) as [s Hs]; [discriminate|].
  rewrite Hs.
  assert (Hk : In s (Dict.keys SentimentAnalyzer.severity_patterns)).
  { apply b64_max_key_In in Hs. rewrite <- Em in Hs.
    rewrite b64_keys_modified_scores in Hs.
    now apply b64_select_keys in Hs. }
  destruct (SentimentFacts.severity_of_key s Hk) as [sev [E1 E2]].
  rewrite E1. cbn [bind]. do 3 eexists. split; [reflexivity|].
  rewrite E2. apply b64_max_key_first_max; [assumption| |assumption].
  rewrite <- Em. apply b64_modified_scores_ordered.
Qed.

(** [classify_comment], read through the final score map. *)
Lemma b64_classify_comment_unfold (comment : string)
    (code_snippet : option string) :
  Category.classify_comment comment code_snippet =
  match max_key (Category.category_scores comment code_snippet) with
  | None => Ok (GENERAL, 0.3%float, IMPACT_LOW)
  | Some s =>
      primary_category <- CategoryType_of s ;;
      impact_level <-
        CategoryClassifier._assess_impact_level primary_category
          (lower comment) ;;
      Ok (primary_category,
          Category._calculate_confidence
            (Category.category_scores comment code_snippet) (lower comment),
          impact_level)
  end.
Proof. reflexivity. Qed.

Lemma b64_category_tie_break comment code_snippet :
  nan_free (Category.category_scores comment code_snippet) = true ->
  Category.category_scores comment code_snippet = []
  \/ exists cat conf impact,
       Category.classify_comment comment code_snippet
       = Ok (cat, conf, impact) /\
       first_max (Dict.keys CategoryClassifier.category_patterns)
         (Category.category_scores comment code_snippet)
         (category_value cat).
Proof.
  intros Hnan.
  destruct (Category.category_scores comment code_snippet) as [|kv m] eqn:Em;
    [now left|right].
  rewrite b64_classify_comment_unfold, Em.
  destruct (b64_max_key_Some (kv :: m)) as [s Hs]; [discriminate|].
  rewrite Hs.
  assert (Hk : In s (Dict.keys CategoryClassifier.category_patterns)).
  { apply b64_max_key_In in Hs. rewrite <- Em in Hs.
    rewrite b64_keys_category_scores, b64_category_scores_select in Hs.
    now apply b64_select_keys in Hs. }
  destruct (CategoryFacts.category_of_key s Hk) as [cat [E1 E2]].
  rewrite E1. cbn [bind].
  destruct (CategoryFacts.assess_impact_level_total cat (lower comment))
    as [impact ->].
  cbn [bind]. do 3 eexists. split; [reflexivity|].
  rewrite E2. apply b64_max_key_first_max; [assumption| |assumption].
  rewrite <- Em. apply b64_category_scores_ordered.
Qed.

(** [detect_language], read through the final score map. *)
Lemma b64_detect_language_unfold (code_snippet : string)
    (filename : option string) :
  Language.detect_language code_snippet filename =
  if all_space code_snippet then ("unknown", 0.0%float)
  else
    let language_scores := Language.language_scores code_snippet filename in
    match max_value language_scores, max_key language_scores with
    | Some m, Some best_language =>
        if is_zero m then ("unknown", 0.1%float)
        else match Dict.get language_scores best_language with
             | Some v => (best_language, Binary64.pymin v 1.0%float)
             | None => ("unknown", 0.1%float)
             end
    | _, _ => ("unknown", 0.1%float)
    end.
Proof.
  unfold Language.detect_language. rewrite strip_truthy, negb_involutive.
  destruct (all_space code_snippet) eqn:E.
  - now rewrite orb_true_r.
  - rewrite orb_false_r.
    destruct code_snippet; [discriminate|reflexivity].
Qed.

Lemma b64_language_tie_break code_snippet filename (m : PrimFloat.float) :
  nan_free (Language.language_scores code_snippet filename) = true ->
  all_space code_snippet = false ->
  max_value (Language.language_scores code_snippet filename) = Some m ->
  (is_zero m = false ->
   first_max (Dict.keys LanguageDetector.language_patterns)
     (Language.language_scores code_snippet filename)
     (fst (Language.detect_language code_snippet filename)))
  /\ (is_zero m = true ->
      fst (Language.detect_language code_snippet filename) = "unknown").
Proof.
  intros Hnan Hs Hm. rewrite b64_detect_language_unfold, Hs. cbv zeta.
  rewrite Hm.
  destruct (b64_max_key_Some (Language.language_scores code_snippet filename))
    as [r Hr].
  { intros E. apply b64_max_value_None in E. congruence. }
  rewrite Hr. split; intros Hz; rewrite Hz; [|reflexivity].
  destruct (get_keys _ r (b64_max_key_In _ _ Hr)) as [v Hv]. rewrite Hv.
  cbn [fst].
  apply b64_max_key_first_max;
    [assumption|apply b64_language_scores_ordered|assumption].
Qed.

(** *** No score is a NaN

    The counts are capped, so the raw scores are small multiples of the
    weight, computed without rounding; every score an analyzer can reach
    from there is one of finitely many, and none of them is a NaN. *)

Lemma upto_In (n j : nat) : In j (upto n) <-> (j <= n)%nat.
Proof.
  unfold upto. rewrite in_seq. lia.
Qed.

Lemma exact_sums_spec (w : float) (bound cap : nat) :
  exact_sums w bound cap = true ->
  0.0%float = (w * of_nat 0)%float
  /\ forall j o, (j <= bound)%nat -> (o <= cap)%nat ->
       (w * of_nat j + w * of_nat o)%float = (w * of_nat (j + o))%float.
Proof.
  unfold exact_sums. rewrite andb_true_iff, forallb_forall.
  intros [H0 H]. split; [now apply Leibniz.eqb_spec|].
  intros j o Hj Ho. apply Leibniz.eqb_spec.
  specialize (H j (proj2 (upto_In _ _) Hj)). rewrite forallb_forall in H.
  apply H, upto_In, Ho.
Qed.

Lemma capped_sum_exact (w : float) (cap bound : nat) (text : string)
    (l : list string) :
  (forall j o, (j <= bound)%nat -> (o <= cap)%nat ->
     (w * of_nat j + w * of_nat o)%float = (w * of_nat (j + o))%float) ->
  forall j0, (j0 + cap * length l <= bound)%nat ->
  exists j,
    (j <= j0 + cap * length l)%nat
    /\ fold_left
         (fun score pattern =>
            if contains pattern text
            then (score + w * of_nat (Nat.min (count text pattern) cap))%float
            else score)
         l (w * of_nat j0)%float
       = (w * of_nat j)%float.
Proof.
  intros Hadd. induction l as [|p l IH]; intros j0 Hb; cbn [fold_left length].
  - exists j0. split; [lia|reflexivity].
  - cbn [length] in Hb. destruct (contains p text).
    + rewrite Hadd by lia.
      destruct (IH (j0 + Nat.min (count text p) cap)%nat) as (j & Hj & E);
        [lia|].
      exists j. split; [lia|exact E].
    + destruct (IH j0) as (j & Hj & E); [lia|].
      exists j. split; [lia|exact E].
Qed.

Lemma filter_sublists {A} (p : A -> bool) (l : list A) :
  In (filter p l) (sublists l).
Proof.
  induction l as [|x l IH]; [now left|]. cbn [filter sublists].
  apply in_or_app. destruct (p x); [left; now apply in_map|now right].
Qed.

Lemma filter_length_le {A} (p : A -> bool) (l : list A) :
  (length (filter p l) <= length l)%nat.
Proof.
  induction l as [|x l IH]; [apply Nat.le_refl|]. cbn [filter length].
  destruct (p x); cbn [length]; lia.
Qed.

(** An assignment to one key leaves the other entries alone. *)
Lemma b64_update_from (d : Dict.t float) (k0 : string) (g : float -> float)
    (k : string) (v : float) :
  In (k, v) (Dict.update d k0 g) ->
  exists b, In (k, b) d /\ (v = b \/ (k = k0 /\ v = g b)).
Proof.
  induction d as [|[k1 v1] d IH]; cbn [Dict.update]; [intros []|].
  destruct (String.eqb_spec k0 k1) as [->|Hne].
  - intros [[= <- <-]|H].
    + exists v1. split; [now left|]. right. now split.
    + exists v. split; [now right|now left].
  - intros [[= <- <-]|H].
    + exists v1. split; [now left|now left].
    + destruct (IH H) as (b & Hb & E). exists b. split; [now right|exact E].
Qed.

Lemma b64_update_update (d : Dict.t float) (k : string)
    (g1 g2 : float -> float) :
  Dict.update (Dict.update d k g1) k g2
  = Dict.update d k (fun v => g2 (g1 v)).
Proof.
  induction d as [|[k1 v1] d IH]; [reflexivity|]. cbn [Dict.update].
  destruct (String.eqb k k1) eqn:E; cbn [Dict.update]; rewrite E;
    [reflexivity|now rewrite IH].
Qed.

(** A loop that assigns once to each key of a list without repetition
    changes a score at most once. *)
Lemma fold_update_In (g : float -> float) (ks : list string) :
  NoDup ks ->
  forall d k v,
    In (k, v) (fold_left (fun m k0 => Dict.update m k0 g) ks d) ->
    exists b, In (k, b) d /\ (v = b \/ v = g b).
Proof.
  intros ND.
  assert (G : forall d k v,
    In (k, v) (fold_left (fun m k0 => Dict.update m k0 g) ks d) ->
    exists b, In (k, b) d /\ (v = b \/ (In k ks /\ v = g b))).
  { induction ND as [|k0 ks Hk0 ND IH]; intros d k v H; cbn [fold_left] in H.
    - exists v. split; [assumption|now left].
    - destruct (IH _ _ _ H) as (b' & Hb' & E).
      destruct (b64_update_from _ _ _ _ _ Hb') as (b & Hb & E').
      exists b. split; [assumption|].
      destruct E as [->|[Hin ->]], E' as [->|[-> ->]].
      + now left.
      + right. split; [now left|reflexivity].
      + right. split; [now right|reflexivity].
      + contradiction. }
  intros d k v H. destruct (G d k v H) as (b & Hb & [E|[_ E]]); eauto.
Qed.

Lemma b64_NoDup_select {C} (f : string -> C -> option float)
    (tbl : Dict.t C) :
  NoDup (Dict.keys tbl) -> NoDup (Dict.keys (Binary64.select f tbl)).
Proof.
  intros ND. rewrite b64_select_keys_Q. now apply NoDup_select.
Qed.

(** **** The sentiment analyzer *)

Lemma severity_config_checked_true (k : string)
    (config : SentimentAnalyzer.severity_config) :
  In (k, config) SentimentAnalyzer.severity_patterns ->
  severity_config_checked config = true.
Proof.
  intros H.
  repeat (destruct H as [[= <- <-]|H]; [vm_compute; reflexivity|]).
  destruct H.
Qed.

Lemma scan_positive_le (c : string) (ad : Sentiment.details) :
  (fst (Sentiment.scan_positive c ad)
   <= length SentimentAnalyzer.positive_indicators)%nat.
Proof.
  unfold Sentiment.scan_positive.
  assert (G : forall l n a,
    (fst (fold_left
            (fun '(positive_count, ad) indicator =>
               if contains indicator c
               then (S positive_count, Sentiment.append_positive ad indicator)
               else (positive_count, ad)) l (n, a))
     <= n + length l)%nat).
  { induction l as [|x l IH]; intros n a; cbn [fold_left length].
    - cbn. lia.
    - destruct (contains x c).
      + specialize (IH (S n) (Sentiment.append_positive a x)). lia.
      + specialize (IH n a). lia. }
  exact (G _ O ad).
Qed.

Lemma scan_constructive_le (c : string) (ad : Sentiment.details) :
  (fst (Sentiment.scan_constructive c ad)
   <= length SentimentAnalyzer.constructive_indicators)%nat.
Proof.
  unfold Sentiment.scan_constructive.
  assert (G : forall l n a,
    (fst (fold_left
            (fun '(constructive_count, ad) indicator =>
               if contains indicator c
               then (S constructive_count,
                     Sentiment.append_constructive ad indicator)
               else (constructive_count, ad)) l (n, a))
     <= n + length l)%nat).
  { induction l as [|x l IH]; intros n a; cbn [fold_left length].
    - cbn. lia.
    - destruct (contains x c).
      + specialize (IH (S n) (Sentiment.append_constructive a x)). lia.
      + specialize (IH n a). lia. }
  exact (G _ O ad).
Qed.

Lemma scan_intensity_value (c : string) (ad : Sentiment.details) :
  In (fst (Sentiment.scan_intensity c ad)) intensity_values.
Proof.
  unfold intensity_values, Sentiment.scan_intensity.
  apply in_map_iff.
  exists (filter (fun mf => contains (fst mf) c)
            SentimentAnalyzer.intensity_modifiers).
  split; [|apply filter_sublists].
  unfold intensity_product. generalize 1.0%float. revert ad.
  induction SentimentAnalyzer.intensity_modifiers as [|[m q] l IH];
    intros ad a; [reflexivity|].
  cbn [filter fold_left fst]. destruct (contains m c); cbn [fold_left];
    apply IH.
Qed.

Lemma modify_one_update (pc cc : nat) (f : float) (ms : Dict.t float)
    (sev : string) :
  Sentiment.modify_one pc cc f ms sev
  = Dict.update ms sev (Sentiment.modify pc cc f).
Proof.
  unfold Sentiment.modify_one, Sentiment.modify.
  destruct (0 <? pc)%nat, (0 <? cc)%nat; rewrite ?b64_update_update;
    reflexivity.
Qed.

Lemma severity_entry_value (c : string) (k : string)
    (config : SentimentAnalyzer.severity_config) (b : float) :
  exact_sums (of_Q (SentimentAnalyzer.weight config))
    (3 * length (SentimentAnalyzer.patterns config)) 3 = true ->
  Binary64.severity_entry c k config = Some b ->
  exists j,
    (j <= 3 * length (SentimentAnalyzer.patterns config))%nat
    /\ b = (of_Q (SentimentAnalyzer.weight config) * of_nat j
            / (of_nat (length (SentimentAnalyzer.patterns config))
               * of_Q (SentimentAnalyzer.weight config)))%float.
Proof.
  intros Hx. apply exact_sums_spec in Hx as [H0 Hadd].
  unfold Binary64.severity_entry, Sentiment.raw_score. cbv zeta.
  rewrite H0.
  destruct (capped_sum_exact (of_Q (SentimentAnalyzer.weight config)) 3
              (3 * length (SentimentAnalyzer.patterns config)) c
              (SentimentAnalyzer.patterns config) Hadd O)
    as (j & Hj & E); [lia|].
  rewrite E. destruct (_ <? _)%float; [|discriminate].
  intros [= <-]. exists j. split; [lia|reflexivity].
Qed.

Lemma severity_nan_free (comment : string) :
  nan_free (Sentiment.modified_scores comment) = true.
Proof.
  apply nan_free_In. intros k v Hin.
  unfold Sentiment.modified_scores, Sentiment._apply_modifiers in Hin.
  pose proof (scan_positive_le (lower comment) Sentiment.initial_details)
    as Hpc.
  destruct (Sentiment.scan_positive _ _) as [pc ad1]. cbn [fst] in Hpc.
  pose proof (scan_constructive_le (lower comment) ad1) as Hcc.
  destruct (Sentiment.scan_constructive _ _) as [cc ad2]. cbn [fst] in Hcc.
  pose proof (scan_intensity_value (lower comment) ad2) as Hf.
  destruct (Sentiment.scan_intensity _ _) as [f ad3]. cbn [fst] in Hf, Hin.
  rewrite (fold_left_ext _
             (fun m k0 => Dict.update m k0 (Sentiment.modify pc cc f)))
    in Hin by (intros; apply modify_one_update).
  apply fold_update_In in Hin as (b & Hb & E).
  2:{ rewrite b64_severity_scores_select.
      apply b64_NoDup_select, SentimentFacts.severity_keys_NoDup. }
  rewrite b64_severity_scores_select in Hb.
  apply b64_In_select in Hb as (config & Hc & Hb).
  pose proof (severity_config_checked_true _ _ Hc) as Hchk.
  unfold severity_config_checked in Hchk. cbv zeta in Hchk.
  apply andb_true_iff in Hchk as [Hx Hchk].
  destruct (severity_entry_value _ _ _ _ Hx Hb) as (j & Hj & ->).
  rewrite forallb_forall in Hchk.
  specialize (Hchk j (proj2 (upto_In _ _) Hj)).
  apply andb_true_iff in Hchk as [Hb0 Hchk].
  destruct E as [->| ->]; [now apply negb_true_iff|].
  rewrite forallb_forall in Hchk.
  specialize (Hchk _ (proj2 (upto_In _ _) Hpc)).
  rewrite forallb_forall in Hchk.
  specialize (Hchk _ (proj2 (upto_In _ _) Hcc)).
  rewrite forallb_forall in Hchk.
  apply negb_true_iff, Hchk, Hf.
Qed.

(** **** The language detector *)

Lemma language_config_checked_true (k : string)
    (config : LanguageDetector.language_config) :
  In (k, config) LanguageDetector.language_patterns ->
  language_config_checked config = true.
Proof.
  intros H.
  repeat (destruct H as [[= <- <-]|H]; [vm_compute; reflexivity|]).
  destruct H.
Qed.

Lemma exact_counts_spec (bound : nat) :
  exact_counts bound = true ->
  0.0%float = of_nat 0
  /\ forall a o, (a <= bound)%nat -> (o <= 3)%nat ->
       (of_nat a + 2.0 * of_nat o)%float = of_nat (a + 2 * o)
       /\ (of_nat a + 1.0 * of_nat o)%float = of_nat (a + o).
Proof.
  unfold exact_counts. rewrite andb_true_iff, forallb_forall.
  intros [H0 H]. split; [now apply Leibniz.eqb_spec|].
  intros a o Ha Ho.
  specialize (H a (proj2 (upto_In _ _) Ha)). rewrite forallb_forall in H.
  specialize (H o (proj2 (upto_In _ _) Ho)).
  apply andb_true_iff in H as [H1 H2].
  split; now apply Leibniz.eqb_spec.
Qed.

Lemma language_raw_score_exact (code_lower : string)
    (config : LanguageDetector.language_config) :
  exact_counts (6 * length (LanguageDetector.patterns config)) = true ->
  exists a,
    (a <= 6 * length (LanguageDetector.patterns config))%nat
    /\ Language.raw_score code_lower config = of_nat a.
Proof.
  intros Hx. apply exact_counts_spec in Hx as [H0 Hadd].
  unfold Language.raw_score. rewrite H0.
  assert (G : forall l a0,
    (a0 + 6 * length l
     <= 6 * length (LanguageDetector.patterns config))%nat ->
    exists a,
      (a <= a0 + 6 * length l)%nat
      /\ fold_left
           (fun score pattern =>
              if contains (lower pattern) code_lower
              then
                let weight :=
                  if in_list pattern
                       (LanguageDetector.strong_indicators config)
                  then 2.0%float else 1.0%float in
                let occurrences := count code_lower (lower pattern) in
                (score + weight * of_nat (Nat.min occurrences 3))%float
              else score) l (of_nat a0)
         = of_nat a).
  { induction l as [|p l IH]; intros a0 Hb; cbn [fold_left length].
    - exists a0. split; [lia|reflexivity].
    - cbn [length] in Hb. cbv zeta.
      destruct (contains (lower p) code_lower).
      + destruct (Hadd a0 (Nat.min (count code_lower (lower p)) 3))
          as [H2 H1]; [lia|lia|].
        destruct (in_list p (LanguageDetector.strong_indicators config)).
        * rewrite H2.
          destruct (IH (a0 + 2 * Nat.min (count code_lower (lower p)) 3)%nat)
            as (a & Ha & E); [lia|].
          exists a. split; [lia|exact E].
        * rewrite H1.
          destruct (IH (a0 + Nat.min (count code_lower (lower p)) 3)%nat)
            as (a & Ha & E); [lia|].
          exists a. split; [lia|exact E].
      + destruct (IH a0) as (a & Ha & E); [lia|].
        exists a. split; [lia|exact E]. }
  destruct (G (LanguageDetector.patterns config) O) as (a & Ha & E); [lia|].
  exists a. split; [lia|exact E].
Qed.

Lemma language_nan_free (code_snippet : string) (filename : option string) :
  nan_free (Language.language_scores code_snippet filename) = true.
Proof.
  apply nan_free_In. intros k v Hin.
  assert (H : exists b,
    In (k, b) (Language._analyze_patterns code_snippet)
    /\ (v = b \/ v = (b * 1.5)%float)).
  { unfold Language.language_scores in Hin. cbv zeta in Hin.
    destruct (match filename with
              | Some f =>
                  if truthy f then LanguageDetector._detect_from_filename f
                  else None
              | None => None
              end) as [l|]; [|eauto].
    destruct (truthy l && Dict.mem _ l); [|eauto].
    apply b64_update_from in Hin as (b & Hb & [E|[_ E]]); eauto. }
  destruct H as (b & Hb & E).
  rewrite b64_language_scores_select in Hb.
  apply b64_In_select in Hb as (config & Hc & Hb).
  pose proof (language_config_checked_true _ _ Hc) as Hchk.
  unfold language_config_checked in Hchk. cbv zeta in Hchk.
  apply andb_true_iff in Hchk as [Hx Hchk].
  unfold Binary64.language_entry in Hb.
  destruct (LanguageDetector.patterns config) as [|p ps] eqn:Ep;
    [discriminate|].
  rewrite <- Ep in *. injection Hb as <-.
  destruct (language_raw_score_exact (lower code_snippet) config Hx)
    as (a & Ha & Er).
  rewrite Er in E.
  rewrite forallb_forall in Hchk.
  specialize (Hchk a (proj2 (upto_In _ _) Ha)).
  apply andb_true_iff in Hchk as [H1 H2].
  destruct E as [->| ->]; now apply negb_true_iff.
Qed.

(** **** The category classifier *)

Lemma category_config_checked_true (k : string)
    (config : CategoryClassifier.category_config) :
  In (k, config) CategoryClassifier.category_patterns ->
  category_config_checked k config = true.
Proof.
  intros H.
  repeat (destruct H as [[= <- <-]|H]; [vm_compute; reflexivity|]).
  destruct H.
Qed.

Lemma context_boost_boosted (c category : string) (score : float) :
  exists i,
    (i <= match Dict.get CategoryClassifier.context_patterns category with
          | Some ctx => length ctx
          | None => O
          end)%nat
    /\ Category.context_boost c category score = boosted i score.
Proof.
  unfold Category.context_boost.
  destruct (Dict.get CategoryClassifier.context_patterns category) as [ctx|];
    [|exists O; split; [lia|reflexivity]].
  revert score. induction ctx as [|p ctx IH]; intros score;
    cbn [fold_left length].
  - exists O. split; [lia|reflexivity].
  - destruct (contains p c).
    + destruct (IH (score * 1.2)%float) as (i & Hi & E).
      exists (S i). split; [lia|]. rewrite E. unfold boosted.
      now rewrite Nat.iter_succ_r.
    + destruct (IH score) as (i & Hi & E). exists i. split; [lia|exact E].
Qed.

Lemma category_entry_value (c : string) (k : string)
    (config : CategoryClassifier.category_config) (b : float) :
  exact_sums (of_Q (CategoryClassifier.weight config))
    (2 * length (CategoryClassifier.patterns config)) 2 = true ->
  Binary64.category_entry c k config = Some b ->
  exists j i,
    (j <= 2 * length (CategoryClassifier.patterns config))%nat
    /\ (i <= match Dict.get CategoryClassifier.context_patterns k with
             | Some ctx => length ctx
             | None => O
             end)%nat
    /\ b = (boosted i (of_Q (CategoryClassifier.weight config) * of_nat j)
            / (of_nat (length (CategoryClassifier.patterns config))
               * of_Q (CategoryClassifier.weight config)))%float.
Proof.
  intros Hx. apply exact_sums_spec in Hx as [H0 Hadd].
  unfold Binary64.category_entry, Category.raw_score, Category.pattern_score.
  cbv zeta. rewrite H0.
  destruct (capped_sum_exact (of_Q (CategoryClassifier.weight config)) 2
              (2 * length (CategoryClassifier.patterns config)) c
              (CategoryClassifier.patterns config) Hadd O)
    as (j & Hj & E); [lia|].
  rewrite E.
  destruct (context_boost_boosted c k
              (of_Q (CategoryClassifier.weight config) * of_nat j)%float)
    as (i & Hi & ->).
  destruct (_ <? _)%float; [|discriminate].
  intros [= <-]. exists j, i. split; [lia|]. split; [exact Hi|reflexivity].
Qed.

(** The code context changes a score at most once, by the factor of the
    hints of its category. *)
Lemma apply_code_context_In (code : string) (scores : Dict.t float)
    (k : string) (v : float) :
  In (k, v) (Category._apply_code_context scores code) ->
  exists b,
    In (k, b) scores
    /\ (v = b
        \/ exists hints h,
             In (k, hints) CategoryClassifier.code_hints
             /\ (h <= length hints)%nat
             /\ v = (b * (1.0 + of_nat h * 0.1))%float).
Proof.
  unfold Category._apply_code_context.
  assert (ND : NoDup (Dict.keys CategoryClassifier.code_hints)).
  { repeat constructor; simpl; intuition discriminate. }
  revert ND scores.
  induction CategoryClassifier.code_hints as [|[k0 h0] tbl IH];
    intros ND scores H; cbn [fold_left] in H.
  - exists v. split; [assumption|now left].
  - inversion ND as [|? ? Hk0 ND']; subst.
    destruct (IH ND' _ H) as (b' & Hb' & E).
    assert (Hstep : exists b,
      In (k, b) scores
      /\ (b' = b
          \/ (k = k0
              /\ b' = (b * (1.0 + of_nat (CategoryClassifier.hint_count h0 code)
                                  * 0.1))%float))).
    { unfold Category.code_step in Hb'.
      destruct (Dict.mem scores k0); [|eauto].
      destruct (0 <? CategoryClassifier.hint_count h0 code)%nat; [|eauto].
      now apply b64_update_from in Hb'. }
    destruct Hstep as (b & Hb & E').
    exists b. split; [assumption|].
    destruct E as [->|(hints & h & Hin & Hh & ->)], E' as [->|[-> ->]].
    + now left.
    + right. exists h0, (CategoryClassifier.hint_count h0 code).
      split; [now left|]. split; [apply filter_length_le|reflexivity].
    + right. exists hints, h. split; [now right|]. now split.
    + exfalso. apply Hk0. apply (in_map fst) in Hin. exact Hin.
Qed.

Lemma category_nan_free (comment : string) (code_snippet : option string) :
  nan_free (Category.category_scores comment code_snippet) = true.
Proof.
  apply nan_free_In. intros k v Hin.
  assert (H : exists b,
    In (k, b) (Category._calculate_category_scores (lower comment))
    /\ (v = b
        \/ exists hints h,
             In (k, hints) CategoryClassifier.code_hints
             /\ (h <= length hints)%nat
             /\ v = (b * (1.0 + of_nat h * 0.1))%float)).
  { unfold Category.category_scores in Hin. cbv zeta in Hin.
    destruct code_snippet as [code|]; [|eauto].
    destruct (truthy code); [|eauto].
    now apply apply_code_context_In in Hin. }
  destruct H as (b & Hb & E).
  rewrite b64_category_scores_select in Hb.
  apply b64_In_select in Hb as (config & Hc & Hb).
  pose proof (category_config_checked_true _ _ Hc) as Hchk.
  unfold category_config_checked in Hchk. cbv zeta in Hchk.
  apply andb_true_iff in Hchk as [Hx Hchk].
  destruct (category_entry_value _ _ _ _ Hx Hb) as (j & i & Hj & Hi & ->).
  rewrite forallb_forall in Hchk.
  specialize (Hchk j (proj2 (upto_In _ _) Hj)).
  rewrite forallb_forall in Hchk.
  specialize (Hchk i (proj2 (upto_In _ _) Hi)).
  apply andb_true_iff in Hchk as [Hb0 Hchk].
  destruct E as [->|(hints & h & Hin' & Hh & ->)]; [now apply negb_true_iff|].
  rewrite forallb_forall in Hchk. specialize (Hchk _ Hin').
  cbv beta iota in Hchk. rewrite forallb_forall in Hchk.
  apply negb_true_iff, Hchk, upto_In, Hh.
Qed.

(** *** The language detector always has scores *)

Lemma language_scores_nonempty (code_snippet : string)
    (filename : option string) :
  exists m,
    max_value (Language.language_scores code_snippet filename) = Some m.
Proof.
  destruct (max_value (Language.language_scores code_snippet filename))
    as [m|] eqn:E; [eauto|exfalso].
  apply b64_max_value_None in E.
  assert (H : In "python"
                (Dict.keys (Language.language_scores code_snippet filename))).
  { rewrite b64_keys_language_scores, b64_language_scores_select.
    apply in_map_iff. eexists (_, _). split; [reflexivity|].
    apply b64_In_select. eexists. split; [now left|reflexivity]. }
  rewrite E in H. destruct H.
Qed.

(** *** Where rounding decides

    Two inputs on which the scores are equal as rationals and differ in
    binary64: the rational model of the modules above sees a tie, the
    program does not. *)

(** In "The linter fails on this format bug" convention scores
    1.5 * 1.2 * 1.2 / (17 * 1.5) and logic 4 * 1.2 * 1.2 / (17 * 4): equal
    as rationals, one unit in the last place apart as floats, and logic,
    declared later, is the larger. *)
Example linter_comment_scores :
  (exists conf,
     Category.classify_comment "The linter fails on this format bug" None
     = Ok (LOGIC, conf, IMPACT_MEDIUM))
  /\ (exists conf,
        CategoryClassifier.classify_comment
          "The linter fails on this format bug" None
        = Ok (CONVENTION, conf, IMPACT_LOW))
  /\ (exists convention logic,
        Category.category_scores "The linter fails on this format bug" None
        = [("convention", convention); ("logic", logic)]
        /\ (convention <? logic)%float = true)
  /\ (exists convention logic,
        category_final "The linter fails on this format bug" None
        = [("convention", convention); ("logic", logic)]
        /\ Qeq convention logic).
Proof.
  split; [|split; [|split]].
  - eexists. vm_compute. reflexivity.
  - eexists. vm_compute. reflexivity.
  - do 2 eexists. split; vm_compute; reflexivity.
  - do 2 eexists. split; vm_compute; reflexivity.
Qed.

(** In "func f() { std::cout << x }" cpp scores 3/20 and go 2/20; the file
    name main.go multiplies the score of go by 1.5, which is 3/20 as a
    rational and one unit in the last place above it as a float: go
    wins. *)
Example go_file_name_scores :
  fst (Language.detect_language "func f() { std::cout << x }"
         (Some "main.go")) = "go"
  /\ fst (LanguageDetector.detect_language "func f() { std::cout << x }"
            (Some "main.go")) = "cpp".
Proof.
  split; vm_compute; reflexivity.
Qed.

End Binary64Facts.

(** * The claims of the specification *)

Import PyStr PyNum Models Spec.
Open Scope Q_scope.
Open Scope list_scope.

(** C1 (the code departs from its documented range): on the comment
    "bad good nice great excellent solid clean" six positive indicators
    turn the only severity score negative, and [analyze_sentiment] returns
    a confidence below 0, outside the interval [0, 1] that
    [ReviewComment.confidence] is documented to lie in. *)
Theorem sentiment_confidence_negative :
  exists sev conf ad,
    SentimentAnalyzer.analyze_sentiment
      "bad good nice great excellent solid clean" = Ok (sev, conf, ad)
    /\ length (SentimentAnalyzer.d_positive_indicators ad) = 6%nat
    /\ conf == - (1 # 25)
    /\ conf < 0.
Proof.
  do 3 eexists. split; [vm_compute; reflexivity|].
  repeat split.
Qed.

(** C2 (the code misses the ['harsh'] rule): the comment below has no
    positive and no constructive indicator and a critical score of 0.8,
    above 0.7, yet its tone is ['neutral'], not ['harsh']:
    [_determine_tone] reads the details before the scores are stored in
    them. *)
Theorem harsh_comment_gets_neutral_tone :
  exists sev conf ad,
    SentimentAnalyzer.analyze_sentiment
      "terrible, awful, horrible garbage: broken, useless, stupid trash"
    = Ok (sev, conf, ad)
    /\ SentimentAnalyzer.d_positive_indicators ad = []
    /\ SentimentAnalyzer.d_constructive_indicators ad = []
    /\ (exists v,
          Dict.get (SentimentAnalyzer.d_severity_scores ad) "critical" = Some v
          /\ 0.7 < v)
    /\ SentimentAnalyzer.d_overall_tone ad = "neutral".
Proof.
  do 3 eexists. split; [vm_compute; reflexivity|].
  repeat split. eexists. split; [reflexivity|reflexivity].
Qed.

(** C3, as stated, fails: five positive indicators multiply the one base
    score of "bad good nice great excellent solid" by 0, so no severity
    has a nonzero score after the modifiers, and the result is severity
    high with confidence 0, not low with 0.3. *)
Lemma zero_scores_not_fallback :
  (forall k v,
     In (k, v) (severity_final "bad good nice great excellent solid") ->
     v == 0)
  /\ (exists conf ad,
        SentimentAnalyzer.analyze_sentiment
          "bad good nice great excellent solid" = Ok (HIGH, conf, ad)
        /\ conf == 0)
  /\ ~ (exists ad,
          SentimentAnalyzer.analyze_sentiment
            "bad good nice great excellent solid" = Ok (LOW, 0.3, ad)).
Proof.
  split; [|split].
  - intros k v H. vm_compute in H. destruct H as [[= <- <-]|[]]. reflexivity.
  - do 2 eexists. split; [vm_compute; reflexivity|reflexivity].
  - intros [ad H]. vm_compute in H. discriminate.
Qed.

(** C3, amended: the severity score map is empty after the modifier pass
    exactly when no severity pattern occurs in the comment, and for every
    such comment [analyze_sentiment] returns severity low with confidence
    0.3. *)
Theorem sentiment_fallback (comment : string) :
  (severity_final comment = []
   <-> no_match SentimentAnalyzer.patterns SentimentAnalyzer.severity_patterns
         (lower comment) = true)
  /\ (severity_final comment = [] ->
      exists ad,
        SentimentAnalyzer.analyze_sentiment comment = Ok (LOW, 0.3, ad)).
Proof.
  split; [apply SentimentFacts.severity_final_empty_iff|].
  intros H. rewrite SentimentFacts.analyze_sentiment_unfold. cbv zeta.
  rewrite H. simpl. eauto.
Qed.

Lemma sentiment_fallback_witness :
  exists ad,
    SentimentAnalyzer.analyze_sentiment "Looks fine to me" = Ok (LOW, 0.3, ad).
Proof.
  apply (proj2 (sentiment_fallback "Looks fine to me")). reflexivity.
Defined.

(** C4, as stated, fails: the comment holds no escalation word, so the
    impact of "This is terrible, completely wrong logic" is not high. *)
Lemma wrong_logic_impact_not_high :
  ~ (exists conf,
       CategoryClassifier.classify_comment
         "This is terrible, completely wrong logic" None
       = Ok (LOGIC, conf, IMPACT_HIGH)).
Proof.
  intros [conf H]. vm_compute in H. discriminate.
Qed.

(** C4, amended: for "This is terrible, completely wrong logic" without a
    code fragment, [analyze_sentiment] returns severity critical and
    [classify_comment] returns category logic with impact medium, the
    default of the logic category when no escalation word is present. *)
Theorem wrong_logic_example :
  (exists conf ad,
     SentimentAnalyzer.analyze_sentiment
       "This is terrible, completely wrong logic" = Ok (CRITICAL, conf, ad))
  /\ (exists conf,
        CategoryClassifier.classify_comment
          "This is terrible, completely wrong logic" None
        = Ok (LOGIC, conf, IMPACT_MEDIUM))
  /\ existsb
       (fun word =>
          contains word (lower "This is terrible, completely wrong logic"))
       ["critical"; "major"; "serious"] = false.
Proof.
  split; [|split].
  - do 2 eexists. vm_compute. reflexivity.
  - eexists. vm_compute. reflexivity.
  - reflexivity.
Qed.

(** C5, as stated, fails: with file name "app.py" and the fragment "x",
    which matches no pattern, the language is ['unknown'] with confidence
    0.1, not ['python']. *)
Lemma filename_alone_not_python :
  forallb (fun kv => Qeq_bool (snd kv) 0) (LanguageDetector._analyze_patterns "x")
  = true
  /\ LanguageDetector._detect_from_filename "app.py" = Some "python"
  /\ LanguageDetector.detect_language "x" (Some "app.py") = ("unknown", 0.1)
  /\ fst (LanguageDetector.detect_language "x" (Some "app.py")) <> "python".
Proof.
  repeat split; try reflexivity. vm_compute. discriminate.
Qed.

(** C5, amended: for the file name "app.py", as for any file name, a code
    fragment whose pattern scores are all zero resolves to ['unknown'],
    with confidence 0.1 (0.0 for a blank fragment): the file name only
    multiplies the score of a language already in the score map. *)
Theorem filename_boost_needs_score (code_snippet : string)
    (filename : option string) :
  forallb (fun kv => Qeq_bool (snd kv) 0)
    (LanguageDetector._analyze_patterns code_snippet) = true ->
  LanguageDetector.detect_language code_snippet filename
  = ("unknown", if all_space code_snippet then 0.0 else 0.1).
Proof.
  apply LanguageFacts.language_unknown_without_score.
Qed.

Lemma filename_boost_needs_score_witness :
  LanguageDetector.detect_language "x = 1" (Some "app.py") = ("unknown", 0.1).
Proof.
  apply (filename_boost_needs_score "x = 1" (Some "app.py")). reflexivity.
Defined.

(** C6, as stated, fails for the language detector: on the fragment "x"
    python's raw score is 0 and python is still a key of the score map. *)
Lemma zero_score_language_kept :
  exists config,
    In ("python", config) LanguageDetector.language_patterns
    /\ LanguageDetector.raw_score (lower "x") config == 0
    /\ Dict.mem (LanguageDetector._analyze_patterns "x") "python" = true.
Proof.
  eexists. split; [left; reflexivity|]. split; reflexivity.
Qed.

(** C6, amended: in the scoring passes of the sentiment analyzer and of the
    category classifier a label is a key of the score map exactly when its
    raw score is strictly positive, so a label with raw score 0 is absent;
    the language detector keeps every language of its table in the score
    map, also with score 0. *)
Theorem score_map_keys :
  (forall comment_lower ad label config,
     In (label, config) SentimentAnalyzer.severity_patterns ->
     Dict.mem (SentimentAnalyzer._calculate_severity_scores comment_lower ad)
       label = true
     <-> 0 < SentimentAnalyzer.raw_score comment_lower config)
  /\ (forall comment_lower label config,
        In (label, config) CategoryClassifier.category_patterns ->
        Dict.mem (CategoryClassifier._calculate_category_scores comment_lower)
          label = true
        <-> 0 < CategoryClassifier.raw_score comment_lower label config)
  /\ (forall code_snippet label,
        In label (Dict.keys LanguageDetector.language_patterns) ->
        Dict.mem (LanguageDetector._analyze_patterns code_snippet) label
        = true).
Proof.
  split; [|split].
  - intros. now apply SentimentFacts.severity_scored.
  - intros. now apply CategoryFacts.category_scored.
  - intros. now apply LanguageFacts.language_always_scored.
Qed.

Lemma score_map_keys_witness :
  (Dict.mem (SentimentAnalyzer._calculate_severity_scores "this is bad"
               SentimentAnalyzer.initial_details) "low" = true
   <-> 0 < SentimentAnalyzer.raw_score "this is bad"
             {| SentimentAnalyzer.patterns :=
                  ["could"; "might"; "perhaps"; "suggestion"; "minor";
                   "optional"; "nice to have"; "consider"; "maybe"];
                SentimentAnalyzer.weight := 1.0 |})
  /\ Dict.mem (LanguageDetector._analyze_patterns "x") "rust" = true.
Proof.
  split.
  - apply (proj1 score_map_keys). simpl. tauto.
  - apply (proj2 (proj2 score_map_keys)). simpl. tauto.
Defined.

(** C7, as stated, fails for the language detector: on the fragment "x"
    all eight languages are tied at the maximum score 0, and the answer
    is ['unknown'], not the first of them. *)
Lemma zero_tie_not_first :
  (exists m,
     Binary64.max_value (Binary64.Language.language_scores "x" None) = Some m
     /\ Binary64.is_zero m = true)
  /\ (forall k v,
        In (k, v) (Binary64.Language.language_scores "x" None) ->
        Binary64.is_zero v = true)
  /\ Dict.keys (Binary64.Language.language_scores "x" None)
     = Dict.keys LanguageDetector.language_patterns
  /\ fst (Binary64.Language.detect_language "x" None) = "unknown"
  /\ ~ Binary64.first_max (Dict.keys LanguageDetector.language_patterns)
         (Binary64.Language.language_scores "x" None)
         (fst (Binary64.Language.detect_language "x" None)).
Proof.
  split; [|split; [|split; [|split]]].
  - eexists. split; vm_compute; reflexivity.
  - intros k v H. vm_compute in H.
    repeat (destruct H as [[= <- <-]|H]; [reflexivity|]). destruct H.
  - reflexivity.
  - reflexivity.
  - intros [v [H _]]. vm_compute in H.
    repeat (destruct H as [[=]|H]). destruct H.
Qed.

(** C7, amended: the label returned carries the maximum of the final
    scores, as the program computes them in binary64, and every label whose
    score equals it is declared no earlier in the analyzer's pattern table:
    in the sentiment analyzer and the category classifier whenever the
    final score map is not empty, and in the language detector whenever the
    fragment is not blank and the maximum final score is not zero.  When
    that maximum is zero the language detector answers ['unknown']. *)
Theorem tie_break_first_declared :
  (forall comment,
     Binary64.Sentiment.modified_scores comment = []
     \/ exists sev conf ad,
          Binary64.Sentiment.analyze_sentiment comment = Ok (sev, conf, ad)
          /\ Binary64.first_max (Dict.keys SentimentAnalyzer.severity_patterns)
               (Binary64.Sentiment.modified_scores comment)
               (severity_value sev))
  /\ (forall comment code_snippet,
        Binary64.Category.category_scores comment code_snippet = []
        \/ exists cat conf impact,
             Binary64.Category.classify_comment comment code_snippet
             = Ok (cat, conf, impact)
             /\ Binary64.first_max
                  (Dict.keys CategoryClassifier.category_patterns)
                  (Binary64.Category.category_scores comment code_snippet)
                  (category_value cat))
  /\ (forall code_snippet filename,
        all_space code_snippet = false ->
        exists m,
          Binary64.max_value
            (Binary64.Language.language_scores code_snippet filename)
          = Some m
          /\ (Binary64.is_zero m = false ->
              Binary64.first_max
                (Dict.keys LanguageDetector.language_patterns)
                (Binary64.Language.language_scores code_snippet filename)
                (fst (Binary64.Language.detect_language code_snippet
                        filename)))
          /\ (Binary64.is_zero m = true ->
              fst (Binary64.Language.detect_language code_snippet filename)
              = "unknown")).
Proof.
  split; [|split].
  - intros comment.
    apply Binary64Facts.b64_severity_tie_break,
      Binary64Facts.severity_nan_free.
  - intros comment code_snippet.
    apply Binary64Facts.b64_category_tie_break,
      Binary64Facts.category_nan_free.
  - intros code_snippet filename Hs.
    destruct (Binary64Facts.language_scores_nonempty code_snippet filename)
      as [m Hm].
    exists m. split; [exact Hm|].
    apply Binary64Facts.b64_language_tie_break;
      [apply Binary64Facts.language_nan_free|exact Hs|exact Hm].
Qed.

(** On the fragment "struct" cpp and go tie at the maximum, the float
    nearest to 1/20, and cpp, declared first, is returned. *)
Lemma tie_break_first_declared_witness :
  Binary64.first_max (Dict.keys LanguageDetector.language_patterns)
    (Binary64.Language.language_scores "struct" None)
    (fst (Binary64.Language.detect_language "struct" None))
  /\ fst (Binary64.Language.detect_language "struct" None) = "cpp"
  /\ Dict.get (Binary64.Language.language_scores "struct" None) "cpp"
     = Dict.get (Binary64.Language.language_scores "struct" None) "go".
Proof.
  split; [|split; reflexivity].
  destruct (proj2 (proj2 tie_break_first_declared) "struct" None eq_refl)
    as (m & Hm & Hnz & _).
  apply Hnz. vm_compute in Hm. injection Hm as <-. reflexivity.
Defined.

(** C8: [detect_language] returns ['unknown'] with confidence 0.0 for every
    empty or white-space-only code fragment, and [classify_comment] returns
    category general, confidence 0.3 and impact low for every
    white-space-only comment; both return a value, neither raises. *)
Theorem blank_inputs :
  (forall code_snippet filename,
     all_space code_snippet = true ->
     LanguageDetector.detect_language code_snippet filename = ("unknown", 0.0))
  /\ (forall comment code_snippet,
        all_space comment = true ->
        CategoryClassifier.classify_comment comment code_snippet
        = Ok (GENERAL, 0.3, IMPACT_LOW)).
Proof.
  split.
  - apply LanguageFacts.language_blank.
  - apply CategoryFacts.category_blank.
Qed.

Lemma blank_inputs_witness :
  LanguageDetector.detect_language "   " (Some "app.py") = ("unknown", 0.0)
  /\ LanguageDetector.detect_language "" None = ("unknown", 0.0)
  /\ CategoryClassifier.classify_comment "  " (Some "for x in xs: pass")
     = Ok (GENERAL, 0.3, IMPACT_LOW).
Proof.
  split; [|split].
  - apply (proj1 blank_inputs "   " (Some "app.py")). reflexivity.
  - apply (proj1 blank_inputs "" None). reflexivity.
  - apply (proj2 blank_inputs "  " (Some "for x in xs: pass")). reflexivity.
Defined.

(** With a failing service, [_analyze_comment] still returns a record: it
    carries the severity, category and impact of the two classifiers and
    the confidence 0.3, whatever their confidences were. *)
Lemma analyze_comment_on_service_error processing resource_mappings
    create_empathy_prompt deployment_name ChatCompletion_create
    comment_text code_snippet language sev sc ad cat cc impact :
  (forall request, exists e, ChatCompletion_create request = Raise e) ->
  SentimentAnalyzer.analyze_sentiment comment_text = Ok (sev, sc, ad) ->
  CategoryClassifier.classify_comment comment_text (Some code_snippet)
  = Ok (cat, cc, impact) ->
  exists r,
    Reviewer._analyze_comment processing resource_mappings
      create_empathy_prompt deployment_name ChatCompletion_create
      comment_text code_snippet language = Ok r
    /\ severity r = sev /\ category r = cat /\ impact_level r = impact
    /\ confidence r = 0.3.
Proof.
  intros Hfail Hs Hc. unfold Reviewer._analyze_comment.
  rewrite Hs, Hc. cbn [bind].
  unfold FeedbackGenerator.generate_empathetic_response.
  destruct (Hfail (FeedbackGenerator.completion_request deployment_name
                     (create_empathy_prompt code_snippet
                        (Reviewer.classified comment_text sev cat impact
                           (pymin sc cc)) language) processing)) as [e ->].
  eexists. split; [reflexivity|]. repeat split.
Qed.

(** C9: whenever the generation service raises, the record returned by
    [generate_empathetic_response] keeps the severity, category and
    impact level it was given, holds the four fixed fallback texts, and
    has confidence 0.3, whatever the confidence was. *)
Theorem fallback_on_service_error
    (create_empathy_prompt : string -> ReviewComment -> string -> string)
    (deployment_name : string)
    (ChatCompletion_create : FeedbackGenerator.chat_request -> result string)
    (code_snippet : string) (comment : ReviewComment) (language : string)
    (processing_config : ProcessingConfig) (e : exn) :
  ChatCompletion_create
    (FeedbackGenerator.completion_request deployment_name
       (create_empathy_prompt code_snippet comment language)
       processing_config) = Raise e ->
  let r :=
    FeedbackGenerator.generate_empathetic_response create_empathy_prompt
      deployment_name ChatCompletion_create code_snippet comment language
      processing_config in
  severity r = severity comment
  /\ category r = category comment
  /\ impact_level r = impact_level comment
  /\ positive_rephrase r
     = "Great work! Here's an opportunity to enhance this further."
  /\ explanation r
     = "This improvement will enhance code quality and maintainability."
  /\ code_suggestion r = "// Enhanced code would go here"
  /\ learning_objective r
     = "Focus on continuous improvement and best practices."
  /\ confidence r = 0.3.
Proof.
  intros H r. subst r.
  unfold FeedbackGenerator.generate_empathetic_response. rewrite H.
  repeat split.
Qed.

Lemma fallback_on_service_error_witness :
  let comment := Reviewer.classified "This is wrong" HIGH LOGIC IMPACT_MEDIUM 0.9 in
  let r :=
    FeedbackGenerator.generate_empathetic_response
      (fun _ c _ => original c) "gpt-4"
      (fun _ => Raise (ServiceError "timeout"))
      "x = 1" comment "python" default_ProcessingConfig in
  severity r = HIGH /\ category r = LOGIC /\ impact_level r = IMPACT_MEDIUM
  /\ confidence r = 0.3.
Proof.
  intros comment r.
  destruct (fallback_on_service_error (fun _ c _ => original c) "gpt-4"
              (fun _ => Raise (ServiceError "timeout")) "x = 1" comment
              "python" default_ProcessingConfig (ServiceError "timeout")
              eq_refl) as (H1 & H2 & H3 & _ & _ & _ & _ & H8).
  repeat split; assumption.
Defined.

(** C10: [process_review] raises a [ValueError], having logged nothing but
    that error and so before any classification, whenever the code snippet
    is not a non-empty string, the comment list is empty, holds an entry
    that is not a string or is only white space, or holds more than
    [max_comments] entries; [max_comments] is 10 by default. *)
Theorem process_review_refuses :
  max_comments default_ProcessingConfig = 10%Z
  /\ forall processing resource_mappings create_empathy_prompt deployment_name
       ChatCompletion_create generate_hackathon_report d cs rc,
       Dict.get d "code_snippet" = Some cs ->
       Dict.get d "review_comments" = Some rc ->
       refused processing cs rc = true ->
       exists msg,
         Reviewer.process_review processing resource_mappings
           create_empathy_prompt deployment_name ChatCompletion_create
           generate_hackathon_report (PDict d)
         = (Raise (ValueError msg), [Reviewer.ErrorProcessing (ValueError msg)]).
Proof.
  split; [reflexivity|]. intros p rm cp dn svc rep d cs rc Hcs Hrc Hr.
  destruct (ReviewerFacts.validate_input_refused p d cs rc Hcs Hrc Hr)
    as [msg E].
  exists msg. unfold Reviewer.process_review. now rewrite E.
Qed.

Lemma process_review_refuses_witness :
  exists msg,
    Reviewer.process_review default_ProcessingConfig [] (fun _ c _ => original c)
      "gpt-4" (fun _ => Raise (ServiceError "timeout")) (fun _ _ _ => "report")
      (PDict [("code_snippet", PStr "x = 1");
              ("review_comments", PList [PStr "Fix this"; PStr "  "])])
    = (Raise (ValueError msg), [Reviewer.ErrorProcessing (ValueError msg)]).
Proof.
  apply (proj2 process_review_refuses default_ProcessingConfig [] 
           (fun _ c _ => original c) "gpt-4"
           (fun _ => Raise (ServiceError "timeout")) (fun _ _ _ => "report")
           [("code_snippet", PStr "x = 1");
            ("review_comments", PList [PStr "Fix this"; PStr "  "])]
           (PStr "x = 1") (PList [PStr "Fix this"; PStr "  "]));
    reflexivity.
Defined.

(** * Further properties of the code *)

(** ** Supporting lemmas *)

Module MoreFacts.
Import PyStr PyNum Models PyStrFacts PyNumFacts DictFacts Spec Spec2.
Open Scope Q_scope.
Open Scope list_scope.

(** *** Sentiment: what the details record *)

Lemma scan_positive_spec (c : string) (ad : SentimentAnalyzer.details) :
  let r := SentimentAnalyzer.scan_positive c ad in
  SentimentAnalyzer.d_positive_indicators (snd r)
  = SentimentAnalyzer.d_positive_indicators ad
    ++ filter (fun i => contains i c) SentimentAnalyzer.positive_indicators
  /\ SentimentAnalyzer.d_constructive_indicators (snd r)
     = SentimentAnalyzer.d_constructive_indicators ad
  /\ SentimentAnalyzer.d_intensity_modifiers (snd r)
     = SentimentAnalyzer.d_intensity_modifiers ad
  /\ fst r
     = length (filter (fun i => contains i c)
                 SentimentAnalyzer.positive_indicators).
Proof.
  unfold SentimentAnalyzer.scan_positive.
  assert (G : forall l n a,
    let r := fold_left
      (fun '(positive_count, ad0) indicator =>
         if contains indicator c
         then (S positive_count, SentimentAnalyzer.append_positive ad0 indicator)
         else (positive_count, ad0)) l (n, a) in
    SentimentAnalyzer.d_positive_indicators (snd r)
    = SentimentAnalyzer.d_positive_indicators a
      ++ filter (fun i => contains i c) l
    /\ SentimentAnalyzer.d_constructive_indicators (snd r)
       = SentimentAnalyzer.d_constructive_indicators a
    /\ SentimentAnalyzer.d_intensity_modifiers (snd r)
       = SentimentAnalyzer.d_intensity_modifiers a
    /\ fst r = (n + length (filter (fun i => contains i c) l))%nat).
  { induction l as [|x l IH]; intros n a; cbn [fold_left filter].
    - cbn. rewrite app_nil_r, Nat.add_0_r. auto.
    - destruct (contains x c).
      + destruct (IH (S n) (SentimentAnalyzer.append_positive a x))
          as (H1 & H2 & H3 & H4).
        cbv zeta in *. rewrite H1, H2, H3, H4. cbn.
        rewrite <- app_assoc. repeat split. lia.
      + apply IH. }
  exact (G _ O ad).
Qed.

Lemma scan_constructive_spec (c : string) (ad : SentimentAnalyzer.details) :
  let r := SentimentAnalyzer.scan_constructive c ad in
  SentimentAnalyzer.d_constructive_indicators (snd r)
  = SentimentAnalyzer.d_constructive_indicators ad
    ++ filter (fun i => contains i c) SentimentAnalyzer.constructive_indicators
  /\ SentimentAnalyzer.d_positive_indicators (snd r)
     = SentimentAnalyzer.d_positive_indicators ad
  /\ SentimentAnalyzer.d_intensity_modifiers (snd r)
     = SentimentAnalyzer.d_intensity_modifiers ad
  /\ fst r
     = length (filter (fun i => contains i c)
                 SentimentAnalyzer.constructive_indicators).
Proof.
  unfold SentimentAnalyzer.scan_constructive.
  assert (G : forall l n a,
    let r := fold_left
      (fun '(constructive_count, ad0) indicator =>
         if contains indicator c
         then (S constructive_count,
               SentimentAnalyzer.append_constructive ad0 indicator)
         else (constructive_count, ad0)) l (n, a) in
    SentimentAnalyzer.d_constructive_indicators (snd r)
    = SentimentAnalyzer.d_constructive_indicators a
      ++ filter (fun i => contains i c) l
    /\ SentimentAnalyzer.d_positive_indicators (snd r)
       = SentimentAnalyzer.d_positive_indicators a
    /\ SentimentAnalyzer.d_intensity_modifiers (snd r)
       = SentimentAnalyzer.d_intensity_modifiers a
    /\ fst r = (n + length (filter (fun i => contains i c) l))%nat).
  { induction l as [|x l IH]; intros n a; cbn [fold_left filter].
    - cbn. rewrite app_nil_r, Nat.add_0_r. auto.
    - destruct (contains x c).
      + destruct (IH (S n) (SentimentAnalyzer.append_constructive a x))
          as (H1 & H2 & H3 & H4).
        cbv zeta in *. rewrite H1, H2, H3, H4. cbn.
        rewrite <- app_assoc. repeat split. lia.
      + apply IH. }
  exact (G _ O ad).
Qed.

Lemma scan_intensity_spec (c : string) (ad : SentimentAnalyzer.details) :
  let r := SentimentAnalyzer.scan_intensity c ad in
  SentimentAnalyzer.d_intensity_modifiers (snd r)
  = SentimentAnalyzer.d_intensity_modifiers ad
    ++ filter (fun mf => contains (fst mf) c)
         SentimentAnalyzer.intensity_modifiers
  /\ SentimentAnalyzer.d_positive_indicators (snd r)
     = SentimentAnalyzer.d_positive_indicators ad
  /\ SentimentAnalyzer.d_constructive_indicators (snd r)
     = SentimentAnalyzer.d_constructive_indicators ad
  /\ 0 < fst r.
Proof.
  unfold SentimentAnalyzer.scan_intensity.
  assert (G : forall l q a,
    Forall (fun mf : string * Q => 0 < snd mf) l -> 0 < q ->
    let r := fold_left
      (fun '(intensity_factor, ad0) '(modifier, factor) =>
         if contains modifier c
         then (intensity_factor * factor,
               SentimentAnalyzer.append_intensity ad0 (modifier, factor))
         else (intensity_factor, ad0)) l (q, a) in
    SentimentAnalyzer.d_intensity_modifiers (snd r)
    = SentimentAnalyzer.d_intensity_modifiers a
      ++ filter (fun mf => contains (fst mf) c) l
    /\ SentimentAnalyzer.d_positive_indicators (snd r)
       = SentimentAnalyzer.d_positive_indicators a
    /\ SentimentAnalyzer.d_constructive_indicators (snd r)
       = SentimentAnalyzer.d_constructive_indicators a
    /\ 0 < fst r).
  { induction l as [|[m f] l IH]; intros q a Hl Hq; cbn [fold_left filter fst].
    - cbn. rewrite app_nil_r. auto.
    - inversion Hl as [|? ? Hf Hl']; subst. cbn [snd] in Hf.
      destruct (contains m c).
      + destruct (IH (q * f) (SentimentAnalyzer.append_intensity a (m, f)) Hl')
          as (H1 & H2 & H3 & H4); [nra|].
        cbv zeta in *. rewrite H1, H2, H3. cbn.
        rewrite <- app_assoc. repeat split. exact H4.
      + apply IH; assumption. }
  apply G; [|reflexivity].
  repeat constructor.
Qed.

(** [_apply_modifiers] on fresh details: the three lists it records and
    the factors it applies. *)
Lemma apply_modifiers_spec (c : string) (scores : Dict.t Q) :
  let pos := filter (fun i => contains i c)
               SentimentAnalyzer.positive_indicators in
  let cons := filter (fun i => contains i c)
                SentimentAnalyzer.constructive_indicators in
  exists f ad,
    0 < f
    /\ SentimentAnalyzer._apply_modifiers c scores
         SentimentAnalyzer.initial_details
       = (fold_left
            (SentimentAnalyzer.modify_one (length pos) (length cons) f)
            (Dict.keys scores) scores, ad)
    /\ SentimentAnalyzer.d_positive_indicators ad = pos
    /\ SentimentAnalyzer.d_constructive_indicators ad = cons
    /\ SentimentAnalyzer.d_intensity_modifiers ad
       = filter (fun mf => contains (fst mf) c)
           SentimentAnalyzer.intensity_modifiers.
Proof.
  cbv zeta. unfold SentimentAnalyzer._apply_modifiers.
  pose proof (scan_positive_spec c SentimentAnalyzer.initial_details) as P.
  destruct (SentimentAnalyzer.scan_positive c _) as [pc ad1].
  pose proof (scan_constructive_spec c ad1) as C.
  destruct (SentimentAnalyzer.scan_constructive c ad1) as [cc ad2].
  pose proof (scan_intensity_spec c ad2) as I.
  destruct (SentimentAnalyzer.scan_intensity c ad2) as [f ad3].
  cbv zeta in *. cbn [fst snd] in *.
  destruct P as (P1 & P2 & P3 & P4), C as (C1 & C2 & C3 & C4),
           I as (I1 & I2 & I3 & I4).
  exists f, ad3. subst pc cc. repeat split; try assumption.
  - rewrite I2, C2, P1. reflexivity.
  - rewrite I3, C1, P2. reflexivity.
  - rewrite I1, C3, P3. reflexivity.
Qed.

Lemma severity_len_weight_pos (label : string)
    (config : SentimentAnalyzer.severity_config) :
  In (label, config) SentimentAnalyzer.severity_patterns ->
  0 < of_nat (length (SentimentAnalyzer.patterns config))
      * SentimentAnalyzer.weight config.
Proof.
  simpl. intros H.
  repeat (destruct H as [[= <- <-]|H]; [reflexivity|]).
  destruct H.
Qed.

Lemma severity_scores_pos (c : string) ad (k : string) (v : Q) :
  In (k, v) (SentimentAnalyzer._calculate_severity_scores c ad) -> 0 < v.
Proof.
  rewrite SentimentFacts.calculate_severity_scores_select. intros H.
  apply In_select in H as [config [Hin E]]. unfold severity_entry in E.
  destruct (Qltb 0 (SentimentAnalyzer.raw_score c config)) eqn:L;
    [|discriminate].
  injection E as <-. apply Qltb_lt in L.
  apply Qlt_shift_div_l; [now apply severity_len_weight_pos with k|].
  now rewrite Qmult_0_l.
Qed.

Lemma modify_one_nonneg (pc cc : nat) (f : Q) (ms : Dict.t Q) (sev : string) :
  (pc <= 5)%nat -> (cc <= 6)%nat -> 0 < f ->
  (forall k v, In (k, v) ms -> 0 <= v) ->
  forall k v, In (k, v) (SentimentAnalyzer.modify_one pc cc f ms sev) ->
              0 <= v.
Proof.
  intros Hp Hc Hf H. unfold SentimentAnalyzer.modify_one.
  assert (P : 0 <= 1.0 - 0.2 * of_nat pc).
  { assert (of_nat pc <= 5) by (unfold of_nat, Qle; simpl; lia). lra. }
  assert (C : 0 <= 1.0 - 0.15 * of_nat cc).
  { assert (of_nat cc <= 6) by (unfold of_nat, Qle; simpl; lia). lra. }
  apply update_preserves; [intros x Hx; nra|].
  destruct (0 <? cc)%nat.
  - apply update_preserves; [intros x Hx; nra|].
    destruct (0 <? pc)%nat; [|exact H].
    apply update_preserves; [intros x Hx; nra|exact H].
  - destruct (0 <? pc)%nat; [|exact H].
    apply update_preserves; [intros x Hx; nra|exact H].
Qed.

Lemma calculate_confidence_nonneg (scores : Dict.t Q) ad :
  (forall k v, In (k, v) scores -> 0 <= v) ->
  0 <= SentimentAnalyzer._calculate_confidence scores ad.
Proof.
  intros H. unfold SentimentAnalyzer._calculate_confidence.
  destruct (Dict.max_value scores) as [m|] eqn:Em; [|discriminate].
  apply max_value_In in Em as [k Hk]. apply H in Hk. cbv zeta.
  apply pymin_glb; [|discriminate].
  assert (H0 : 0 <= pymin (m * 2) 1.0) by (apply pymin_glb; [nra|discriminate]).
  set (c0 := pymin (m * 2) 1.0) in *.
  assert (H1 : 0 <= (if (2 <? length scores)%nat then c0 * 0.8 else c0))
    by (destruct (2 <? length scores)%nat; nra).
  destruct (_ || _); nra.
Qed.

Lemma fold_modify_nonneg (pc cc : nat) (f : Q) (ks : list string) :
  (pc <= 5)%nat -> (cc <= 6)%nat -> 0 < f ->
  forall ms,
    (forall k v, In (k, v) ms -> 0 <= v) ->
    forall k v,
      In (k, v) (fold_left (SentimentAnalyzer.modify_one pc cc f) ks ms) ->
      0 <= v.
Proof.
  intros Hp Hc Hf. induction ks as [|x ks IH]; intros ms H; simpl; [exact H|].
  apply IH. now apply modify_one_nonneg.
Qed.

(** The details returned by [analyze_sentiment] list the indicators and
    modifiers that occur in the lower-cased comment, in table order. *)
Lemma sentiment_details_lists (comment : string) sev conf ad :
  SentimentAnalyzer.analyze_sentiment comment = Ok (sev, conf, ad) ->
  SentimentAnalyzer.d_positive_indicators ad
  = filter (fun i => contains i (lower comment))
      SentimentAnalyzer.positive_indicators
  /\ SentimentAnalyzer.d_constructive_indicators ad
     = filter (fun i => contains i (lower comment))
         SentimentAnalyzer.constructive_indicators
  /\ SentimentAnalyzer.d_intensity_modifiers ad
     = filter (fun mf => contains (fst mf) (lower comment))
         SentimentAnalyzer.intensity_modifiers.
Proof.
  rewrite SentimentFacts.analyze_sentiment_unfold. cbv zeta.
  destruct (apply_modifiers_spec (lower comment)
              (SentimentAnalyzer._calculate_severity_scores (lower comment)
                 SentimentAnalyzer.initial_details))
    as (f & ad0 & Hf & E & L1 & L2 & L3).
  cbv zeta in E. rewrite E. cbn [snd].
  destruct (Dict.max_key (severity_final comment)) as [s|].
  - destruct (SeverityLevel_of s) as [sv|e]; cbn [bind]; [|discriminate].
    intros [= _ _ <-]. cbn. auto.
  - intros [= _ _ <-]. auto.
Qed.

Lemma severity_final_nonneg (comment : string) :
  (length (filter (fun i => contains i (lower comment))
             SentimentAnalyzer.positive_indicators) <= 5)%nat ->
  (length (filter (fun i => contains i (lower comment))
             SentimentAnalyzer.constructive_indicators) <= 6)%nat ->
  forall k v, In (k, v) (severity_final comment) -> 0 <= v.
Proof.
  intros Hp Hc. unfold severity_final.
  destruct (apply_modifiers_spec (lower comment)
              (SentimentAnalyzer._calculate_severity_scores (lower comment)
                 SentimentAnalyzer.initial_details))
    as (f & ad0 & Hf & E & _).
  cbv zeta in E. rewrite E. cbn [fst].
  apply fold_modify_nonneg; try assumption.
  intros k v H. apply Qlt_le_weak. eapply severity_scores_pos; eauto.
Qed.

Lemma determine_tone_values (ad : SentimentAnalyzer.details) :
  SentimentAnalyzer.d_severity_scores ad = [] ->
  In (SentimentAnalyzer._determine_tone ad)
     ["neutral"; "positive"; "constructive"; "neutral-constructive"].
Proof.
  intros H. unfold SentimentAnalyzer._determine_tone. rewrite H. simpl.
  destruct (0 <? _)%nat, (0 <? _)%nat; simpl; tauto.
Qed.

Lemma sentiment_tone_values (comment : string) sev conf ad :
  SentimentAnalyzer.analyze_sentiment comment = Ok (sev, conf, ad) ->
  In (SentimentAnalyzer.d_overall_tone ad)
     ["neutral"; "positive"; "constructive"; "neutral-constructive"].
Proof.
  rewrite SentimentFacts.analyze_sentiment_unfold. cbv zeta.
  destruct (SentimentFacts.apply_modifiers_untouched (lower comment)
              (SentimentAnalyzer._calculate_severity_scores (lower comment)
                 SentimentAnalyzer.initial_details)
              SentimentAnalyzer.initial_details) as [Hs Ht].
  destruct (Dict.max_key (severity_final comment)) as [s|].
  - destruct (SeverityLevel_of s) as [sv|e]; cbn [bind]; [|discriminate].
    intros [= _ _ <-]. cbn. now apply determine_tone_values.
  - intros [= _ _ <-]. rewrite Ht. simpl. tauto.
Qed.

(** *** Enumerations *)

Lemma enum_of_value_Ok {E} (class_name : string) (members : list E)
    (value : E -> string) (s : string) (e : E) :
  enum_of_value class_name members value s = Ok e ->
  value e = s /\ In e members.
Proof.
  unfold enum_of_value.
  destruct (find _ members) as [m|] eqn:F; [|discriminate].
  intros [= <-]. apply find_some in F as [Hin Heq].
  apply String.eqb_eq in Heq. auto.
Qed.

Lemma enum_of_value_Raise {E} (class_name : string) (members : list E)
    (value : E -> string) (s : string) (x : exn) :
  enum_of_value class_name members value s = Raise x ->
  x = ValueError (not_a_valid class_name s)
  /\ forall e, In e members -> value e <> s.
Proof.
  unfold enum_of_value.
  destruct (find _ members) as [m|] eqn:F; [discriminate|].
  intros [= <-]. split; [reflexivity|]. intros e Hin.
  apply (find_none _ _ F) in Hin. now apply String.eqb_neq in Hin.
Qed.

(** *** Validation *)

Lemma check_comments_good (l : list pyval) :
  forall i, Reviewer.check_comments i l = Ok tt <-> forallb good_entry l = true.
Proof.
  induction l as [|x l IH]; intros i; [split; reflexivity|].
  cbn [Reviewer.check_comments forallb].
  destruct x as [| | | |s| |];
    try (cbn; split; discriminate).
  cbn [Reviewer.isinstance_str negb orb good_entry].
  rewrite ReviewerFacts.blank_all_space.
  destruct (all_space s); cbn; [split; discriminate|apply IH].
Qed.

Lemma validate_input_accepted processing (input_data : pyval) :
  Reviewer._validate_input processing input_data = Ok tt
  <-> accepted processing input_data = true.
Proof.
  destruct input_data as [| | | | | |d]; try (cbn; split; discriminate).
  cbn [Reviewer._validate_input Reviewer.check_keys accepted].
  unfold Dict.mem.
  destruct (Dict.get d "code_snippet") as [cs|];
    [|cbn; split; discriminate].
  destruct (Dict.get d "review_comments") as [rc|].
  2:{ cbn. destruct cs; split; discriminate. }
  cbn [bind].
  destruct cs as [| | | |code| |]; try (cbn; split; discriminate).
  cbn [Reviewer.isinstance_str negb orb].
  rewrite ReviewerFacts.blank_all_space.
  destruct (all_space code); [cbn; destruct rc; split; discriminate|].
  destruct rc as [| | | | |l|]; try (cbn; split; discriminate).
  destruct l as [|c l]; [cbn; split; discriminate|].
  cbn [negb andb].
  rewrite Z.leb_antisym.
  destruct (_ <? _)%Z; cbn [negb andb]; [split; discriminate|].
  exact (check_comments_good (c :: l) 0%nat).
Qed.

(** *** The orchestrator on accepted input *)

Section Run.

Variable processing : ProcessingConfig.
Variable resource_mappings : Dict.t (Dict.t (list string)).
Variable create_empathy_prompt : string -> ReviewComment -> string -> string.
Variable deployment_name : string.
Variable ChatCompletion_create :
  FeedbackGenerator.chat_request -> result string.

Lemma generate_keeps_original code comment language :
  original (FeedbackGenerator.generate_empathetic_response
              create_empathy_prompt deployment_name ChatCompletion_create
              code comment language processing)
  = original comment.
Proof.
  unfold FeedbackGenerator.generate_empathetic_response.
  now destruct (ChatCompletion_create _).
Qed.

Lemma analyze_comment_total (comment_text code_snippet language : string) :
  exists r,
    Reviewer._analyze_comment processing resource_mappings
      create_empathy_prompt deployment_name ChatCompletion_create
      comment_text code_snippet language = Ok r
    /\ original r = comment_text.
Proof.
  unfold Reviewer._analyze_comment.
  destruct (SentimentFacts.analyze_sentiment_total comment_text)
    as (sev & sc & ad & ->).
  destruct (CategoryFacts.classify_comment_total comment_text
              (Some code_snippet)) as (cat & cc & impact & ->).
  cbn [bind]. eexists. split; [reflexivity|].
  cbn [Reviewer.set_resources original].
  now rewrite generate_keeps_original.
Qed.

Lemma process_comments_all (l : list pyval) (code language : string) :
  forallb good_entry l = true ->
  forall i n log,
  exists processed,
    Reviewer.process_comments processing resource_mappings
      create_empathy_prompt deployment_name ChatCompletion_create
      i n l code language log
    = (Ok processed,
       log ++ map (fun j => Reviewer.DebugComment j n) (seq i (length l)))
    /\ map original processed = texts l.
Proof.
  induction l as [|x l IH]; intros Hg i n log.
  - exists []. cbn. now rewrite app_nil_r.
  - cbn [forallb] in Hg. apply andb_true_iff in Hg as [Hx Hl].
    destruct x as [| | | |s| |]; try discriminate.
    cbn [Reviewer.process_comments].
    destruct (analyze_comment_total s code language) as (r & -> & Hr).
    destruct (IH Hl (S i) n (log ++ [Reviewer.DebugComment i n]))
      as (rs & -> & Hrs).
    exists (r :: rs). split.
    + cbn [length seq map]. now rewrite <- app_assoc.
    + cbn. now rewrite Hr, Hrs.
Qed.

End Run.

(** *** Scores grow with every pattern that occurs *)

Lemma score_fold_pos (c : string) (w : string -> Q) (key : string -> string)
    (cap : nat) (ps : list string) :
  (1 <= cap)%nat -> (forall p, 0 < w p) ->
  forall a,
    let r := fold_left
               (fun score p =>
                  if contains (key p) c
                  then score + w p * of_nat (Nat.min (count c (key p)) cap)
                  else score) ps a in
    a <= r /\ (existsb (fun p => contains (key p) c) ps = true -> a < r).
Proof.
  intros Hcap Hw. induction ps as [|p ps IH]; intros a; cbn [fold_left existsb].
  - split; [apply Qle_refl|discriminate].
  - destruct (contains (key p) c) eqn:E.
    + assert (Hn : 0 < of_nat (Nat.min (count c (key p)) cap)).
      { apply of_nat_pos. apply contains_count in E. lia. }
      specialize (Hw p).
      destruct (IH (a + w p * of_nat (Nat.min (count c (key p)) cap)))
        as [H1 _].
      cbv zeta in *. split; [nra|intros _; nra].
    + destruct (IH a) as [H1 H2]. cbv zeta in *. split; auto.
Qed.

Lemma score_fold_zero (c : string) (w : string -> Q) (key : string -> string)
    (cap : nat) (ps : list string) :
  existsb (fun p => contains (key p) c) ps = false ->
  forall a,
    fold_left
      (fun score p =>
         if contains (key p) c
         then score + w p * of_nat (Nat.min (count c (key p)) cap)
         else score) ps a = a.
Proof.
  induction ps as [|p ps IH]; intros H a; cbn [fold_left existsb] in *;
    [reflexivity|].
  apply orb_false_iff in H as [-> H]. now apply IH.
Qed.

(** *** Language *)

Lemma language_weight_pos config p : 0 < language_weight config p.
Proof.
  unfold language_weight. now destruct (in_list _ _).
Qed.

Lemma language_raw_score_pos (c : string) config :
  existsb (fun p => contains (lower p) c)
    (LanguageDetector.patterns config) = true ->
  0 < LanguageDetector.raw_score c config.
Proof.
  intros H.
  destruct (score_fold_pos c (language_weight config) lower 3
              (LanguageDetector.patterns config) ltac:(lia)
              (language_weight_pos config) 0.0) as [_ G].
  cbv zeta in G. apply Qle_lt_trans with 0.0; [discriminate|].
  exact (G H).
Qed.

Lemma language_raw_score_zero (c : string) config :
  existsb (fun p => contains (lower p) c)
    (LanguageDetector.patterns config) = false ->
  LanguageDetector.raw_score c config = 0.0.
Proof.
  intros H.
  exact (score_fold_zero c (language_weight config) lower 3
           (LanguageDetector.patterns config) H 0.0).
Qed.

Lemma language_final_NoDup code filename :
  NoDup (Dict.keys (language_final code filename)).
Proof.
  rewrite LanguageFacts.keys_language_final,
    LanguageFacts.analyze_patterns_select.
  apply NoDup_select, LanguageFacts.language_keys_NoDup.
Qed.

Lemma language_final_keys code filename :
  Dict.keys (language_final code filename)
  = Dict.keys LanguageDetector.language_patterns.
Proof.
  rewrite LanguageFacts.keys_language_final,
    LanguageFacts.analyze_patterns_select.
  unfold select.
  change (flat_map _ LanguageDetector.language_patterns)
    with (map (fun kc : string * LanguageDetector.language_config =>
                 (fst kc,
                  LanguageDetector.raw_score (lower code) (snd kc)
                  / (of_nat (length (LanguageDetector.patterns (snd kc))) * 2)))
            LanguageDetector.language_patterns).
  reflexivity.
Qed.

(** The value under the key that [max] selects bounds every value. *)
Lemma max_key_value (d : Dict.t Q) (r : string) :
  NoDup (Dict.keys d) -> Dict.max_key d = Some r ->
  exists v, Dict.get d r = Some v /\ In (r, v) d
            /\ forall k' v', In (k', v') d -> v' <= v.
Proof.
  intros ND H. pose proof (max_key_In _ _ H) as Hk.
  destruct (get_keys d r Hk) as [v0 G]. pose proof (get_In _ _ _ G) as Hin.
  apply max_key_split in H as (pre & v & post & E & Hpre & Hpost).
  assert (Hv : In (r, v) d) by (rewrite E; apply in_or_app; right; now left).
  assert (v0 = v) by (eapply In_unique; eauto). subst v0.
  exists v. repeat split; try assumption.
  intros k' v' H'. rewrite E in H'.
  apply in_app_or in H' as [H'|[[= <- <-]|H']].
  - apply Qlt_le_weak. eauto.
  - apply Qle_refl.
  - eauto.
Qed.

Lemma update_grows (d : Dict.t Q) (k0 : string) (f : Q -> Q) :
  (forall v, 0 <= v -> v <= f v) ->
  (forall k v, In (k, v) d -> 0 <= v) ->
  forall k b, In (k, b) d -> exists v, In (k, v) (Dict.update d k0 f) /\ b <= v.
Proof.
  intros Hf. induction d as [|[k1 v1] d IH]; intros Hd k b Hin; [destruct Hin|].
  cbn [Dict.update]. destruct (String.eqb k0 k1).
  - destruct Hin as [[= <- <-]|Hin].
    + exists (f v1). split; [now left|]. apply Hf. apply (Hd k1). now left.
    + exists b. split; [now right|apply Qle_refl].
  - destruct Hin as [[= <- <-]|Hin].
    + exists v1. split; [now left|apply Qle_refl].
    + destruct (IH (fun k v H => Hd k v (or_intror H)) k b Hin) as [v [H1 H2]].
      exists v. split; [now right|assumption].
Qed.

(** The file name never lowers a score. *)
Lemma language_final_grows code filename (k : string) (b : Q) :
  In (k, b) (LanguageDetector._analyze_patterns code) ->
  exists v, In (k, v) (language_final code filename) /\ b <= v.
Proof.
  intros H. unfold language_final. cbv zeta.
  destruct (match filename with
            | Some f =>
                if truthy f then LanguageDetector._detect_from_filename f
                else None
            | None => None
            end) as [l|]; [|exists b; split; [assumption|apply Qle_refl]].
  destruct (truthy l && Dict.mem _ l);
    [|exists b; split; [assumption|apply Qle_refl]].
  apply update_grows; [intros v Hv; nra| |assumption].
  apply LanguageFacts.analyze_patterns_nonneg.
Qed.

Lemma pymin_mono (a b c : Q) : a <= b -> pymin a c <= pymin b c.
Proof.
  intros H. apply pymin_glb.
  - apply Qle_trans with a; [apply pymin_le_l|assumption].
  - apply pymin_le_r.
Qed.

Lemma Qeq_bool_false_pos (m : Q) : 0 <= m -> Qeq_bool m 0 = false -> 0 < m.
Proof.
  intros H E. apply Qle_lteq in H as [H|H]; [assumption|].
  symmetry in H. apply Qeq_bool_iff in H. congruence.
Qed.

(** What [detect_language] returns on a fragment that is not blank. *)
Lemma detect_language_cases code filename :
  all_space code = false ->
  (exists m, Dict.max_value (language_final code filename) = Some m
             /\ m == 0
             /\ LanguageDetector.detect_language code filename
                = ("unknown", 0.1))
  \/ (exists m r v,
        Dict.max_value (language_final code filename) = Some m
        /\ 0 < m
        /\ Dict.max_key (language_final code filename) = Some r
        /\ In (r, v) (language_final code filename)
        /\ (forall k' v', In (k', v') (language_final code filename) ->
                          v' <= v)
        /\ LanguageDetector.detect_language code filename
           = (r, pymin v 1.0)).
Proof.
  intros Hs. rewrite LanguageFacts.detect_language_unfold, Hs. cbv zeta.
  destruct (Dict.max_value (language_final code filename)) as [m|] eqn:Em.
  2:{ apply max_value_None in Em. apply (f_equal Dict.keys) in Em.
      rewrite language_final_keys in Em. discriminate. }
  destruct (max_key_Some (language_final code filename)) as [r Hr].
  { intros E. apply max_value_None in E. congruence. }
  rewrite Hr.
  destruct (Qeq_bool m 0) eqn:E.
  - left. exists m. apply Qeq_bool_iff in E. auto.
  - right.
    destruct (max_key_value _ r (language_final_NoDup code filename) Hr)
      as (v & G & Hin & Hmax).
    rewrite G. exists m, r, v. repeat split; try assumption.
    apply Qeq_bool_false_pos; [|assumption].
    apply max_value_In in Em as [k Hk].
    now apply LanguageFacts.language_final_nonneg in Hk.
Qed.

Lemma lower_ascii_idem (c : ascii) :
  lower_ascii (lower_ascii c) = lower_ascii c.
Proof.
  destruct c as [[] [] [] [] [] [] [] []]; reflexivity.
Qed.

Lemma lower_idem (s : string) : lower (lower s) = lower s.
Proof.
  induction s as [|c s IH]; simpl; [reflexivity|].
  now rewrite lower_ascii_idem, IH.
Qed.

Lemma unknown_not_language :
  ~ In "unknown" (Dict.keys LanguageDetector.language_patterns).
Proof.
  simpl. intuition discriminate.
Qed.

Lemma forallb_map' {A B} (f : B -> bool) (g : A -> B) (l : list A) :
  forallb f (map g l) = forallb (fun x => f (g x)) l.
Proof.
  induction l as [|x l IH]; simpl; [reflexivity|]. now rewrite IH.
Qed.

Lemma language_scores_zero_iff code :
  forallb (fun kv => Qeq_bool (snd kv) 0)
    (LanguageDetector._analyze_patterns code) = true
  <-> no_match (fun c => map lower (LanguageDetector.patterns c))
        LanguageDetector.language_patterns (lower code) = true.
Proof.
  rewrite LanguageFacts.analyze_patterns_select.
  unfold no_match. rewrite !forallb_forall. split.
  - intros H [k config] Hin.
    rewrite forallb_map'. rewrite SentimentFacts.forallb_negb_existsb.
    apply negb_true_iff.
    destruct (existsb _ _) eqn:Ex; [exfalso|reflexivity].
    apply language_raw_score_pos in Ex.
    destruct (LanguageFacts.language_entry_Some (lower code) k config Hin)
      as [v Ev].
    assert (Hv : In (k, v) (select (language_entry (lower code))
                              LanguageDetector.language_patterns)).
    { apply In_select. eauto. }
    specialize (H (k, v) Hv). cbn [snd] in H. apply Qeq_bool_iff in H.
    unfold language_entry in Ev.
    destruct (LanguageDetector.patterns config) as [|p ps] eqn:Ep;
      [discriminate|]. injection Ev as <-.
    assert (Hl : 0 < of_nat (length (p :: ps)) * 2).
    { pose proof (of_nat_pos (length (p :: ps))) as Hp. simpl length in *.
      specialize (Hp ltac:(lia)). nra. }
    assert (G : 0 < LanguageDetector.raw_score (lower code) config
                    / (of_nat (length (p :: ps)) * 2)).
    { apply Qlt_shift_div_l; [assumption|now rewrite Qmult_0_l]. }
    rewrite H in G. now apply Qlt_irrefl in G.
  - intros H [k v] Hin. cbn [snd]. apply In_select in Hin as [config [Hin E]].
    specialize (H (k, config) Hin). cbn in H.
    rewrite forallb_map', SentimentFacts.forallb_negb_existsb in H.
    apply negb_true_iff in H.
    unfold language_entry in E.
    destruct (LanguageDetector.patterns config) as [|p ps] eqn:Ep;
      [discriminate|]. injection E as <-.
    rewrite <- Ep in *. rewrite (language_raw_score_zero _ _ H).
    apply Qeq_bool_iff. unfold Qeq, Qdiv, Qmult. reflexivity.
Qed.

(** *** Category *)

Lemma category_weight_pos' (label : string)
    (config : CategoryClassifier.category_config) :
  In (label, config) CategoryClassifier.category_patterns ->
  0 < CategoryClassifier.weight config.
Proof.
  simpl. intros H.
  repeat (destruct H as [[= <- <-]|H]; [reflexivity|]).
  destruct H.
Qed.

Lemma context_boost_pos (c category : string) (score : Q) :
  0 < score -> 0 < CategoryClassifier.context_boost c category score.
Proof.
  intros H. unfold CategoryClassifier.context_boost.
  destruct (Dict.get CategoryClassifier.context_patterns category);
    [|exact H].
  apply (fold_left_inv (fun v => 0 < v)); [|exact H]. intros a p Ha.
  destruct (contains p c); [nra|assumption].
Qed.

Lemma category_raw_score_pos (c : string) (label : string) config :
  In (label, config) CategoryClassifier.category_patterns ->
  existsb (fun p => contains p c) (CategoryClassifier.patterns config) = true ->
  0 < CategoryClassifier.raw_score c label config.
Proof.
  intros Hin H. unfold CategoryClassifier.raw_score.
  apply context_boost_pos.
  destruct (score_fold_pos c (fun _ => CategoryClassifier.weight config)
              (fun p => p) 2 (CategoryClassifier.patterns config)
              ltac:(lia)
              (fun _ => category_weight_pos' _ _ Hin) 0.0) as [_ G].
  cbv zeta in G. apply Qle_lt_trans with 0.0; [discriminate|].
  exact (G H).
Qed.

(** The final category score map is empty exactly when no category
    pattern occurs in the comment, with or without a code snippet. *)
Lemma category_final_empty_iff (comment : string) code_snippet :
  category_final comment code_snippet = []
  <-> no_match CategoryClassifier.patterns CategoryClassifier.category_patterns
        (lower comment) = true.
Proof.
  split.
  - intros E. unfold no_match. apply forallb_forall. intros [k config] Hin.
    rewrite SentimentFacts.forallb_negb_existsb. apply negb_true_iff.
    destruct (existsb _ _) eqn:Ex; [exfalso|reflexivity].
    assert (Hm : Dict.mem (CategoryClassifier._calculate_category_scores
                             (lower comment)) k = true).
    { apply (CategoryFacts.category_scored _ k config Hin).
      now apply category_raw_score_pos. }
    apply mem_keys in Hm.
    rewrite <- (CategoryFacts.keys_category_final comment code_snippet) in Hm.
    rewrite E in Hm. destruct Hm.
  - intros H. apply (map_eq_nil fst).
    change (map fst (category_final comment code_snippet))
      with (Dict.keys (category_final comment code_snippet)).
    now rewrite CategoryFacts.keys_category_final,
      CategoryFacts.category_scores_no_match.
Qed.

Lemma code_step_pos (code : string) (d : Dict.t Q) entry :
  (forall k v, In (k, v) d -> 0 < v) ->
  forall k v, In (k, v) (CategoryClassifier.code_step code d entry) -> 0 < v.
Proof.
  intros H. destruct entry as [k0 h]. unfold CategoryClassifier.code_step.
  destruct (Dict.mem d k0); [|assumption].
  destruct (0 <? _)%nat; [|assumption].
  apply update_preserves; [|assumption].
  intros v Hv.
  pose proof (of_nat_nonneg (CategoryClassifier.hint_count h code)). nra.
Qed.

Lemma code_step_grows (code : string) (d : Dict.t Q) entry :
  (forall k v, In (k, v) d -> 0 < v) ->
  forall k b, In (k, b) d ->
    exists v, In (k, v) (CategoryClassifier.code_step code d entry) /\ b <= v.
Proof.
  intros H k b Hin. destruct entry as [k0 h].
  unfold CategoryClassifier.code_step.
  destruct (Dict.mem d k0);
    [|exists b; split; [assumption|apply Qle_refl]].
  destruct (0 <? _)%nat;
    [|exists b; split; [assumption|apply Qle_refl]].
  apply update_grows; try assumption.
  - intros v Hv.
    pose proof (of_nat_nonneg (CategoryClassifier.hint_count h code)). nra.
  - intros k' v' H'. apply Qlt_le_weak. eauto.
Qed.

(** The code snippet never lowers a category score. *)
Lemma apply_code_context_grows (scores : Dict.t Q) (code : string) :
  (forall k v, In (k, v) scores -> 0 < v) ->
  forall k b, In (k, b) scores ->
    exists v,
      In (k, v) (CategoryClassifier._apply_code_context scores code)
      /\ b <= v.
Proof.
  intros Hpos. unfold CategoryClassifier._apply_code_context.
  assert (G : forall d,
    (forall k v, In (k, v) d -> 0 < v) /\
    (forall k b, In (k, b) scores -> exists v, In (k, v) d /\ b <= v) ->
    let r := fold_left (CategoryClassifier.code_step code)
               CategoryClassifier.code_hints d in
    (forall k v, In (k, v) r -> 0 < v) /\
    (forall k b, In (k, b) scores -> exists v, In (k, v) r /\ b <= v)).
  { intros d. apply (fold_left_inv (fun d =>
      (forall k v, In (k, v) d -> 0 < v) /\
      (forall k b, In (k, b) scores -> exists v, In (k, v) d /\ b <= v))).
    intros a e [Ha Hg]. split; [now apply code_step_pos|].
    intros k b Hin. destruct (Hg k b Hin) as (v & Hv & Hle).
    destruct (code_step_grows code a e Ha k v Hv) as (v' & Hv' & Hle').
    exists v'. split; [assumption|now apply Qle_trans with v]. }
  apply G. split; [assumption|].
  intros k b Hin. exists b. split; [assumption|apply Qle_refl].
Qed.

Lemma general_not_key :
  ~ In "general" (Dict.keys CategoryClassifier.category_patterns).
Proof.
  simpl. intuition discriminate.
Qed.

(** *** Resources *)

Lemma firstn_incl {A} (n : nat) (l : list A) (x : A) :
  In x (firstn n l) -> In x l.
Proof.
  revert l. induction n as [|n IH]; intros [|a l]; simpl; try tauto.
  intros [->|H]; auto.
Qed.

(** *** Assignment to a dictionary *)

Lemma get_update {V} (d : Dict.t V) (k k' : string) (f : V -> V) :
  Dict.get (Dict.update d k f) k'
  = if String.eqb k' k then option_map f (Dict.get d k) else Dict.get d k'.
Proof.
  induction d as [|[k0 v0] d IH]; cbn [Dict.update Dict.get].
  - now destruct (String.eqb k' k).
  - destruct (String.eqb_spec k k0) as [->|Hn]; cbn [Dict.get].
    + destruct (String.eqb_spec k' k0); reflexivity.
    + rewrite IH. destruct (String.eqb_spec k' k0) as [->|];
        [|reflexivity].
      destruct (String.eqb_spec k0 k); [congruence|reflexivity].
Qed.

Lemma get_app_last {V} (d : Dict.t V) (k k' : string) (v : V) :
  Dict.get (d ++ [(k, v)]) k'
  = match Dict.get d k' with
    | Some x => Some x
    | None => if String.eqb k' k then Some v else None
    end.
Proof.
  induction d as [|[k0 v0] d IH]; cbn [app Dict.get]; [reflexivity|].
  now destruct (String.eqb k' k0).
Qed.

(** Lookup after assignment. *)
Lemma get_set {V} (d : Dict.t V) (k k' : string) (v : V) :
  Dict.get (Dict.set d k v) k'
  = if String.eqb k' k then Some v else Dict.get d k'.
Proof.
  unfold Dict.set, Dict.mem. destruct (Dict.get d k) as [x|] eqn:E.
  - rewrite get_update, E. reflexivity.
  - rewrite get_app_last. destruct (String.eqb_spec k' k) as [->|].
    + now rewrite E.
    + now destruct (Dict.get d k').
Qed.

Lemma keys_set {V} (d : Dict.t V) (k : string) (v : V) :
  Dict.keys (Dict.set d k v)
  = if Dict.mem d k then Dict.keys d else Dict.keys d ++ [k].
Proof.
  unfold Dict.set. destruct (Dict.mem d k).
  - apply keys_update.
  - now rewrite keys_app.
Qed.

Lemma NoDup_snoc {A} (l : list A) (x : A) :
  NoDup l -> ~ In x l -> NoDup (l ++ [x]).
Proof.
  intros ND Hx. induction ND as [|a l Ha ND IH]; cbn.
  - constructor; [intros []|constructor].
  - constructor.
    + intros H. apply in_app_or in H as [H|[->|[]]]; [contradiction|].
      apply Hx. now left.
    + apply IH. intros H. apply Hx. now right.
Qed.

Lemma keys_set_inv {V} (d : Dict.t V) (k : string) (v : V)
    (names : list string) :
  In k names -> incl (Dict.keys d) names -> NoDup (Dict.keys d) ->
  incl (Dict.keys (Dict.set d k v)) names
  /\ NoDup (Dict.keys (Dict.set d k v)).
Proof.
  intros Hk Hi ND. rewrite keys_set. destruct (Dict.mem d k) eqn:M; [auto|].
  split.
  - intros x Hx. apply in_app_or in Hx as [Hx|[<-|[]]]; auto.
  - apply NoDup_snoc; [assumption|].
    intros H. apply mem_keys in H. congruence.
Qed.

(** *** Parsing the answer of the service *)

Lemma flush_inv (st : FeedbackGenerator.parse_state) :
  parse_inv st ->
  incl (Dict.keys (FeedbackGenerator.flush st)) section_names
  /\ NoDup (Dict.keys (FeedbackGenerator.flush st)).
Proof.
  intros (Hi & ND & Hc). unfold FeedbackGenerator.flush.
  destruct (FeedbackGenerator.current_section st) as [sec|]; [|auto].
  destruct (truthy sec); [|auto].
  apply keys_set_inv; auto.
Qed.

Lemma parse_line_inv (st : FeedbackGenerator.parse_state) (line : string) :
  parse_inv st -> parse_inv (FeedbackGenerator.parse_line st line).
Proof.
  intros H. unfold FeedbackGenerator.parse_line. cbv zeta.
  destruct (find _ FeedbackGenerator.markers) as [[marker name]|] eqn:F.
  - destruct (flush_inv st H) as [Hi ND]. repeat split; try assumption.
    cbn. intros sec [= <-]. apply find_some in F as [Hin _].
    apply (in_map snd) in Hin. exact Hin.
  - destruct H as (Hi & ND & Hc).
    destruct (FeedbackGenerator.current_section st) as [sec|] eqn:E;
      [|repeat split; auto; rewrite E; discriminate].
    destruct (truthy sec && truthy (strip line)).
    + repeat split; auto.
    + repeat split; auto. now rewrite E.
Qed.

Lemma parse_response_keys (content : string) :
  incl (Dict.keys (FeedbackGenerator._parse_response content)) section_names
  /\ NoDup (Dict.keys (FeedbackGenerator._parse_response content)).
Proof.
  unfold FeedbackGenerator._parse_response. apply flush_inv.
  apply fold_left_inv; [intros; now apply parse_line_inv|].
  repeat split; cbn; [intros ? []|constructor|discriminate].
Qed.

Lemma parse_response_marker_free (content : string) :
  marker_free content = true ->
  FeedbackGenerator._parse_response content = [].
Proof.
  unfold marker_free, FeedbackGenerator._parse_response. intros H.
  rewrite forallb_forall in H.
  assert (G : fold_left FeedbackGenerator.parse_line
                (FeedbackGenerator.split_on FeedbackGenerator.newline content)
                {| FeedbackGenerator.sections := [];
                   FeedbackGenerator.current_section := None;
                   FeedbackGenerator.current_content := [] |}
              = {| FeedbackGenerator.sections := [];
                   FeedbackGenerator.current_section := None;
                   FeedbackGenerator.current_content := [] |}).
  { induction (FeedbackGenerator.split_on FeedbackGenerator.newline content)
      as [|line lines IH]; [reflexivity|].
    cbn [fold_left].
    assert (E : FeedbackGenerator.parse_line
                  {| FeedbackGenerator.sections := [];
                     FeedbackGenerator.current_section := None;
                     FeedbackGenerator.current_content := [] |} line
                = {| FeedbackGenerator.sections := [];
                     FeedbackGenerator.current_section := None;
                     FeedbackGenerator.current_content := [] |}).
    { unfold FeedbackGenerator.parse_line. cbv zeta.
      destruct (find _ FeedbackGenerator.markers) as [[m n]|] eqn:F;
        [|reflexivity].
      exfalso. apply find_some in F as [Hin Hs].
      specialize (H line (or_introl eq_refl)).
      apply negb_true_iff in H.
      assert (X : existsb (fun m0 => startswith (strip line) (fst m0))
                    FeedbackGenerator.markers = true).
      { apply existsb_exists. exists (m, n). auto. }
      congruence. }
    rewrite E. apply IH. intros x Hx. apply H. now right. }
  now rewrite G.
Qed.

(** *** The review summary *)

Lemma severity_value_eqb (a b : SeverityLevel) :
  String.eqb (severity_value a) (severity_value b)
  = SentimentAdvice.severity_eqb b a.
Proof. destruct a, b; reflexivity. Qed.

Lemma count_severity_step (acc : Dict.t nat) (c : ReviewComment)
    (s : SeverityLevel) :
  count_of (ReviewData.count_severity acc c) (severity_value s)
  = (count_of acc (severity_value s)
     + if SentimentAdvice.severity_eqb (severity c) s then 1 else 0)%nat.
Proof.
  unfold ReviewData.count_severity, count_of. cbv zeta.
  rewrite get_set, severity_value_eqb.
  destruct (SentimentAdvice.severity_eqb (severity c) s) eqn:E; [|lia].
  assert (H : severity c = s).
  { revert E. destruct (severity c), s; cbn; congruence. }
  now rewrite H.
Qed.

Lemma count_severity_fold (comments : list ReviewComment) :
  forall acc s,
    count_of (fold_left ReviewData.count_severity comments acc)
      (severity_value s)
    = (count_of acc (severity_value s) + severity_count s comments)%nat.
Proof.
  induction comments as [|c comments IH]; intros acc s; cbn [fold_left].
  - unfold severity_count. cbn. lia.
  - rewrite IH, count_severity_step. unfold severity_count. cbn [filter].
    destruct (SentimentAdvice.severity_eqb (severity c) s); cbn [length]; lia.
Qed.

Lemma severity_count_total (comments : list ReviewComment) :
  (severity_count CRITICAL comments + severity_count HIGH comments
   + severity_count MEDIUM comments + severity_count LOW comments)%nat
  = length comments.
Proof.
  unfold severity_count.
  induction comments as [|c comments IH]; [reflexivity|].
  cbn [filter length]. destruct (severity c); cbn; lia.
Qed.

Lemma sum_confidence_bounds (comments : list ReviewComment) :
  (forall c, In c comments -> 0 <= confidence c <= 1) ->
  forall a,
    a <= fold_left (fun acc comment => acc + confidence comment) comments a
    /\ fold_left (fun acc comment => acc + confidence comment) comments a
       <= a + of_nat (length comments).
Proof.
  induction comments as [|c comments IH]; intros H a; cbn [fold_left length].
  - change (of_nat 0) with 0. lra.
  - destruct (H c (or_introl eq_refl)) as [H0 H1].
    destruct (IH (fun x Hx => H x (or_intror Hx)) (a + confidence c))
      as [L U].
    assert (E : of_nat (S (length comments))
                == of_nat (length comments) + 1).
    { unfold of_nat. rewrite Nat2Z.inj_succ. unfold Z.succ.
      rewrite inject_Z_plus. reflexivity. }
    rewrite E. lra.
Qed.

(** *** Substrings *)

Lemma append_assoc' (a b c : string) :
  ((a ++ b) ++ c = a ++ (b ++ c))%string.
Proof.
  induction a as [|x a IH]; simpl; [reflexivity|]. now rewrite IH.
Qed.

Lemma append_nil_r (a : string) : (a ++ "" = a)%string.
Proof.
  induction a as [|x a IH]; simpl; [reflexivity|]. now rewrite IH.
Qed.

Lemma prefix_iff (p s : string) :
  prefix p s = true <-> exists b, s = (p ++ b)%string.
Proof.
  revert s. induction p as [|c p IH]; intros [|d s]; simpl.
  - split; [intros _; now exists EmptyString|reflexivity].
  - split; [intros _; now exists (String d s)|reflexivity].
  - split; [discriminate|intros [b [=]]].
  - destruct (Ascii.ascii_dec c d) as [->|Hn].
    + rewrite IH. split; intros [b E]; exists b; congruence.
    + split; [discriminate|]. intros [b [= E _]]. congruence.
Qed.

(** [p in s], as a decomposition of [s]. *)
Lemma contains_iff (p s : string) :
  contains p s = true <-> exists a b, s = (a ++ p ++ b)%string.
Proof.
  split.
  - induction s as [|c s IH]; cbn [contains].
    + rewrite orb_false_r. intros H. apply prefix_iff in H as [b E].
      now exists EmptyString, b.
    + intros H. apply orb_true_iff in H as [H|H].
      * apply prefix_iff in H as [b E]. now exists EmptyString, b.
      * destruct (IH H) as (a & b & E). exists (String c a), b.
        simpl. now rewrite E.
  - intros (a & b & ->). induction a as [|c a IH].
    + simpl append.
      assert (H : prefix p (p ++ b) = true) by (apply prefix_iff; eauto).
      destruct (p ++ b)%string; cbn [contains]; now rewrite H.
    + simpl append. cbn [contains]. rewrite IH. apply orb_true_r.
Qed.

Lemma contains_refl (p : string) : contains p p = true.
Proof.
  apply contains_iff. exists EmptyString, EmptyString.
  simpl. now rewrite append_nil_r.
Qed.

Lemma contains_here (p z : string) : contains p (p ++ z) = true.
Proof.
  apply contains_iff. now exists EmptyString, z.
Qed.

Lemma contains_here3 (a b c z : string) :
  contains (a ++ b ++ c) (a ++ b ++ c ++ z) = true.
Proof.
  apply contains_iff. exists EmptyString, z.
  simpl. now rewrite !append_assoc'.
Qed.

Lemma contains_skip (p x y : string) :
  contains p y = true -> contains p (x ++ y) = true.
Proof.
  intros H. apply contains_iff in H as (a & b & ->).
  apply contains_iff. exists (x ++ a)%string, b. apply eq_sym, append_assoc'.
Qed.

Lemma contains_keep (p x y : string) :
  contains p x = true -> contains p (x ++ y) = true.
Proof.
  intros H. apply contains_iff in H as (a & b & ->).
  apply contains_iff. exists a, (b ++ y)%string.
  now rewrite !append_assoc'.
Qed.

Lemma contains_trans (p q s : string) :
  contains p q = true -> contains q s = true -> contains p s = true.
Proof.
  intros H1 H2. apply contains_iff in H2 as (a & b & ->).
  apply contains_skip, contains_keep. exact H1.
Qed.

(** Every joined piece occurs in the joined text. *)
Lemma contains_join (sep : string) (l : list string) (x : string) :
  In x l -> contains x (FeedbackGenerator.join sep l) = true.
Proof.
  induction l as [|y l IH]; [intros []|].
  intros [->|Hin]; cbn [FeedbackGenerator.join].
  - destruct l; [apply contains_refl|apply contains_here].
  - destruct l as [|z l]; [destruct Hin|].
    apply contains_skip, contains_skip. now apply IH.
Qed.

(** *** Splitting *)

Lemma split_on_nonempty (sep : ascii) (s : string) :
  FeedbackGenerator.split_on sep s <> [].
Proof.
  destruct s as [|c s]; cbn [FeedbackGenerator.split_on]; [discriminate|].
  destruct (Ascii.eqb c sep); [discriminate|].
  destruct (FeedbackGenerator.split_on sep s); discriminate.
Qed.

(** A text that splits into one piece is that piece. *)
Lemma split_on_single (sep : ascii) (s x : string) :
  FeedbackGenerator.split_on sep s = [x] -> x = s.
Proof.
  revert x. induction s as [|c s IH]; intros x;
    cbn [FeedbackGenerator.split_on].
  - now intros [= <-].
  - destruct (Ascii.eqb c sep).
    + intros [= _ H]. now apply split_on_nonempty in H.
    + destruct (FeedbackGenerator.split_on sep s) as [|h t] eqn:E.
      * now apply split_on_nonempty in E.
      * intros [= <- ->]. now rewrite (IH h eq_refl).
Qed.

Lemma truthy_append (a b : string) :
  truthy a = true -> truthy (a ++ b) = true.
Proof.
  destruct a; [discriminate|reflexivity].
Qed.

(** *** A label is returned only when one of its patterns occurs *)

Lemma severity_key_occurs (c : string) ad (k : string) :
  In k (Dict.keys (SentimentAnalyzer._calculate_severity_scores c ad)) ->
  exists config,
    In (k, config) SentimentAnalyzer.severity_patterns
    /\ existsb (fun p => contains p c) (SentimentAnalyzer.patterns config)
       = true.
Proof.
  rewrite SentimentFacts.calculate_severity_scores_select. intros H.
  apply in_map_iff in H as [[k' v] [E H]]. simpl in E. subst k'.
  apply In_select in H as [config [Hin Ev]]. exists config.
  split; [assumption|].
  destruct (existsb _ _) eqn:Ex; [reflexivity|exfalso].
  unfold severity_entry in Ev.
  assert (Z : SentimentAnalyzer.raw_score c config = 0.0).
  { apply SentimentFacts.raw_score_no_match.
    rewrite SentimentFacts.forallb_negb_existsb. now rewrite Ex. }
  rewrite Z in Ev. discriminate.
Qed.

Lemma category_key_occurs (c : string) (k : string) :
  In k (Dict.keys (CategoryClassifier._calculate_category_scores c)) ->
  exists config,
    In (k, config) CategoryClassifier.category_patterns
    /\ existsb (fun p => contains p c) (CategoryClassifier.patterns config)
       = true.
Proof.
  rewrite CategoryFacts.calculate_category_scores_select. intros H.
  apply in_map_iff in H as [[k' v] [E H]]. simpl in E. subst k'.
  apply In_select in H as [config [Hin Ev]]. exists config.
  split; [assumption|].
  destruct (existsb _ _) eqn:Ex; [reflexivity|exfalso].
  unfold category_entry, CategoryClassifier.raw_score in Ev.
  assert (Z : CategoryClassifier.context_boost c k
                (CategoryClassifier.pattern_score c config) == 0).
  { apply CategoryFacts.context_boost_zero.
    rewrite CategoryFacts.pattern_score_no_match; [reflexivity|].
    rewrite SentimentFacts.forallb_negb_existsb. now rewrite Ex. }
  destruct (Qltb 0 _) eqn:L; [|discriminate].
  apply Qltb_lt in L. rewrite Z in L. now apply Qlt_irrefl in L.
Qed.

Lemma update_from (d : Dict.t Q) (k0 : string) (f : Q -> Q) (k : string)
    (v : Q) :
  In (k, v) (Dict.update d k0 f) ->
  exists b, In (k, b) d /\ (v = b \/ v = f b).
Proof.
  induction d as [|[k1 v1] d IH]; cbn [Dict.update]; [intros []|].
  destruct (String.eqb k0 k1).
  - intros [[= <- <-]|H].
    + exists v1. split; [now left|now right].
    + exists v. split; [now right|now left].
  - intros [[= <- <-]|H].
    + exists v1. split; [now left|now left].
    + destruct (IH H) as (b & Hb & E). exists b. split; [now right|exact E].
Qed.

Lemma language_final_from code filename (k : string) (v : Q) :
  In (k, v) (language_final code filename) ->
  exists b,
    In (k, b) (LanguageDetector._analyze_patterns code)
    /\ (v = b \/ v = b * 1.5).
Proof.
  unfold language_final. cbv zeta.
  destruct (match filename with
            | Some f =>
                if truthy f then LanguageDetector._detect_from_filename f
                else None
            | None => None
            end) as [l|]; [|intros H; exists v; auto].
  destruct (truthy l && Dict.mem _ l); [|intros H; exists v; auto].
  apply update_from.
Qed.

End MoreFacts.

(** ** The properties *)

(** X1: [classify_comment] returns for every comment and every code
    snippet (neither enum conversion raises), and its confidence lies in
    [0, 1]. *)
Theorem classify_comment_returns_bounded (comment : string)
    (code_snippet : option string) :
  exists cat conf impact,
    CategoryClassifier.classify_comment comment code_snippet
    = Ok (cat, conf, impact)
    /\ 0 <= conf <= 1.
Proof.
  destruct (CategoryFacts.classify_comment_total comment code_snippet)
    as (cat & conf & impact & E).
  exists cat, conf, impact. split; [exact E|].
  exact (CategoryFacts.category_confidence_bounds _ _ _ _ _ E).
Qed.

(** X2: [analyze_sentiment] returns for every comment, with a confidence
    of at most 1 and a tone that is one of ['neutral'], ['positive'],
    ['constructive'], ['neutral-constructive']. *)
Theorem analyze_sentiment_returns (comment : string) :
  exists sev conf ad,
    SentimentAnalyzer.analyze_sentiment comment = Ok (sev, conf, ad)
    /\ conf <= 1
    /\ In (SentimentAnalyzer.d_overall_tone ad)
          ["neutral"; "positive"; "constructive"; "neutral-constructive"].
Proof.
  destruct (SentimentFacts.analyze_sentiment_total comment)
    as (sev & conf & ad & E).
  exists sev, conf, ad. split; [exact E|]. split.
  - exact (SentimentFacts.sentiment_confidence_le_1 _ _ _ _ E).
  - exact (MoreFacts.sentiment_tone_values _ _ _ _ E).
Qed.

(** X3: the details returned by [analyze_sentiment] hold exactly the
    positive indicators, constructive indicators and intensity modifiers
    that occur in the lower-cased comment, each once, in table order. *)
Theorem sentiment_details_record_occurrences (comment : string) :
  exists sev conf ad,
    SentimentAnalyzer.analyze_sentiment comment = Ok (sev, conf, ad)
    /\ SentimentAnalyzer.d_positive_indicators ad
       = filter (fun i => contains i (lower comment))
           SentimentAnalyzer.positive_indicators
    /\ SentimentAnalyzer.d_constructive_indicators ad
       = filter (fun i => contains i (lower comment))
           SentimentAnalyzer.constructive_indicators
    /\ SentimentAnalyzer.d_intensity_modifiers ad
       = filter (fun mf => contains (fst mf) (lower comment))
           SentimentAnalyzer.intensity_modifiers.
Proof.
  destruct (SentimentFacts.analyze_sentiment_total comment)
    as (sev & conf & ad & E).
  exists sev, conf, ad. split; [exact E|].
  exact (MoreFacts.sentiment_details_lists _ _ _ _ E).
Qed.

(** X4: when at most five positive and at most six constructive
    indicators were found, the confidence of [analyze_sentiment] lies in
    [0, 1]: the modifier factors are then not negative. *)
Theorem sentiment_confidence_bounds_few_indicators (comment : string)
    sev conf ad :
  SentimentAnalyzer.analyze_sentiment comment = Ok (sev, conf, ad) ->
  (length (SentimentAnalyzer.d_positive_indicators ad) <= 5)%nat ->
  (length (SentimentAnalyzer.d_constructive_indicators ad) <= 6)%nat ->
  0 <= conf <= 1.
Proof.
  intros E Hp Hc.
  split; [|exact (SentimentFacts.sentiment_confidence_le_1 _ _ _ _ E)].
  destruct (MoreFacts.sentiment_details_lists _ _ _ _ E) as (L1 & L2 & _).
  rewrite L1 in Hp. rewrite L2 in Hc.
  pose proof (MoreFacts.severity_final_nonneg comment Hp Hc) as Hn.
  revert E. rewrite SentimentFacts.analyze_sentiment_unfold. cbv zeta.
  destruct (Dict.max_key (severity_final comment)) as [s|].
  - destruct (SeverityLevel_of s) as [sv|e]; cbn [bind]; [|discriminate].
    intros [= _ <- _]. now apply MoreFacts.calculate_confidence_nonneg.
  - intros [= _ <- _]. discriminate.
Qed.

Lemma sentiment_confidence_bounds_few_indicators_witness :
  exists sev conf ad,
    SentimentAnalyzer.analyze_sentiment "Nice idea, but this is bad"
    = Ok (sev, conf, ad)
    /\ 0 <= conf <= 1.
Proof.
  do 3 eexists. split; [vm_compute; reflexivity|].
  eapply (sentiment_confidence_bounds_few_indicators
            "Nice idea, but this is bad");
    [vm_compute; reflexivity|simpl; lia|simpl; lia].
Defined.

(** X5: for the severity and details that [analyze_sentiment] returns,
    [suggest_response_tone] asks for the ['maximum'] empathy level, and
    the ['highly_supportive'] approach with its list of phrases to avoid,
    exactly when the severity is critical. *)
Theorem maximum_empathy_iff_critical (comment : string) :
  exists sev conf ad,
    SentimentAnalyzer.analyze_sentiment comment = Ok (sev, conf, ad)
    /\ (SentimentAdvice.empathy_level
          (SentimentAdvice.suggest_response_tone sev ad) = "maximum"
        <-> sev = CRITICAL)
    /\ (SentimentAdvice.approach
          (SentimentAdvice.suggest_response_tone sev ad) = "highly_supportive"
        <-> sev = CRITICAL)
    /\ (SentimentAdvice.avoid_phrases
          (SentimentAdvice.suggest_response_tone sev ad) <> []
        <-> sev = CRITICAL).
Proof.
  destruct (SentimentFacts.analyze_sentiment_total comment)
    as (sev & conf & ad & E).
  exists sev, conf, ad. split; [exact E|].
  pose proof (MoreFacts.sentiment_tone_values _ _ _ _ E) as T.
  unfold SentimentAdvice.suggest_response_tone. cbv zeta.
  simpl in T.
  destruct T as [<-|[<-|[<-|[<-|[]]]]]; destruct sev; cbn;
    repeat split; intros; congruence.
Qed.

(** X6: building a [ReviewComment] from the string values of its enum
    fields gives the record built from the enum members themselves; a
    record built from strings carries the members with those values; and
    the only way the construction fails is the [ValueError] of the enum
    class of a field given as a string that is no value of that enum, with
    the message of [Enum]: the [repr] of the string, then "is not a valid"
    and the name of the class. *)
Theorem review_comment_init_coerces :
  (forall o s c i q,
     ReviewData.ReviewComment_init o (inl (severity_value s))
       (inl (category_value c)) (inl (impact_value i)) q
     = Ok (Reviewer.classified o s c i q)
     /\ ReviewData.ReviewComment_init o (inr s) (inr c) (inr i) q
        = Ok (Reviewer.classified o s c i q))
  /\ (forall o sv cv iv q r,
        ReviewData.ReviewComment_init o (inl sv) (inl cv) (inl iv) q = Ok r ->
        severity_value (severity r) = sv
        /\ category_value (category r) = cv
        /\ impact_value (impact_level r) = iv
        /\ original r = o /\ confidence r = q)
  /\ (forall o sv cv iv q e,
        ReviewData.ReviewComment_init o sv cv iv q = Raise e ->
        exists str,
          (e = ValueError (repr str ++ " is not a valid SeverityLevel")
           /\ sv = inl str /\ forall s, severity_value s <> str)
          \/ (e = ValueError (repr str ++ " is not a valid CategoryType")
              /\ cv = inl str /\ forall c, category_value c <> str)
          \/ (e = ValueError (repr str ++ " is not a valid ImpactLevel")
              /\ iv = inl str /\ forall i, impact_value i <> str)).
Proof.
  split; [|split].
  - intros o s c i q. split; [|reflexivity].
    destruct s, c, i; reflexivity.
  - intros o sv cv iv q r. unfold ReviewData.ReviewComment_init.
    cbn [ReviewData.coerce].
    destruct (SeverityLevel_of sv) as [s|] eqn:Es; cbn [bind]; [|discriminate].
    destruct (CategoryType_of cv) as [c|] eqn:Ec; cbn [bind]; [|discriminate].
    destruct (ImpactLevel_of iv) as [i|] eqn:Ei; cbn [bind]; [|discriminate].
    intros [= <-]. cbn.
    apply MoreFacts.enum_of_value_Ok in Es as [Es _].
    apply MoreFacts.enum_of_value_Ok in Ec as [Ec _].
    apply MoreFacts.enum_of_value_Ok in Ei as [Ei _]. auto.
  - intros o sv cv iv q e. unfold ReviewData.ReviewComment_init.
    destruct (ReviewData.coerce SeverityLevel_of sv) as [s|x] eqn:Es;
      cbn [bind].
    2:{ intros [= <-]. destruct sv as [str|s]; [|discriminate].
        apply MoreFacts.enum_of_value_Raise in Es as [-> Hn].
        exists str. left. split; [reflexivity|]. split; [reflexivity|].
        intros s. apply Hn. destruct s; simpl; tauto. }
    destruct (ReviewData.coerce CategoryType_of cv) as [c|x] eqn:Ec;
      cbn [bind].
    2:{ intros [= <-]. destruct cv as [str|c]; [|discriminate].
        apply MoreFacts.enum_of_value_Raise in Ec as [-> Hn].
        exists str. right. left. split; [reflexivity|].
        split; [reflexivity|].
        intros c. apply Hn. destruct c; simpl; tauto. }
    destruct (ReviewData.coerce ImpactLevel_of iv) as [i|x] eqn:Ei;
      cbn [bind]; [discriminate|].
    intros [= <-]. destruct iv as [str|i]; [|discriminate].
    apply MoreFacts.enum_of_value_Raise in Ei as [-> Hn].
    exists str. right. right. split; [reflexivity|]. split; [reflexivity|].
    intros i. apply Hn. destruct i; simpl; tauto.
Qed.

(** ['urgent'] is no severity: the construction raises
    [ValueError("'urgent' is not a valid SeverityLevel")]. *)
Lemma review_comment_init_coerces_witness :
  (forall r,
     ReviewData.ReviewComment_init "Fix this" (inl "high") (inl "logic")
       (inl "medium") 0.5 = Ok r ->
     severity r = HIGH)
  /\ ReviewData.ReviewComment_init "Fix this" (inl "urgent") (inl "logic")
       (inl "medium") 0.5
     = Raise (ValueError "'urgent' is not a valid SeverityLevel")
  /\ exists str,
       (ValueError "'urgent' is not a valid SeverityLevel"
        = ValueError (repr str ++ " is not a valid SeverityLevel")
        /\ @inl string SeverityLevel "urgent" = inl str
        /\ forall s, severity_value s <> str)
       \/ (ValueError "'urgent' is not a valid SeverityLevel"
           = ValueError (repr str ++ " is not a valid CategoryType")
           /\ @inl string CategoryType "logic" = inl str
           /\ forall c, category_value c <> str)
       \/ (ValueError "'urgent' is not a valid SeverityLevel"
           = ValueError (repr str ++ " is not a valid ImpactLevel")
           /\ @inl string ImpactLevel "medium" = inl str
           /\ forall i, impact_value i <> str).
Proof.
  split; [|split].
  - intros r H.
    destruct (proj1 (proj2 review_comment_init_coerces) _ _ _ _ _ _ H)
      as (Hs & _).
    destruct (severity r); try discriminate. reflexivity.
  - reflexivity.
  - apply (proj2 (proj2 review_comment_init_coerces) "Fix this"
             (inl "urgent") (inl "logic") (inl "medium") 0.5
             (ValueError "'urgent' is not a valid SeverityLevel")).
    reflexivity.
Defined.

(** X7: [_validate_input] accepts exactly the JSON objects whose
    ['code_snippet'] is a string with a visible character and whose
    ['review_comments'] is a non-empty list of at most [max_comments]
    such strings; every other input raises a [ValueError], never another
    exception. *)
Theorem validate_input_accepts_exactly processing (input_data : pyval) :
  (Reviewer._validate_input processing input_data = Ok tt
   <-> Spec2.accepted processing input_data = true)
  /\ (Spec2.accepted processing input_data = false ->
      exists msg,
        Reviewer._validate_input processing input_data
        = Raise (ValueError msg)).
Proof.
  split; [apply MoreFacts.validate_input_accepted|].
  intros H.
  destruct (Reviewer._validate_input processing input_data) as [[]|e] eqn:E.
  - apply MoreFacts.validate_input_accepted in E. congruence.
  - apply ReviewerFacts.validate_input_ValueError in E as [msg ->]. eauto.
Qed.

Lemma validate_input_accepts_exactly_witness :
  exists msg,
    Reviewer._validate_input default_ProcessingConfig
      (PDict [("code_snippet", PStr "x = 1"); ("review_comments", PInt 3)])
    = Raise (ValueError msg).
Proof.
  apply (proj2 (validate_input_accepts_exactly default_ProcessingConfig
                  (PDict [("code_snippet", PStr "x = 1");
                          ("review_comments", PInt 3)]))).
  reflexivity.
Defined.

(** X8: on an accepted input [process_review] returns the report of the
    formatter for one processed comment per review comment, in order,
    whatever the completion service does (a failing service does not stop
    the remaining comments); the reviewer logs the count, the detected
    language, one record per comment and the completion. *)
Theorem process_review_accepted processing resource_mappings
    create_empathy_prompt deployment_name ChatCompletion_create
    generate_hackathon_report (d : list (string * pyval)) :
  Spec2.accepted processing (PDict d) = true ->
  exists code l processed,
    Dict.get d "code_snippet" = Some (PStr code)
    /\ Dict.get d "review_comments" = Some (PList l)
    /\ map original processed = Spec2.texts l
    /\ length processed = length l
    /\ Reviewer.process_review processing resource_mappings
         create_empathy_prompt deployment_name ChatCompletion_create
         generate_hackathon_report (PDict d)
       = (Ok (generate_hackathon_report code processed
                (fst (LanguageDetector.detect_language code None))),
          [Reviewer.InfoProcessing (length l);
           Reviewer.InfoDetected
             (fst (LanguageDetector.detect_language code None))
             (snd (LanguageDetector.detect_language code None))]
          ++ map (fun j => Reviewer.DebugComment j (length l))
               (seq 1 (length l))
          ++ [Reviewer.InfoCompleted]).
Proof.
  intros A.
  pose proof (proj2 (MoreFacts.validate_input_accepted processing (PDict d)) A)
    as V.
  unfold Reviewer.process_review. rewrite V.
  cbn [Spec2.accepted] in A.
  destruct (Dict.get d "code_snippet") as [[| | | |code| |]|]; try discriminate.
  destruct (Dict.get d "review_comments") as [[| | | | |l|]|];
    try discriminate.
  apply andb_true_iff in A as [A Hg].
  destruct (LanguageDetector.detect_language code None) as [language lc]
    eqn:D.
  destruct (MoreFacts.process_comments_all processing resource_mappings
              create_empathy_prompt deployment_name ChatCompletion_create
              l code language Hg 1%nat (length l)
              ([Reviewer.InfoProcessing (length l)]
               ++ [Reviewer.InfoDetected language lc]))
    as (processed & E & Ht).
  exists code, l, processed. repeat split; try assumption.
  - rewrite <- (length_map original processed), Ht.
    clear - Hg. unfold Spec2.texts.
    induction l as [|x l IH]; [reflexivity|].
    cbn [forallb] in Hg. apply andb_true_iff in Hg as [Hx Hl].
    destruct x; try discriminate. cbn. now rewrite IH.
  - rewrite E, D. cbn [fst snd]. now rewrite <- app_assoc.
Qed.

Lemma process_review_accepted_witness :
  exists processed,
    map original processed = ["Fix this"; "Rename x"]
    /\ fst (Reviewer.process_review default_ProcessingConfig []
              (fun _ c _ => original c) "gpt-4"
              (fun _ => Raise (ServiceError "timeout"))
              (fun _ cs _ => FeedbackGenerator.join "; " (map original cs))
              (PDict [("code_snippet", PStr "x = 1");
                      ("review_comments",
                       PList [PStr "Fix this"; PStr "Rename x"])]))
       = Ok "Fix this; Rename x".
Proof.
  destruct (process_review_accepted default_ProcessingConfig []
              (fun _ c _ => original c) "gpt-4"
              (fun _ => Raise (ServiceError "timeout"))
              (fun _ cs _ => FeedbackGenerator.join "; " (map original cs))
              [("code_snippet", PStr "x = 1");
               ("review_comments", PList [PStr "Fix this"; PStr "Rename x"])]
              eq_refl)
    as (code & l & processed & Hc & Hl & Ht & Hn & E).
  injection Hc as <-. injection Hl as <-.
  exists processed. split; [exact Ht|].
  rewrite E. cbn [fst]. now rewrite Ht.
Defined.

(** X9: the impact level in full.  An explicit keyword decides first, high
    before medium before low; without any, security is high, convention is
    low, logic and performance are high exactly when "serious" occurs (the
    other two escalation words, "critical" and "major", are high keywords
    and never reach this rule), and every other category is medium. *)
Theorem impact_level_rules (category : CategoryType) (comment_lower : string) :
  let any level :=
    match Dict.get CategoryClassifier.impact_indicators level with
    | Some l => existsb (fun i => contains i comment_lower) l
    | None => false
    end in
  CategoryClassifier._assess_impact_level category comment_lower
  = Ok (if any "high" then IMPACT_HIGH
        else if any "medium" then IMPACT_MEDIUM
        else if any "low" then IMPACT_LOW
        else match category with
             | SECURITY => IMPACT_HIGH
             | LOGIC | PERFORMANCE =>
                 if contains "serious" comment_lower then IMPACT_HIGH
                 else IMPACT_MEDIUM
             | CONVENTION => IMPACT_LOW
             | _ => IMPACT_MEDIUM
             end).
Proof.
  cbv zeta. unfold CategoryClassifier._assess_impact_level. cbv zeta.
  cbn [find CategoryClassifier.impact_indicators Dict.get String.eqb
       Ascii.eqb Bool.eqb].
  destruct (existsb _ ["critical"; "important"; "major"; "significant";
                       "breaking"; "production"; "user-facing"; "data loss";
                       "security"; "performance"]) eqn:H; [reflexivity|].
  destruct (existsb _ ["moderate"; "noticeable"; "improvement"; "enhancement";
                       "quality"; "maintainability"; "readability"; "team";
                       "developer experience"]); [reflexivity|].
  destruct (existsb _ ["minor"; "small"; "cosmetic"; "style"; "formatting";
                       "convention"; "nice to have"; "optional";
                       "preference"]); [reflexivity|].
  cbn [existsb] in H.
  apply orb_false_iff in H as [Hc H]. apply orb_false_iff in H as [_ H].
  apply orb_false_iff in H as [Hm _].
  destruct category; try reflexivity;
    cbn [existsb]; rewrite Hc, Hm; cbn [orb]; rewrite orb_false_r;
    now destruct (contains "serious" comment_lower).
Qed.

(** X10: [detect_language] answers ['unknown'] with confidence 0.0 or 0.1,
    or a language of its table ([is_supported_language]) with a
    confidence in (0, 1]. *)
Theorem detect_language_result (code_snippet : string)
    (filename : option string) :
  let r := LanguageDetector.detect_language code_snippet filename in
  r = ("unknown", 0.0) \/ r = ("unknown", 0.1)
  \/ (LanguageInfo.is_supported_language (fst r) = true
      /\ In (fst r) LanguageInfo.get_supported_languages
      /\ 0 < snd r <= 1).
Proof.
  cbv zeta. destruct (all_space code_snippet) eqn:Hs.
  - left. now apply LanguageFacts.language_blank.
  - right.
    destruct (MoreFacts.detect_language_cases code_snippet filename Hs)
      as [(m & _ & _ & ->)|(m & r & v & Em & Hm & Hr & Hin & Hmax & ->)];
      [now left|right].
    cbn [fst snd].
    assert (Hk : In r (Dict.keys LanguageDetector.language_patterns)).
    { rewrite <- (MoreFacts.language_final_keys code_snippet filename).
      now apply DictFacts.max_key_In. }
    split; [now apply DictFacts.mem_keys|]. split; [exact Hk|].
    apply DictFacts.max_value_In in Em as [k Hk'].
    apply Hmax in Hk'. split.
    + unfold pymin. destruct (Qltb 1.0 v); [reflexivity|].
      now apply Qlt_le_trans with m.
    + apply Qle_trans with 1.0; [apply PyNumFacts.pymin_le_r|discriminate].
Qed.

(** X11: [detect_language] answers ['unknown'] exactly when the fragment
    is blank or none of the lower-cased patterns of any language occurs in
    the lower-cased fragment; the file name has no say in it. *)
Theorem detect_language_unknown_iff (code_snippet : string)
    (filename : option string) :
  fst (LanguageDetector.detect_language code_snippet filename) = "unknown"
  <-> all_space code_snippet = true
      \/ no_match (fun c => map lower (LanguageDetector.patterns c))
           LanguageDetector.language_patterns (lower code_snippet) = true.
Proof.
  split.
  - intros H. destruct (all_space code_snippet) eqn:Hs; [now left|right].
    apply MoreFacts.language_scores_zero_iff. apply forallb_forall.
    intros [k b] Hin. cbn [snd]. apply Qeq_bool_iff.
    destruct (MoreFacts.detect_language_cases code_snippet filename Hs)
      as [(m & Em & Hm & _)|(m & r & v & Em & Hm & Hr & Hrv & Hmax & E)].
    + destruct (MoreFacts.language_final_grows code_snippet filename k b Hin)
        as (v & Hv & Hbv).
      pose proof (DictFacts.max_value_ge _ _ Em _ _ Hv) as Hle.
      pose proof (LanguageFacts.analyze_patterns_nonneg _ _ _ Hin) as Hb.
      apply Qle_antisym; [|assumption].
      apply Qle_trans with v; [assumption|]. now rewrite <- Hm.
    + exfalso. rewrite E in H. cbn [fst] in H. subst r.
      apply MoreFacts.unknown_not_language.
      rewrite <- (MoreFacts.language_final_keys code_snippet filename).
      now apply DictFacts.max_key_In.
  - intros [Hs|Hn].
    + now rewrite LanguageFacts.language_blank.
    + apply MoreFacts.language_scores_zero_iff in Hn.
      now rewrite (LanguageFacts.language_unknown_without_score _ filename Hn).
Qed.

(** X12: a file name never hurts: with it the confidence of
    [detect_language] is at least what it is without, and a fragment that
    is recognized without the file name is recognized with it. *)
Theorem filename_never_lowers_confidence (code_snippet : string)
    (filename : option string) :
  snd (LanguageDetector.detect_language code_snippet None)
  <= snd (LanguageDetector.detect_language code_snippet filename)
  /\ (fst (LanguageDetector.detect_language code_snippet filename) = "unknown"
      <-> fst (LanguageDetector.detect_language code_snippet None) = "unknown").
Proof.
  split; [|now rewrite !detect_language_unknown_iff].
  destruct (all_space code_snippet) eqn:Hs.
  - rewrite !LanguageFacts.language_blank by assumption. apply Qle_refl.
  - destruct (MoreFacts.detect_language_cases code_snippet None Hs)
      as [(m0 & Em0 & Hm0 & E0)|(m0 & r0 & v0 & Em0 & Hm0 & Hr0 & Hin0 & Hmax0 & E0)].
    + assert (U : fst (LanguageDetector.detect_language code_snippet None)
                  = "unknown") by now rewrite E0.
      apply (detect_language_unknown_iff code_snippet None) in U.
      rewrite Hs in U. destruct U as [U|U]; [discriminate|].
      apply MoreFacts.language_scores_zero_iff in U.
      rewrite (LanguageFacts.language_unknown_without_score _ filename U),
        (LanguageFacts.language_unknown_without_score _ None U).
      apply Qle_refl.
    + destruct (MoreFacts.language_final_grows code_snippet filename r0 v0 Hin0)
        as (v' & Hv' & Hle).
      destruct (MoreFacts.detect_language_cases code_snippet filename Hs)
        as [(m1 & Em1 & Hm1 & E1)|(m1 & r1 & v1 & Em1 & Hm1 & Hr1 & Hin1 & Hmax1 & E1)].
      * exfalso.
        pose proof (DictFacts.max_value_ge _ _ Em1 _ _ Hv') as H1.
        apply DictFacts.max_value_In in Em0 as [k0 Hk0].
        apply Hmax0 in Hk0.
        assert (0 < m1).
        { apply Qlt_le_trans with m0; [assumption|].
          apply Qle_trans with v0; [assumption|].
          now apply Qle_trans with v'. }
        rewrite Hm1 in H. now apply Qlt_irrefl in H.
      * rewrite E0, E1. cbn [snd]. apply MoreFacts.pymin_mono.
        apply Qle_trans with v'; [assumption|]. exact (Hmax1 _ _ Hv').
Qed.

(** X13: [_detect_from_filename] ignores the case of the file name, and
    a language it returns is in the table with an extension that ends the
    lower-cased file name. *)
Theorem detect_from_filename_sound (filename : string) :
  LanguageDetector._detect_from_filename (lower filename)
  = LanguageDetector._detect_from_filename filename
  /\ forall language,
       LanguageDetector._detect_from_filename filename = Some language ->
       exists config ext,
         In (language, config) LanguageDetector.language_patterns
         /\ In ext (LanguageDetector.file_extensions config)
         /\ endswith (lower filename) ext = true.
Proof.
  split.
  - unfold LanguageDetector._detect_from_filename.
    now rewrite MoreFacts.lower_idem.
  - intros language. unfold LanguageDetector._detect_from_filename.
    cbv zeta.
    destruct (find _ LanguageDetector.language_patterns) as [[l config]|]
      eqn:F; [|discriminate].
    intros [= <-]. apply find_some in F as [Hin Hex].
    apply existsb_exists in Hex as (ext & Hext & He).
    exists config, ext. auto.
Qed.

Lemma detect_from_filename_sound_witness :
  exists config ext,
    In ("typescript", config) LanguageDetector.language_patterns
    /\ In ext (LanguageDetector.file_extensions config)
    /\ endswith (lower "View.TSX") ext = true.
Proof.
  apply (proj2 (detect_from_filename_sound "View.TSX") "typescript").
  reflexivity.
Defined.

(** X14: [classify_comment] answers general exactly when no category
    pattern occurs in the lower-cased comment, whatever the code snippet,
    and then with confidence 0.3 and impact low. *)
Theorem general_iff_no_pattern (comment : string)
    (code_snippet : option string) :
  exists cat conf impact,
    CategoryClassifier.classify_comment comment code_snippet
    = Ok (cat, conf, impact)
    /\ (cat = GENERAL
        <-> no_match CategoryClassifier.patterns
              CategoryClassifier.category_patterns (lower comment) = true)
    /\ (cat = GENERAL -> conf = 0.3 /\ impact = IMPACT_LOW).
Proof.
  rewrite CategoryFacts.classify_comment_unfold.
  pose proof (MoreFacts.category_final_empty_iff comment code_snippet) as Hiff.
  destruct (Dict.max_key (category_final comment code_snippet)) as [s|] eqn:E.
  - assert (Hk : In s (Dict.keys CategoryClassifier.category_patterns)).
    { eapply CategoryFacts.category_final_key.
      apply DictFacts.max_key_In. exact E. }
    destruct (CategoryFacts.category_of_key s Hk) as (cat & -> & Hv).
    cbn [bind].
    destruct (CategoryFacts.assess_impact_level_total cat (lower comment))
      as [impact ->].
    cbn [bind]. do 3 eexists. split; [reflexivity|].
    assert (Hg : cat <> GENERAL).
    { intros ->. apply MoreFacts.general_not_key. now rewrite <- Hv in Hk. }
    split; [|intros; contradiction].
    split; [intros; contradiction|].
    intros Hn. apply Hiff in Hn. apply DictFacts.max_key_None in Hn.
    congruence.
  - do 3 eexists. split; [reflexivity|].
    apply DictFacts.max_key_None in E. split; [|auto].
    split; [intros _; now apply Hiff|reflexivity].
Qed.

(** X15: a code snippet changes neither which categories have a score nor
    their order in the score map, and it never lowers a score: every
    category scores with the snippet at least what it scores without. *)
Theorem code_context_only_boosts (comment : string)
    (code_snippet : option string) :
  Dict.keys (category_final comment code_snippet)
  = Dict.keys (category_final comment None)
  /\ forall k b,
       In (k, b) (category_final comment None) ->
       exists v, In (k, v) (category_final comment code_snippet) /\ b <= v.
Proof.
  split; [now rewrite !CategoryFacts.keys_category_final|].
  intros k b Hin. unfold category_final in *. cbv zeta in *.
  destruct code_snippet as [code|];
    [|exists b; split; [assumption|apply Qle_refl]].
  destruct (truthy code);
    [|exists b; split; [assumption|apply Qle_refl]].
  apply MoreFacts.apply_code_context_grows; [|assumption].
  apply CategoryFacts.category_scores_pos.
Qed.

Lemma code_context_only_boosts_witness :
  exists v,
    In ("performance", v)
       (category_final "this loop is slow" (Some "for x in xs: pass"))
    /\ 2 / 20 <= v.
Proof.
  destruct (proj2 (code_context_only_boosts "this loop is slow"
                     (Some "for x in xs: pass")) "performance"
              (60000 # 600000)) as (v & Hv & Hle).
  - vm_compute. left. reflexivity.
  - exists v. split; [exact Hv|].
    apply Qle_trans with (60000 # 600000); [discriminate|exact Hle].
Defined.

(** X16: [get_resources] returns at most three links, all taken from the
    entry of the table for the language and category or, when that gives
    nothing, at most two from the entry for python and the category; it
    returns none when neither entry exists. *)
Theorem get_resources_from_table
    (resource_mappings : Dict.t (Dict.t (list string)))
    (language category : string) :
  let r := ResourceManager.get_resources resource_mappings language category in
  (length r <= 3)%nat
  /\ (forall url, In url r ->
        exists l,
          In url l
          /\ (ResourceManager.lookup2 resource_mappings language category
              = Some l
              \/ (ResourceManager.lookup2 resource_mappings "python" category
                  = Some l /\ (length r <= 2)%nat)))
  /\ (ResourceManager.lookup2 resource_mappings language category = None ->
      ResourceManager.lookup2 resource_mappings "python" category = None ->
      r = []).
Proof.
  cbv zeta. unfold ResourceManager.get_resources.
  destruct (ResourceManager.lookup2 resource_mappings language category)
    as [l|] eqn:E1.
  - destruct (firstn 3 l) as [|x xs] eqn:F.
    + destruct (ResourceManager.lookup2 resource_mappings "python" category)
        as [l2|] eqn:E2.
      * split; [pose proof (firstn_le_length 2 l2); simpl in *; lia|].
        split; [|discriminate]. intros url Hin. exists l2.
        split; [eapply MoreFacts.firstn_incl; eauto|]. right.
        split; [reflexivity|]. apply firstn_le_length.
      * split; [simpl; lia|]. split; [intros ? []|discriminate].
    + rewrite <- F. split; [apply firstn_le_length|].
      split; [|discriminate]. intros url Hin. exists l.
      split; [eapply MoreFacts.firstn_incl; eauto|now left].
  - destruct (ResourceManager.lookup2 resource_mappings "python" category)
      as [l2|] eqn:E2.
    + split; [pose proof (firstn_le_length 2 l2); simpl in *; lia|].
      split; [|discriminate]. intros url Hin. exists l2.
      split; [eapply MoreFacts.firstn_incl; eauto|]. right.
      split; [reflexivity|]. apply firstn_le_length.
    + split; [simpl; lia|]. split; [intros ? []|reflexivity].
Qed.

Lemma get_resources_from_table_witness :
  ResourceManager.get_resources [("go", [("style", ["a"])])] "go" "logic"
  = [].
Proof.
  apply (proj2 (proj2 (get_resources_from_table
                         [("go", [("style", ["a"])])] "go" "logic")));
    reflexivity.
Defined.

(** X17: with the table of [Config.get_resource_mappings], every comment
    whose category is not general gets two or three links, whatever the
    detected language (also ['unknown']), and a general comment gets
    none. *)
Theorem configured_resources_count (language : string) (cat : CategoryType) :
  let r :=
    ResourceManager.get_resources Config.get_resource_mappings language
      (category_value cat) in
  (cat = GENERAL -> r = [])
  /\ (cat <> GENERAL -> (2 <= length r <= 3)%nat).
Proof.
  cbv zeta. unfold ResourceManager.get_resources, ResourceManager.lookup2.
  cbn [Dict.get Config.get_resource_mappings].
  destruct (String.eqb language "python");
  [|destruct (String.eqb language "javascript");
    [|destruct (String.eqb language "java");
      [|destruct (String.eqb language "typescript")]]];
  destruct cat; cbn; split; intros; try congruence; try lia.
Qed.

Lemma configured_resources_count_witness :
  (2 <= length (ResourceManager.get_resources Config.get_resource_mappings
                  "rust" "security") <= 3)%nat.
Proof.
  apply (proj2 (configured_resources_count "rust" SECURITY)). discriminate.
Defined.

(** X18: whatever the service answers, the sections [_parse_response]
    returns are keyed by ['rephrase'], ['explanation'], ['code'] and
    ['learning'] only, each at most once; and a text none of whose lines
    starts with a marker gives no section at all. *)
Theorem parse_response_sections (content : string) :
  incl (Dict.keys (FeedbackGenerator._parse_response content))
       ["rephrase"; "explanation"; "code"; "learning"]
  /\ NoDup (Dict.keys (FeedbackGenerator._parse_response content))
  /\ (Spec2.marker_free content = true ->
      FeedbackGenerator._parse_response content = []).
Proof.
  destruct (MoreFacts.parse_response_keys content) as [Hi ND].
  split; [exact Hi|]. split; [exact ND|].
  apply MoreFacts.parse_response_marker_free.
Qed.

Lemma parse_response_sections_witness :
  FeedbackGenerator._parse_response "Sorry, I cannot help with that." = [].
Proof.
  apply (proj2 (proj2 (parse_response_sections
                         "Sorry, I cannot help with that."))).
  reflexivity.
Defined.

(** X19: when the service answers, [generate_empathetic_response] leaves
    the original text, severity, category, impact level, confidence and
    resources of the comment as they were (the confidence drops to 0.3 only
    on the fallback path); and when the stripped answer has no marker line
    the four generated texts are the built-in defaults. *)
Theorem generate_on_answer
    (create_empathy_prompt : string -> ReviewComment -> string -> string)
    (deployment_name : string)
    (ChatCompletion_create : FeedbackGenerator.chat_request -> result string)
    (code_snippet : string) (comment : ReviewComment) (language : string)
    (processing_config : ProcessingConfig) (text : string) :
  ChatCompletion_create
    (FeedbackGenerator.completion_request deployment_name
       (create_empathy_prompt code_snippet comment language)
       processing_config) = Ok text ->
  let r :=
    FeedbackGenerator.generate_empathetic_response create_empathy_prompt
      deployment_name ChatCompletion_create code_snippet comment language
      processing_config in
  original r = original comment
  /\ severity r = severity comment
  /\ category r = category comment
  /\ impact_level r = impact_level comment
  /\ confidence r = confidence comment
  /\ resources r = resources comment
  /\ (Spec2.marker_free (strip text) = true ->
      positive_rephrase r = "Great work! Here's a suggestion."
      /\ explanation r = "This will enhance code quality."
      /\ code_suggestion r = "// Improved code here"
      /\ learning_objective r = "Focus on best practices.").
Proof.
  intros H r. subst r.
  unfold FeedbackGenerator.generate_empathetic_response. rewrite H.
  repeat split.
  all: rewrite (MoreFacts.parse_response_marker_free _ H0); reflexivity.
Qed.

Lemma generate_on_answer_witness :
  let comment :=
    Reviewer.classified "This is wrong" HIGH LOGIC IMPACT_MEDIUM 0.9 in
  let r :=
    FeedbackGenerator.generate_empathetic_response
      (fun _ c _ => original c) "gpt-4" (fun _ => Ok "  No idea.  ")
      "x = 1" comment "python" default_ProcessingConfig in
  confidence r = 0.9
  /\ positive_rephrase r = "Great work! Here's a suggestion.".
Proof.
  intros comment r.
  destruct (generate_on_answer (fun _ c _ => original c) "gpt-4"
              (fun _ => Ok "  No idea.  ") "x = 1" comment "python"
              default_ProcessingConfig "  No idea.  " eq_refl)
    as (_ & _ & _ & _ & Hc & _ & Hd).
  split; [exact Hc|]. exact (proj1 (Hd eq_refl)).
Defined.

(** X20: in the summary of [_create_review_summary] the total is the
    number of comments, the severity distribution holds for each severity
    the number of comments that carry it (so its counts add up to the
    total), the high-impact count is at most the total, and the average
    confidence lies in [0, 1] when every confidence does (0 for no
    comment). *)
Theorem review_summary_counts
    (list_of_set : list CategoryType -> list CategoryType) (now : string)
    (comments : list ReviewComment) (language : string)
    (processing_time : Q) :
  let s :=
    ReviewData._create_review_summary list_of_set now comments language
      processing_time in
  ReviewData.total_comments s = length comments
  /\ (forall sev,
        Spec2.count_of (ReviewData.severity_distribution s)
          (severity_value sev)
        = Spec2.severity_count sev comments)
  /\ (Spec2.count_of (ReviewData.severity_distribution s) "critical"
      + Spec2.count_of (ReviewData.severity_distribution s) "high"
      + Spec2.count_of (ReviewData.severity_distribution s) "medium"
      + Spec2.count_of (ReviewData.severity_distribution s) "low")%nat
     = ReviewData.total_comments s
  /\ (ReviewData.high_impact_count s <= ReviewData.total_comments s)%nat
  /\ ((forall c, In c comments -> 0 <= confidence c <= 1) ->
      0 <= ReviewData.avg_confidence s <= 1).
Proof.
  cbv zeta. cbn [ReviewData._create_review_summary ReviewData.total_comments
                 ReviewData.severity_distribution ReviewData.high_impact_count
                 ReviewData.avg_confidence].
  assert (D : forall sev,
    Spec2.count_of (fold_left ReviewData.count_severity comments [])
      (severity_value sev) = Spec2.severity_count sev comments).
  { intros sev. now rewrite MoreFacts.count_severity_fold. }
  split; [reflexivity|]. split; [exact D|]. split.
  - rewrite <- (MoreFacts.severity_count_total comments).
    now rewrite <- (D CRITICAL), <- (D HIGH), <- (D MEDIUM), <- (D LOW).
  - split; [apply filter_length_le|].
    intros H. destruct comments as [|c comments]; [split; discriminate|].
    destruct (MoreFacts.sum_confidence_bounds (c :: comments) H 0) as [L U].
    fold (ReviewData.sum_confidence (c :: comments)) in L, U.
    assert (P : 0 < of_nat (length (c :: comments))).
    { apply PyNumFacts.of_nat_pos. simpl. lia. }
    split.
    + apply Qle_shift_div_l; [exact P|]. now rewrite Qmult_0_l.
    + apply Qle_shift_div_r; [exact P|]. rewrite Qmult_1_l.
      now rewrite Qplus_0_l in U.
Qed.

Lemma review_summary_counts_witness :
  let s :=
    ReviewData._create_review_summary (fun l => l) "2024-01-01 00:00:00"
      [Reviewer.classified "a" HIGH LOGIC IMPACT_HIGH 0.5;
       Reviewer.classified "b" LOW GENERAL IMPACT_LOW 0.3]
      "python" 0.1 in
  0 <= ReviewData.avg_confidence s <= 1.
Proof.
  intros s.
  apply (proj2 (proj2 (proj2 (proj2
           (review_summary_counts (fun l => l) "2024-01-01 00:00:00"
              [Reviewer.classified "a" HIGH LOGIC IMPACT_HIGH 0.5;
               Reviewer.classified "b" LOW GENERAL IMPACT_LOW 0.3]
              "python" 0.1))))).
  intros c [<-|[<-|[]]]; split; discriminate.
Defined.

(** X21: the report of [generate_hackathon_report] shows, for every
    comment it is given, the original text, the positive rephrasing, the
    explanation and the code suggestion, and it states the number of
    comments. *)
Theorem report_shows_every_comment (code_snippet : string)
    (comments : list ReviewComment) (language : string)
    (comment : ReviewComment) :
  In comment comments ->
  let report :=
    HackathonFormatter.generate_hackathon_report code_snippet comments
      language in
  contains (original comment) report = true
  /\ contains (positive_rephrase comment) report = true
  /\ contains (explanation comment) report = true
  /\ contains (code_suggestion comment) report = true
  /\ contains ("The " ++ Reviewer.str_of_nat (length comments)
               ++ " suggestions")%string report = true.
Proof.
  intros Hin report. subst report.
  unfold HackathonFormatter.generate_hackathon_report. cbv zeta.
  assert (L : forall line,
    In line (HackathonFormatter.comment_lines language comment) ->
    forall p, contains p line = true ->
    contains p
      (FeedbackGenerator.join (String FeedbackGenerator.newline EmptyString)
         (flat_map (HackathonFormatter.comment_lines language) comments
          ++ HackathonFormatter.closing_lines comments)) = true).
  { intros line Hl p Hp. apply MoreFacts.contains_trans with line; [exact Hp|].
    apply MoreFacts.contains_join. apply in_or_app. left.
    apply in_flat_map. eauto. }
  repeat split.
  - eapply L; [right; left; reflexivity|].
    apply MoreFacts.contains_skip, MoreFacts.contains_skip,
      MoreFacts.contains_here.
  - eapply L; [do 3 right; left; reflexivity|].
    apply MoreFacts.contains_skip, MoreFacts.contains_skip,
      MoreFacts.contains_here.
  - eapply L; [do 5 right; left; reflexivity|].
    apply MoreFacts.contains_skip, MoreFacts.contains_refl.
  - eapply L; [do 9 right; left; reflexivity|].
    apply MoreFacts.contains_refl.
  - eapply MoreFacts.contains_trans;
      [|apply MoreFacts.contains_join; apply in_or_app; right;
        do 4 right; left; reflexivity].
    apply MoreFacts.contains_iff.
    exists "Great work on this code! "%string. eexists.
    rewrite !MoreFacts.append_assoc'. reflexivity.
Qed.

Lemma report_shows_every_comment_witness :
  contains "Rename x"
    (HackathonFormatter.generate_hackathon_report "x = 1"
       [Reviewer.classified "Fix this" HIGH LOGIC IMPACT_HIGH 0.5;
        Reviewer.classified "Rename x" LOW READABILITY IMPACT_LOW 0.4]
       "python") = true.
Proof.
  apply (report_shows_every_comment "x = 1"
           [Reviewer.classified "Fix this" HIGH LOGIC IMPACT_HIGH 0.5;
            Reviewer.classified "Rename x" LOW READABILITY IMPACT_LOW 0.4]
           "python"
           (Reviewer.classified "Rename x" LOW READABILITY IMPACT_LOW 0.4)).
  simpl. tauto.
Defined.

(** X22: the prompt of [create_empathy_prompt] quotes the original
    comment, names the language and carries the code snippet, whatever
    they are. *)
Theorem prompt_carries_inputs (code_snippet : string)
    (comment : ReviewComment) (language : string) :
  let prompt :=
    PromptEngineer.create_empathy_prompt code_snippet comment language in
  contains (FeedbackGenerator.dquote ++ original comment
            ++ FeedbackGenerator.dquote)%string prompt = true
  /\ contains language prompt = true
  /\ contains code_snippet prompt = true.
Proof.
  cbv zeta. unfold PromptEngineer.create_empathy_prompt.
  split; [|split].
  - repeat first [apply MoreFacts.contains_here3
                 | apply MoreFacts.contains_skip].
  - repeat first [apply MoreFacts.contains_here
                 | apply MoreFacts.contains_skip].
  - repeat first [apply MoreFacts.contains_here
                 | apply MoreFacts.contains_skip].
Qed.

Example resource_names :
  ResourceNames.extract_resource_name
    "https://realpython.com/python-code-quality/" = "Python Code Quality"
  /\ ResourceNames.extract_resource_name
       "https://docs.python.org/3/library/profile.html"
     = "Python Documentation: Profile"
  /\ ResourceNames.extract_resource_name "https://pep8.org/"
     = "PEP 8 Style Guide"
  /\ ResourceNames.extract_resource_name
       "https://google.github.io/styleguide/pyguide.html"
     = "Google Style Guide: Pyguide"
  /\ ResourceNames.extract_resource_name "index.html"
     = "Related Documentation"
  /\ ResourceNames.extract_resource_name
       "https://web.dev/fast_and-SLOW  pages" = "Fast And Slow Pages".
Proof. repeat split. Qed.

(** X23: [extract_resource_name] never returns an empty name, whatever the
    URL (also when the [try] block fails), and every URL that mentions
    "pep8.org" is named "PEP 8 Style Guide". *)
Theorem resource_name_nonempty (url : string) :
  truthy (ResourceNames.extract_resource_name url) = true
  /\ (contains "pep8.org" url = true ->
      ResourceNames.extract_resource_name url = "PEP 8 Style Guide").
Proof.
  unfold ResourceNames.extract_resource_name,
    ResourceNames.extract_resource_name_body. cbv zeta.
  unfold ResourceNames.from_end. cbn [Nat.pred].
  destruct (rev (FeedbackGenerator.split_on "/" url)) as [|name rest] eqn:R.
  { exfalso. apply (f_equal (@rev string)) in R.
    rewrite rev_involutive in R.
    now apply MoreFacts.split_on_nonempty in R. }
  cbn [nth_error].
  destruct (negb (truthy name) || in_list name [EmptyString; "index.html"])
    eqn:B.
  - destruct rest as [|name2 rest]; cbn [nth_error].
    + split; [reflexivity|]. intros Hp. exfalso.
      apply (f_equal (@rev string)) in R. rewrite rev_involutive in R.
      cbn in R. apply MoreFacts.split_on_single in R. subst name.
      apply orb_true_iff in B as [B|B].
      * destruct url; [discriminate Hp|discriminate B].
      * cbn in B. rewrite orb_false_r in B.
        apply orb_true_iff in B as [B|B]; apply String.eqb_eq in B;
          subst url; discriminate Hp.
    + destruct (contains "pep8.org" url); [split; reflexivity|].
      split; [|discriminate].
      repeat match goal with
             | |- context [if contains ?a url then _ else _] =>
                 destruct (contains a url)
             end;
      try reflexivity;
      match goal with
      | |- truthy (if truthy ?n then _ else _) = true =>
          destruct n; reflexivity
      end.
  - destruct (contains "pep8.org" url); [split; reflexivity|].
    split; [|discriminate].
    repeat match goal with
           | |- context [if contains ?a url then _ else _] =>
               destruct (contains a url)
           end;
    try reflexivity;
    match goal with
    | |- truthy (if truthy ?n then _ else _) = true =>
        destruct n; reflexivity
    end.
Qed.

Lemma resource_name_nonempty_witness :
  ResourceNames.extract_resource_name "pep8.org" = "PEP 8 Style Guide".
Proof.
  apply (proj2 (resource_name_nonempty "pep8.org")). reflexivity.
Defined.

(** X24: [_analyze_comment] returns for every comment, code snippet and
    service: the record carries the comment, the severity of
    [analyze_sentiment], the category and impact of [classify_comment] and
    the links of [get_resources] for the language and that category.  Its
    confidence is decided by the completion service, called with the prompt
    for the classified comment: the smaller of the two classifier
    confidences when the service answers, and 0.3, with the fallback texts,
    when the service raises; in both cases it is at most 1. *)
Theorem analyze_comment_record processing resource_mappings
    create_empathy_prompt deployment_name ChatCompletion_create
    (comment_text code_snippet language : string) :
  exists sev sc ad cat cc impact r,
    SentimentAnalyzer.analyze_sentiment comment_text = Ok (sev, sc, ad)
    /\ CategoryClassifier.classify_comment comment_text (Some code_snippet)
       = Ok (cat, cc, impact)
    /\ Reviewer._analyze_comment processing resource_mappings
         create_empathy_prompt deployment_name ChatCompletion_create
         comment_text code_snippet language = Ok r
    /\ original r = comment_text
    /\ severity r = sev /\ category r = cat /\ impact_level r = impact
    /\ match
         ChatCompletion_create
           (FeedbackGenerator.completion_request deployment_name
              (create_empathy_prompt code_snippet
                 (Reviewer.classified comment_text sev cat impact
                    (pymin sc cc)) language)
              processing)
       with
       | Ok _ => confidence r = pymin sc cc
       | Raise _ =>
           confidence r = 0.3
           /\ positive_rephrase r
              = "Great work! Here's an opportunity to enhance this further."
           /\ explanation r
              = "This improvement will enhance code quality and maintainability."
           /\ code_suggestion r = "// Enhanced code would go here"
           /\ learning_objective r
              = "Focus on continuous improvement and best practices."
       end
    /\ confidence r <= 1
    /\ resources r
       = ResourceManager.get_resources resource_mappings language
           (category_value cat).
Proof.
  destruct (SentimentFacts.analyze_sentiment_total comment_text)
    as (sev & sc & ad & Es).
  destruct (CategoryFacts.classify_comment_total comment_text
              (Some code_snippet)) as (cat & cc & impact & Ec).
  exists sev, sc, ad, cat, cc, impact.
  unfold Reviewer._analyze_comment. rewrite Es, Ec. cbn [bind].
  eexists. split; [reflexivity|]. split; [reflexivity|].
  split; [reflexivity|].
  unfold FeedbackGenerator.generate_empathetic_response.
  destruct (ChatCompletion_create _); cbn.
  - repeat split; auto.
    apply Qle_trans with cc; [apply PyNumFacts.pymin_le_r|].
    apply (CategoryFacts.category_confidence_bounds _ _ _ _ _ Ec).
  - repeat split; auto. discriminate.
Qed.

(** X25: a severity other than the fallback, and a category other than
    general, is returned only for a comment in which one of its own
    patterns occurs: either no severity (category) pattern occurs at all
    and the answer is the fallback, or a pattern of the returned label
    occurs in the lower-cased comment. *)
Theorem returned_label_has_pattern (comment : string)
    (code_snippet : option string) :
  (exists sev conf ad,
     SentimentAnalyzer.analyze_sentiment comment = Ok (sev, conf, ad)
     /\ ((no_match SentimentAnalyzer.patterns
            SentimentAnalyzer.severity_patterns (lower comment) = true
          /\ sev = LOW /\ conf = 0.3)
         \/ exists config,
              In (severity_value sev, config)
                 SentimentAnalyzer.severity_patterns
              /\ existsb (fun p => contains p (lower comment))
                   (SentimentAnalyzer.patterns config) = true))
  /\ (exists cat conf impact,
        CategoryClassifier.classify_comment comment code_snippet
        = Ok (cat, conf, impact)
        /\ ((no_match CategoryClassifier.patterns
               CategoryClassifier.category_patterns (lower comment) = true
             /\ cat = GENERAL /\ conf = 0.3 /\ impact = IMPACT_LOW)
            \/ exists config,
                 In (category_value cat, config)
                    CategoryClassifier.category_patterns
                 /\ existsb (fun p => contains p (lower comment))
                      (CategoryClassifier.patterns config) = true)).
Proof.
  split.
  - rewrite SentimentFacts.analyze_sentiment_unfold. cbv zeta.
    destruct (Dict.max_key (severity_final comment)) as [s|] eqn:E.
    + pose proof (DictFacts.max_key_In _ _ E) as Hk.
      destruct (SentimentFacts.severity_of_key s
                  (SentimentFacts.severity_final_key _ _ Hk))
        as (sev & -> & Hv).
      cbn [bind]. do 3 eexists. split; [reflexivity|]. right.
      rewrite Hv. unfold severity_final in Hk.
      rewrite SentimentFacts.keys_apply_modifiers in Hk.
      now apply MoreFacts.severity_key_occurs in Hk.
    + do 3 eexists. split; [reflexivity|]. left.
      apply DictFacts.max_key_None in E.
      apply SentimentFacts.severity_final_empty_iff in E. auto.
  - rewrite CategoryFacts.classify_comment_unfold.
    destruct (Dict.max_key (category_final comment code_snippet)) as [s|]
      eqn:E.
    + pose proof (DictFacts.max_key_In _ _ E) as Hk.
      destruct (CategoryFacts.category_of_key s
                  (CategoryFacts.category_final_key _ _ _ Hk))
        as (cat & -> & Hv).
      cbn [bind].
      destruct (CategoryFacts.assess_impact_level_total cat (lower comment))
        as [impact ->].
      cbn [bind]. do 3 eexists. split; [reflexivity|]. right.
      rewrite Hv. rewrite CategoryFacts.keys_category_final in Hk.
      now apply MoreFacts.category_key_occurs in Hk.
    + do 3 eexists. split; [reflexivity|]. left.
      apply DictFacts.max_key_None in E.
      apply MoreFacts.category_final_empty_iff in E. auto.
Qed.

(** X26: a language is returned only for a fragment in which one of its own
    patterns occurs: when [detect_language] answers a language other than
    ['unknown'], a lower-cased pattern of that language occurs in the
    lower-cased fragment, also when a file name was given. *)
Theorem returned_language_has_pattern (code_snippet : string)
    (filename : option string) :
  fst (LanguageDetector.detect_language code_snippet filename) <> "unknown" ->
  exists config,
    In (fst (LanguageDetector.detect_language code_snippet filename), config)
       LanguageDetector.language_patterns
    /\ existsb (fun p => contains (lower p) (lower code_snippet))
         (LanguageDetector.patterns config) = true.
Proof.
  intros Hn. destruct (all_space code_snippet) eqn:Hs.
  { rewrite LanguageFacts.language_blank in Hn by assumption.
    now contradiction Hn. }
  destruct (MoreFacts.detect_language_cases code_snippet filename Hs)
    as [(m & _ & _ & E)|(m & r & v & Em & Hm & Hr & Hin & Hmax & E)].
  { rewrite E in Hn. now contradiction Hn. }
  rewrite E. cbn [fst].
  assert (Hv : 0 < v).
  { apply DictFacts.max_value_In in Em as [k Hk]. apply Hmax in Hk.
    now apply Qlt_le_trans with m. }
  destruct (MoreFacts.language_final_from _ _ _ _ Hin) as (b & Hb & Eb).
  assert (Hpos : 0 < b) by (destruct Eb as [->| ->]; [assumption|nra]).
  rewrite LanguageFacts.analyze_patterns_select in Hb.
  apply DictFacts.In_select in Hb as [config [Hc Ev]].
  exists config. split; [assumption|].
  destruct (existsb _ _) eqn:Ex; [reflexivity|exfalso].
  unfold language_entry in Ev.
  destruct (LanguageDetector.patterns config) as [|p ps] eqn:Ep;
    [discriminate|]. injection Ev as <-.
  rewrite <- Ep in *. rewrite (MoreFacts.language_raw_score_zero _ _ Ex) in Hpos.
  revert Hpos. unfold Qlt, Qdiv, Qmult. simpl. lia.
Qed.

Lemma returned_language_has_pattern_witness :
  exists config,
    In ("python", config) LanguageDetector.language_patterns
    /\ existsb (fun p => contains (lower p) (lower "def f(x): return x"))
         (LanguageDetector.patterns config) = true.
Proof.
  apply (returned_language_has_pattern "def f(x): return x" (Some "a.py")).
  vm_compute. discriminate.
Defined.
